(** * Auto-resolve Service Desk: the classification and coordination pipeline

    A shallow embedding of
    - [agents/triage-agent/azure_integration.py]   (module [Triage]),
    - [agents/knowledge-agent/azure_integration.py] (module [Knowledge]),
    - [shared/service_bus_coordinator.py]          (module [Coordinator]),
    over a small model of the Python values these files manipulate
    (module [Py]); and, after them, of the coordinator's message queues
    (module [Messaging]), of the ticket selection and mock agents of
    [scripts/demo_orchestrator.py] (module [Orchestrator]) and of the
    three rule-based services [agents/*/main.py] (modules
    [TriageService], [KnowledgeService], [LearningService]).

    Conventions of the embedding.
    - A Python [dict] is an association list in insertion order; tickets,
      classification records and search results are such dicts, exactly as
      in the source, so a missing key is a [KeyError] and not a type error.
    - [try: ... except Exception] is a [match] on a [result].  The type
      [exn] holds exceptions derived from [Exception] only: below, an
      operation that raises always raises one of those.  An exception
      outside that class, such as [asyncio.CancelledError], passes through
      [except Exception] and is not modelled.
    - Services outside the repository (the completion backend, the search
      backend, [json.loads], the clock, [str()] of an arbitrary object) are
      fields of the record that plays the role of [self], or of [builtins].
    - Text and numbers come in two layers.  The modules named above work
      on ASCII text and exact decimal numbers: [str.lower] folds the
      letters A-Z, [str.split] cuts at ASCII white space, [float] reads
      plain decimal numerals ([12], [2.3], [-0.5]) and sums are exact.
      That is what Python computes on ASCII text and on the numerals of
      the examples, not on every input.  The modules [TriageRules],
      [KnowledgeQuery], [Pipeline] and [KeywordSearch] embed the same
      functions with [str.lower], [str.split], [float], [sum] and the
      one-decimal format taken from the interpreter (record
      [Runtime.interpreter]); [Pipeline] also records the agents the
      coordinator calls.  What depends on lower-casing arbitrary text, on
      binary floating point or on the calls made is stated there, for
      every interpreter. *)

From Stdlib Require Import String Ascii List ZArith QArith Bool Lia DecimalString.
Import ListNotations.
Open Scope string_scope.
Set Warnings "-register-all".

(* ################################################################# *)
(** * Python values, exceptions and the string operations the code uses *)

Module Py.

Inductive value : Type :=
| VNone
| VBool (b : bool)
| VInt (n : Z)
| VFloat (q : Q)
| VStr (s : string)
| VList (l : list value)
| VDict (d : list (string * value)).

Definition dict : Type := list (string * value).

Inductive exn : Type :=
| KeyError (key : string)
| AttributeError (msg : string)
| TypeError (msg : string)
| ValueError (msg : string)
| ExternalError (msg : string).

(** [str(e)]: a [KeyError] prints the [repr] of its key. *)
Definition str_exn (e : exn) : string :=
  match e with
  | KeyError k => "'" ++ k ++ "'"
  | AttributeError m | TypeError m | ValueError m | ExternalError m => m
  end.

Inductive result (A : Type) : Type :=
| Ok (a : A)
| Raise (e : exn).
Arguments Ok {A} a.
Arguments Raise {A} e.

Definition bind {A B : Type} (m : result A) (k : A -> result B) : result B :=
  match m with
  | Ok a => k a
  | Raise e => Raise e
  end.

(** [try: body except Exception: handler].  Every [exn] is derived from
    [Exception], so the handler sees all of them. *)
Definition try_except {A : Type} (body : result A) (handler : exn -> result A)
  : result A :=
  match body with
  | Ok a => Ok a
  | Raise e => handler e
  end.

Definition type_name (v : value) : string :=
  match v with
  | VNone => "NoneType"
  | VBool _ => "bool"
  | VInt _ => "int"
  | VFloat _ => "float"
  | VStr _ => "str"
  | VList _ => "list"
  | VDict _ => "dict"
  end.

Definition no_attribute (v : value) (attr : string) : exn :=
  AttributeError ("'" ++ type_name v ++ "' object has no attribute '" ++ attr ++ "'").

(** Truth value of an object, as tested by [if x] and [x if y else z]. *)
Definition truthy (v : value) : bool :=
  match v with
  | VNone => false
  | VBool b => b
  | VInt n => negb (n =? 0)%Z
  | VFloat q => negb (Qnum q =? 0)%Z
  | VStr s => negb (s =? EmptyString)
  | VList l => match l with [] => false | _ => true end
  | VDict d => match d with [] => false | _ => true end
  end.

(** ** Dictionaries *)

Fixpoint lookup (k : string) (d : dict) : option value :=
  match d with
  | [] => None
  | (k', v) :: d' => if k' =? k then Some v else lookup k d'
  end.

(** [d[k]] *)
Definition getitem (d : dict) (k : string) : result value :=
  match lookup k d with
  | Some v => Ok v
  | None => Raise (KeyError k)
  end.

(** [d.get(k, default)] *)
Definition get (d : dict) (k : string) (default : value) : value :=
  match lookup k d with
  | Some v => v
  | None => default
  end.

(** [d[k] = v]: an existing key keeps its place. *)
Fixpoint setitem (d : dict) (k : string) (v : value) : dict :=
  match d with
  | [] => [(k, v)]
  | (k', v') :: d' => if k' =? k then (k, v) :: d' else (k', v') :: setitem d' k v
  end.

Definition keys (d : dict) : list string := map fst d.

(** [k in d] *)
Definition has_key (d : dict) (k : string) : bool :=
  match lookup k d with
  | Some _ => true
  | None => false
  end.

(** ** Strings *)

Definition string_of_Z (n : Z) : string :=
  NilZero.string_of_uint (N.to_uint (Z.to_N n)).

Definition lower_ascii (c : ascii) : ascii :=
  let n := nat_of_ascii c in
  if (65 <=? n)%nat && (n <=? 90)%nat then ascii_of_nat (n + 32) else c.

(** [s.lower()] on ASCII text: the letters A-Z are folded. *)
Fixpoint lower (s : string) : string :=
  match s with
  | EmptyString => EmptyString
  | String c s' => String (lower_ascii c) (lower s')
  end.

(** [v.lower()] on an arbitrary object. *)
Definition lower_of (v : value) : result string :=
  match v with
  | VStr s => Ok (lower s)
  | _ => Raise (no_attribute v "lower")
  end.

(** [sub in s] *)
Fixpoint contains (sub s : string) : bool :=
  if prefix sub s then true
  else match s with
       | EmptyString => false
       | String _ s' => contains sub s'
       end.

(** [s.find(c)] for a one-character needle: index of the first occurrence,
    [-1] when there is none. *)
Fixpoint find (s : string) (c : ascii) : Z :=
  match s with
  | EmptyString => (-1)%Z
  | String c' s' =>
      if Ascii.eqb c' c then 0%Z
      else let i := find s' c in if (i <? 0)%Z then (-1)%Z else (i + 1)%Z
  end.

(** [s.rfind(c)]: index of the last occurrence, [-1] when there is none. *)
Fixpoint rfind (s : string) (c : ascii) : Z :=
  match s with
  | EmptyString => (-1)%Z
  | String c' s' =>
      let i := rfind s' c in
      if (0 <=? i)%Z then (i + 1)%Z
      else if Ascii.eqb c' c then 0%Z else (-1)%Z
  end.

(** [s[i:j]] for [0 <= i]; an end before the start gives the empty string. *)
Definition slice (s : string) (i j : Z) : string :=
  substring (Z.to_nat i) (Z.to_nat (j - i)) s.

(** [s.replace(c, "")] for a one-character [c]. *)
Fixpoint remove_char (s : string) (c : ascii) : string :=
  match s with
  | EmptyString => EmptyString
  | String c' s' =>
      if Ascii.eqb c' c then remove_char s' c else String c' (remove_char s' c)
  end.

(** [sep.join(parts)], where a part that is not a [str] is a [TypeError]. *)
Fixpoint strings_of (i : Z) (parts : list value) : result (list string) :=
  match parts with
  | [] => Ok []
  | VStr s :: rest => bind (strings_of (i + 1) rest) (fun ss => Ok (s :: ss))
  | v :: _ =>
      Raise (TypeError ("sequence item " ++ string_of_Z i
                          ++ ": expected str instance, "
                          ++ type_name v ++ " found"))
  end.

Definition join (sep : string) (parts : list value) : result string :=
  bind (strings_of 0 parts) (fun ss => Ok (String.concat sep ss)).

(** [v[k]] on an arbitrary object. *)
Definition subscript (v : value) (k : string) : result value :=
  match v with
  | VDict d => getitem d k
  | _ => Raise (TypeError ("'" ++ type_name v ++ "' object is not subscriptable"))
  end.

(** ** Numbers *)

Definition digit_of (c : ascii) : option Z :=
  let n := nat_of_ascii c in
  if (48 <=? n)%nat && (n <=? 57)%nat then Some (Z.of_nat (n - 48)) else None.

(** Value of a run of decimal digits, [None] when another character occurs. *)
Fixpoint digits (s : string) (acc : Z) : option Z :=
  match s with
  | EmptyString => Some acc
  | String c s' =>
      match digit_of c with
      | Some d => digits s' (10 * acc + d)%Z
      | None => None
      end
  end.

(** Split at the first decimal point. *)
Fixpoint split_point (s : string) : string * string :=
  match s with
  | EmptyString => (EmptyString, EmptyString)
  | String c s' =>
      if Ascii.eqb c "." then (EmptyString, s')
      else let '(a, b) := split_point s' in (String c a, b)
  end.

Definition unsigned_decimal (s : string) : option Q :=
  let '(ip, fp) := split_point s in
  if (ip =? EmptyString) && (fp =? EmptyString) then None
  else match digits ip 0, digits fp 0 with
       | Some i, Some f =>
           let scale := Pos.pow 10 (Pos.of_nat (String.length fp)) in
           if fp =? EmptyString then Some (i # 1)
           else Some ((i * Zpos scale + f) # scale)
       | _, _ => None
       end.

(** [float(s)] on plain decimal numerals, read exactly. *)
Definition float_of_string (s : string) : result Q :=
  let '(neg, body) :=
    match s with
    | String "-" r => (true, r)
    | String "+" r => (false, r)
    | _ => (false, s)
    end in
  match unsigned_decimal body with
  | Some q => Ok (if neg then Qopp q else q)
  | None => Raise (ValueError ("could not convert string to float: '" ++ s ++ "'"))
  end.

(** [sum(xs)], exactly. *)
Definition sum (xs : list Q) : Q := fold_left Qplus xs 0%Q.

(** Tenths nearest to [|q|], ties to the even neighbour. *)
Definition round_tenths (q : Q) : Z :=
  let n := (Z.abs (Qnum q) * 10)%Z in
  let d := Zpos (Qden q) in
  let f := (n / d)%Z in
  let r := (n mod d)%Z in
  if (2 * r <? d)%Z then f
  else if (d <? 2 * r)%Z then (f + 1)%Z
  else if Z.even f then f else (f + 1)%Z.

(** [f"{q:.1f}"] of an exact number. *)
Definition format_1f (q : Q) : string :=
  let t := round_tenths q in
  (if (Qnum q <? 0)%Z then "-" else EmptyString)
    ++ string_of_Z (t / 10) ++ "." ++ string_of_Z (t mod 10).

(** Built-ins whose behaviour is outside the repository. *)
Record builtins : Type := {
  (** [json.loads] on a text that starts with an opening brace: the decoded
      object, or [None] when decoding raises. *)
  json_loads : string -> option dict;
  (** [str(v)], as interpolated by an f-string. *)
  str_of : value -> string
}.

(** A ticket of the data model: a dict whose [id] is present and whose
    [title] and [description] are strings. *)
Definition is_ticket (ticket : dict) (ticket_id : value)
  (title description : string) : Prop :=
  getitem ticket "id" = Ok ticket_id
  /\ getitem ticket "title" = Ok (VStr title)
  /\ getitem ticket "description" = Ok (VStr description).

End Py.

Import Py.

Declare Scope py_scope.
Delimit Scope py_scope with py.
Notation "x <- m ;; k" := (bind m (fun x => k))
  (at level 61, m at next level, right associativity) : py_scope.
Notation "' pat <- m ;; k" := (bind m (fun pat => k))
  (at level 61, pat pattern, m at next level, right associativity) : py_scope.
Open Scope py_scope.

(* ################################################################# *)
(** * agents/triage-agent/azure_integration.py *)

Module Triage.

(** [config["azure_services"]["openai"]], the entries [classify_ticket]
    reads. *)
Record openai_config : Type := {
  max_tokens : Z;
  temperature : Q;
  deployment_name : string;
  model : string
}.

(** The objects interpolated in the prompt template; the template's fixed
    text (agent descriptions, answer format) is left out. *)
Record prompt : Type := {
  prompt_title : value;
  prompt_description : value;
  prompt_priority : value
}.

(** Arguments of [chat.completions.create]. *)
Record request : Type := {
  system_message : string;
  user_message : prompt;
  max_completion_tokens : Z;
  request_temperature : Q;
  request_model : string
}.

(** What [classify_ticket] reads of the completion: the first choice's
    message content and the token usage. *)
Record response : Type := {
  content : string;
  prompt_tokens : Z;
  completion_tokens : Z;
  total_tokens : Z
}.

(** [self]: the configuration, the client, and the wall-clock seconds
    measured between the two [time.time()] readings. *)
Record TriageAzureIntegration : Type := {
  config : openai_config;
  create : request -> result response;
  elapsed : Q
}.

Definition _build_classification_prompt (ticket : dict) : result prompt :=
  title <- getitem ticket "title" ;;
  description <- getitem ticket "description" ;;
  Ok {| prompt_title := title;
        prompt_description := description;
        prompt_priority := get ticket "priority" (VStr "Medium") |}.

(** The dictionary returned by the [except] branch of
    [_parse_classification_response]. *)
Definition parse_error_classification : dict :=
  [ ("agent", VStr "Escalation");
    ("category", VStr "Unknown");
    ("priority", VStr "Medium");
    ("confidence", VFloat 0.8);
    ("resolution_time", VStr "120s");
    ("reasoning", VStr "Fallback classification due to parsing error") ].

(** The [try] block of [_parse_classification_response]. *)
Definition extract_json (py : builtins) (response : string) : result dict :=
  let start := find response "{" in
  let end_ := (rfind response "}" + 1)%Z in
  if (0 <=? start)%Z && (start <? end_)%Z then
    match json_loads py (slice response start end_) with
    | Some d => Ok d
    | None => Raise (ValueError "json.loads failed")
    end
  else Raise (ValueError "No JSON found in response").

(** The response holds no parseable JSON object: no opening brace, no
    closing brace after it, or a span that [json.loads] rejects. *)
Definition no_json_object (py : builtins) (response : string) : Prop :=
  (find response "{" < 0)%Z
  \/ (rfind response "}" + 1 <= find response "{")%Z
  \/ json_loads py (slice response (find response "{") (rfind response "}" + 1))
     = None.

Definition _parse_classification_response (py : builtins) (response : string)
  : dict :=
  match extract_json py response with
  | Ok d => d
  | Raise _ => parse_error_classification
  end.

(** [any(word in text for word in words)] *)
Definition any_in (words : list string) (text : string) : bool :=
  existsb (fun word => contains word text) words.

Definition _fallback_classification (ticket : dict) : result dict :=
  title <- getitem ticket "title" ;;
  title_lower <- lower_of title ;;
  description <- getitem ticket "description" ;;
  desc_lower <- lower_of description ;;
  let text := title_lower ++ desc_lower in
  let '(agent, resolution_time) :=
    if any_in ["how"; "guide"; "documentation"; "configure"] text then
      ("Knowledge", "30s")
    else if any_in ["deploy"; "automation"; "workflow"; "pipeline"] text then
      ("Automation", "60s")
    else if any_in ["security"; "vulnerability"; "critical"; "urgent"] text then
      ("Escalation", "90s")
    else if any_in ["report"; "analytics"; "dashboard"; "metrics"] text then
      ("Analytics", "45s")
    else
      ("Escalation", "120s") in
  ticket_id <- getitem ticket "id" ;;
  Ok [ ("ticket_id", ticket_id);
       ("classification",
         VDict [ ("agent", VStr agent);
                 ("category", get ticket "category" (VStr "General"));
                 ("priority", get ticket "priority" (VStr "Medium"));
                 ("confidence", VFloat 0.85);
                 ("resolution_time", VStr resolution_time);
                 ("reasoning", VStr "Fallback rule-based classification") ]);
       ("assigned_agent", VStr agent);
       ("processing_time", VStr "1.2s");
       ("azure_service", VStr "Fallback (Local Rules)") ].

Definition classification_request (self : TriageAzureIntegration) (p : prompt)
  : request :=
  {| system_message :=
       "You are an expert IT support ticket classifier. Respond only with valid JSON.";
     user_message := p;
     max_completion_tokens := max_tokens (config self);
     request_temperature := temperature (config self);
     request_model := deployment_name (config self) |}.

(** The [try] block of [classify_ticket]: the primary path. *)
Definition classify_primary (py : builtins) (self : TriageAzureIntegration)
  (ticket : dict) : result dict :=
  p <- _build_classification_prompt ticket ;;
  resp <- create self (classification_request self p) ;;
  let processing_time := elapsed self in
  let classification := _parse_classification_response py (content resp) in
  ticket_id <- getitem ticket "id" ;;
  Ok [ ("ticket_id", ticket_id);
       ("classification", VDict classification);
       ("confidence", get classification "confidence" (VFloat 0.95));
       ("assigned_agent", get classification "agent" (VStr "Escalation"));
       ("priority",
         get classification "priority" (get ticket "priority" (VStr "Medium")));
       ("estimated_resolution_time",
         get classification "resolution_time" (VStr "120s"));
       ("processing_time", VStr (format_1f processing_time ++ "s"));
       ("azure_service", VStr ("Azure OpenAI " ++ model (config self)));
       ("token_usage",
         VDict [ ("prompt_tokens", VInt (prompt_tokens resp));
                 ("completion_tokens", VInt (completion_tokens resp));
                 ("total_tokens", VInt (total_tokens resp)) ]) ].

Definition classify_ticket (py : builtins) (self : TriageAzureIntegration)
  (ticket : dict) : result dict :=
  try_except (classify_primary py self ticket)
             (fun _ => _fallback_classification ticket).

(** ** The fallback policy in the specification's words

    Keyword sets in priority order, each with the agent it selects; the
    first set with a keyword occurring in the text wins, and [Escalation]
    is the default. *)
Definition keyword_rules : list (list string * string) :=
  [ (["how"; "guide"; "documentation"; "configure"], "Knowledge");
    (["deploy"; "automation"; "workflow"; "pipeline"], "Automation");
    (["security"; "vulnerability"; "critical"; "urgent"], "Escalation");
    (["report"; "analytics"; "dashboard"; "metrics"], "Analytics") ].

Fixpoint first_matching_rule (rules : list (list string * string))
  (text : string) : string :=
  match rules with
  | [] => "Escalation"
  | (words, agent) :: rest =>
      if any_in words text then agent else first_matching_rule rest text
  end.

(** The resolution time that goes with each branch of the fallback. *)
Fixpoint first_matching_time (rules : list (list string * string))
  (times : list string) (text : string) : string :=
  match rules, times with
  | (words, _) :: rest, t :: times' =>
      if any_in words text then t else first_matching_time rest times' text
  | _, _ => "120s"
  end.

Definition fallback_times : list string := ["30s"; "60s"; "90s"; "45s"].

(** The record [_fallback_classification] builds once the agent and the
    resolution time are chosen. *)
Definition fallback_record (ticket : dict) (ticket_id : value)
  (agent resolution_time : string) : dict :=
  [ ("ticket_id", ticket_id);
    ("classification",
      VDict [ ("agent", VStr agent);
              ("category", get ticket "category" (VStr "General"));
              ("priority", get ticket "priority" (VStr "Medium"));
              ("confidence", VFloat 0.85);
              ("resolution_time", VStr resolution_time);
              ("reasoning", VStr "Fallback rule-based classification") ]);
    ("assigned_agent", VStr agent);
    ("processing_time", VStr "1.2s");
    ("azure_service", VStr "Fallback (Local Rules)") ].

(** The record [classify_ticket] builds from a decoded classification. *)
Definition primary_record (self : TriageAzureIntegration) (ticket : dict)
  (ticket_id : value) (classification : dict) (resp : response) : dict :=
  [ ("ticket_id", ticket_id);
    ("classification", VDict classification);
    ("confidence", get classification "confidence" (VFloat 0.95));
    ("assigned_agent", get classification "agent" (VStr "Escalation"));
    ("priority",
      get classification "priority" (get ticket "priority" (VStr "Medium")));
    ("estimated_resolution_time",
      get classification "resolution_time" (VStr "120s"));
    ("processing_time", VStr (format_1f (elapsed self) ++ "s"));
    ("azure_service", VStr ("Azure OpenAI " ++ model (config self)));
    ("token_usage",
      VDict [ ("prompt_tokens", VInt (prompt_tokens resp));
              ("completion_tokens", VInt (completion_tokens resp));
              ("total_tokens", VInt (total_tokens resp)) ]) ].

(** The five routing targets of the data model. *)
Definition agent_names : list string :=
  ["Knowledge"; "Automation"; "Escalation"; "Learning"; "Analytics"].

(** Keys of a record, as a caller sees them. *)
Definition primary_keys : list string :=
  [ "ticket_id"; "classification"; "confidence"; "assigned_agent"; "priority";
    "estimated_resolution_time"; "processing_time"; "azure_service";
    "token_usage" ].

Definition fallback_keys : list string :=
  [ "ticket_id"; "classification"; "assigned_agent"; "processing_time";
    "azure_service" ].

(** The tag that tells the two tiers apart: [azure_service]. *)
Definition is_fallback (record : dict) : bool :=
  match lookup "azure_service" record with
  | Some (VStr s) => s =? "Fallback (Local Rules)"
  | _ => false
  end.

Definition is_primary (self : TriageAzureIntegration) (record : dict) : bool :=
  match lookup "azure_service" record with
  | Some (VStr s) => s =? "Azure OpenAI " ++ model (config self)
  | _ => false
  end.

End Triage.

(* ################################################################# *)
(** * agents/knowledge-agent/azure_integration.py *)

Module Knowledge.

(** [config["azure_services"]["ai_search"]], the entries [search_knowledge]
    reads. *)
Record search_config : Type := {
  search_fields : list string;
  select_fields : list string
}.

(** Arguments of [search_client.search]. *)
Record request : Type := {
  search_text : string;
  request_search_fields : list string;
  select : list string;
  top : Z;
  search_mode : string;
  query_type : string;
  semantic_configuration_name : string
}.

(** [self]: the configuration and the search client.  The client's answer
    is the whole sequence the [async for] loop reads, or the exception
    raised by the call or during the iteration. *)
Record KnowledgeAzureIntegration : Type := {
  config : search_config;
  search : request -> result (list dict)
}.

Definition technical_terms : list string :=
  [ "ssl"; "https"; "certificate"; "deployment"; "configuration";
    "database"; "api"; "authentication"; "caching"; "redis";
    "performance"; "timeout"; "error"; "security"; "vulnerability" ].

Definition _extract_key_terms (text : value) : result (list string) :=
  text_lower <- lower_of text ;;
  let found_terms :=
    filter (fun term => contains term text_lower) technical_terms in
  Ok (firstn 5 found_terms).

Definition _build_search_query (ticket : dict) : result string :=
  title <- getitem ticket "title" ;;
  let query_parts := [title] in
  description <- getitem ticket "description" ;;
  key_terms <- _extract_key_terms description ;;
  let query_parts := (query_parts ++ map VStr key_terms)%list in
  join " " query_parts.

Definition mock_knowledge : list (string * dict) :=
  [ ("ssl",
      [ ("title", VStr "SSL Certificate Configuration Guide");
        ("content", VStr "Step-by-step guide for configuring SSL certificates with Azure Key Vault integration...");
        ("category", VStr "Security") ]);
    ("deployment",
      [ ("title", VStr "Deployment Troubleshooting Guide");
        ("content", VStr "Common deployment issues and solutions for Azure Container Apps...");
        ("category", VStr "Technical") ]);
    ("database",
      [ ("title", VStr "Database Performance Optimization");
        ("content", VStr "Best practices for optimizing database connections and query performance...");
        ("category", VStr "Performance") ]) ].

(** The [for ... break] loop of [_fallback_search]. *)
Fixpoint first_article (articles : list (string * dict)) (text : string)
  : value :=
  match articles with
  | [] => VNone
  | (key, knowledge) :: rest =>
      if contains key text then VDict knowledge else first_article rest text
  end.

Definition _fallback_search (ticket : dict) : result dict :=
  title <- getitem ticket "title" ;;
  title_lower <- lower_of title ;;
  description <- getitem ticket "description" ;;
  desc_lower <- lower_of description ;;
  let best_match := first_article mock_knowledge (title_lower ++ desc_lower) in
  let best_match :=
    if negb (truthy best_match) then
      VDict [ ("title", VStr "General Support Guide");
              ("content", VStr "General troubleshooting steps and support resources...");
              ("category", VStr "General") ]
    else best_match in
  ticket_id <- getitem ticket "id" ;;
  Ok [ ("ticket_id", ticket_id);
       ("search_query", title);
       ("results_found", VInt 1);
       ("best_match", best_match);
       ("relevance_score", VFloat 0.85);
       ("processing_time", VStr "0.8s");
       ("azure_service", VStr "Fallback (Local)") ].

Definition search_request (self : KnowledgeAzureIntegration) (query : string)
  : request :=
  {| search_text := query;
     request_search_fields := search_fields (config self);
     select := select_fields (config self);
     top := 5;
     search_mode := "all";
     query_type := "semantic";
     semantic_configuration_name := "default" |}.

(** One entry of [knowledge_items]. *)
Definition knowledge_item (r : dict) : value :=
  VDict [ ("id", get r "id" VNone);
          ("title", get r "title" VNone);
          ("content", get r "content" VNone);
          ("category", get r "category" VNone);
          ("relevance_score", get r "@search.score" (VFloat 0.0)) ].

(** The [try] block of [search_knowledge]: the primary path. *)
Definition search_primary (self : KnowledgeAzureIntegration) (ticket : dict)
  : result dict :=
  query <- _build_search_query ticket ;;
  results <- search self (search_request self query) ;;
  let knowledge_items := map knowledge_item results in
  let best_match := if truthy (VList knowledge_items)
                    then hd VNone knowledge_items else VNone in
  ticket_id <- getitem ticket "id" ;;
  relevance_score <- (if truthy best_match
                      then subscript best_match "relevance_score"
                      else Ok (VFloat 0.0)) ;;
  Ok [ ("ticket_id", ticket_id);
       ("search_query", VStr query);
       ("results_found", VInt (Z.of_nat (List.length knowledge_items)));
       ("best_match", best_match);
       ("all_results", VList knowledge_items);
       ("relevance_score", relevance_score);
       ("processing_time", VStr "1.8s");
       ("azure_service", VStr "AI Search Semantic") ].

Definition search_knowledge (self : KnowledgeAzureIntegration) (ticket : dict)
  : result dict :=
  try_except (search_primary self ticket) (fun _ => _fallback_search ticket).

(** The terms [_extract_key_terms] finds in a description that is a
    string. *)
Definition key_terms_of (description : string) : list string :=
  firstn 5 (filter (fun term => contains term (lower description))
                   technical_terms).

(** One list is a subsequence of another: same elements, same relative
    order, some possibly left out. *)
Inductive subsequence {A : Type} : list A -> list A -> Prop :=
| subsequence_nil : subsequence [] []
| subsequence_skip x l1 l2 : subsequence l1 l2 -> subsequence l1 (x :: l2)
| subsequence_cons x l1 l2 : subsequence l1 l2 -> subsequence (x :: l1) (x :: l2).

End Knowledge.

(* ################################################################# *)
(** * shared/service_bus_coordinator.py *)

Module Coordinator.

(** One entry of [processing_log["steps"]]. *)
Record step : Type := {
  agent : string;
  duration : value;
  step_result : dict
}.

(** [processing_log]; the keys [end_time] and [error] are absent ([None])
    until the code sets them. *)
Record processing_log : Type := {
  ticket_id : value;
  start_time : string;
  steps : list step;
  total_time : value;
  status : string;
  end_time : option string;
  error : option string
}.

Definition value_of_step (st : step) : value :=
  VDict [ ("agent", VStr (agent st));
          ("duration", duration st);
          ("result", VDict (step_result st)) ].

Definition optional_key (k : string) (o : option string) : dict :=
  match o with
  | Some s => [(k, VStr s)]
  | None => []
  end.

(** The log as the object handed to the analytics agent. *)
Definition value_of_log (log : processing_log) : value :=
  VDict ([ ("ticket_id", ticket_id log);
           ("start_time", VStr (start_time log));
           ("steps", VList (map value_of_step (steps log)));
           ("total_time", total_time log);
           ("status", VStr (status log)) ]
           ++ optional_key "end_time" (end_time log)
           ++ optional_key "error" (error log))%list.

(** [self]: successive readings of [datetime.now().isoformat()], and the
    method [_process_with_agent] as dispatched on the instance. *)
Record ServiceBusCoordinator : Type := {
  now : nat -> string;
  process_with_agent : string -> dict -> result dict
}.

(** ** Statements that update the log and may raise

    An exception leaves the log as the statements before it made it. *)
Definition action (A : Type) : Type :=
  processing_log -> processing_log * result A.

Definition ret {A : Type} (a : A) : action A :=
  fun log => (log, Ok a).

Definition and_then {A B : Type} (m : action A) (k : A -> action B) : action B :=
  fun log =>
    match m log with
    | (log', Ok a) => k a log'
    | (log', Raise e) => (log', Raise e)
    end.

Definition lift {A : Type} (r : result A) : action A :=
  fun log => (log, r).

Definition read : action processing_log :=
  fun log => (log, Ok log).

(** The log after [processing_log["steps"].append(st)]. *)
Definition with_step (log : processing_log) (st : step) : processing_log :=
  {| ticket_id := ticket_id log;
     start_time := start_time log;
     steps := steps log ++ [st];
     total_time := total_time log;
     status := status log;
     end_time := end_time log;
     error := error log |}.

Definition append_step (st : step) : action unit :=
  fun log => (with_step log st, Ok tt).

(** The three assignments that close the [try] block. *)
Definition complete (total : string) (stamp : string) : action unit :=
  fun log =>
    ({| ticket_id := ticket_id log;
        start_time := start_time log;
        steps := steps log;
        total_time := VStr total;
        status := "completed";
        end_time := Some stamp;
        error := error log |}, Ok tt).

(** The two assignments of the [except] block. *)
Definition fail (e : exn) (log : processing_log) : processing_log :=
  {| ticket_id := ticket_id log;
     start_time := start_time log;
     steps := steps log;
     total_time := total_time log;
     status := "failed";
     end_time := end_time log;
     error := Some (str_exn e) |}.

Notation "x <~ m ;; k" := (and_then m (fun x => k))
  (at level 61, m at next level, right associativity) : py_scope.

(** The agent the [if]/[elif] chain calls for a lower-cased assignment. *)
Definition route (assigned_agent : string) : string :=
  if assigned_agent =? "knowledge" then "knowledge"
  else if assigned_agent =? "automation" then "automation"
  else if assigned_agent =? "escalation" then "escalation"
  else if assigned_agent =? "learning" then "learning"
  else if assigned_agent =? "analytics" then "analytics"
  else "escalation".

(** [float(step["duration"].replace("s", ""))] *)
Definition seconds_of (d : value) : result Q :=
  match d with
  | VStr s => float_of_string (remove_char s "s")
  | _ => Raise (no_attribute d "replace")
  end.

(** The list comprehension over [processing_log["steps"]]. *)
Fixpoint durations (sts : list step) : result (list Q) :=
  match sts with
  | [] => Ok []
  | st :: rest =>
      d <- seconds_of (duration st) ;;
      ds <- durations rest ;;
      Ok (d :: ds)
  end.

(** The [try] block of [coordinate_ticket_processing]. *)
Definition process_steps (self : ServiceBusCoordinator) (ticket : dict)
  : action unit :=
  triage_result <~ lift (process_with_agent self "triage" ticket) ;;
  _ <~ append_step {| agent := "triage";
                      duration := VStr "2.3s";
                      step_result := triage_result |} ;;
  assigned_agent <~
    lift (lower_of (get triage_result "assigned_agent" (VStr "escalation"))) ;;
  agent_result <~ lift (process_with_agent self (route assigned_agent) ticket) ;;
  _ <~ append_step {| agent := assigned_agent;
                      duration := get agent_result "processing_time" (VStr "60s");
                      step_result := agent_result |} ;;
  log <~ read ;;
  analytics_result <~
    lift (process_with_agent self "analytics"
            (setitem ticket "processing_log" (value_of_log log))) ;;
  _ <~ append_step {| agent := "analytics";
                      duration := VStr "0.5s";
                      step_result := analytics_result |} ;;
  log <~ read ;;
  seconds <~ lift (durations (steps log)) ;;
  let total_seconds := sum seconds in
  complete (format_1f total_seconds ++ "s") (now self 1).

(** The log as created before the [try] block. *)
Definition initial_log (self : ServiceBusCoordinator) (ticket_id : value)
  : processing_log :=
  {| ticket_id := ticket_id;
     start_time := now self 0;
     steps := [];
     total_time := VInt 0;
     status := "processing";
     end_time := None;
     error := None |}.

Definition coordinate_ticket_processing (self : ServiceBusCoordinator)
  (ticket : dict) : result processing_log :=
  ticket_id <- getitem ticket "id" ;;
  let processing_log := initial_log self ticket_id in
  match process_steps self ticket processing_log with
  | (log, Ok _) => Ok log
  | (log, Raise e) => Ok (fail e log)
  end.

(** [_process_with_agent] as the class defines it: the table of mock
    responses is built whole on every call, so [data['id']] is read
    whatever the agent. *)
Definition _process_with_agent (py : builtins) (agent_name : string)
  (data : dict) : result dict :=
  id <- getitem data "id" ;;
  let mock_responses : list (string * dict) :=
    [ ("triage",
        [ ("assigned_agent", get data "expectedAgent" (VStr "Escalation"));
          ("confidence", VFloat 0.95);
          ("category", get data "category" (VStr "General"));
          ("priority", get data "priority" (VStr "Medium"));
          ("processing_time", VStr "2.3s") ]);
      ("knowledge",
        [ ("solution_found", VBool true);
          ("relevance_score", VFloat 0.92);
          ("knowledge_base_hits", VInt 3);
          ("processing_time", VStr "1.8s") ]);
      ("automation",
        [ ("automation_triggered", VBool true);
          ("workflow_id", VStr ("wf-" ++ str_of py id));
          ("estimated_completion", VStr "45s");
          ("processing_time", VStr "3.2s") ]);
      ("escalation",
        [ ("escalated", VBool true);
          ("notification_sent", VBool true);
          ("assigned_human", VStr "support-team");
          ("processing_time", VStr "1.5s") ]);
      ("learning",
        [ ("feedback_processed", VBool true);
          ("model_updated", VBool false);
          ("confidence_improvement", VFloat 0.02);
          ("processing_time", VStr "4.1s") ]);
      ("analytics",
        [ ("metrics_updated", VBool true);
          ("kpi_impact", VStr "positive");
          ("trend_analysis", VStr "normal");
          ("processing_time", VStr "0.8s") ]) ] in
  Ok (match List.find (fun entry => fst entry =? agent_name) mock_responses with
      | Some (_, r) => r
      | None => [("processing_time", VStr "1.0s")]
      end).

(** The coordinator as the repository ships it. *)
Definition mock_coordinator (py : builtins) (clock : nat -> string)
  : ServiceBusCoordinator :=
  {| now := clock; process_with_agent := _process_with_agent py |}.

(** The records the [try] block appends for the triage and routed steps. *)
Definition triage_step (triage_result : dict) : step :=
  {| agent := "triage"; duration := VStr "2.3s"; step_result := triage_result |}.

Definition routed_step (assigned_agent : string) (agent_result : dict) : step :=
  {| agent := assigned_agent;
     duration := get agent_result "processing_time" (VStr "60s");
     step_result := agent_result |}.

(** Agents named by the records of a log, in order. *)
Definition agents_of (log : processing_log) : list string :=
  map agent (steps log).

End Coordinator.

(* ################################################################# *)
(** * Concrete tickets, backends and built-ins used by the examples *)

Module Samples.

Definition quote : string := String (ascii_of_nat 34) EmptyString.

(** The text [{"agent": "Knowledge"}]. *)
Definition agent_only_json : string :=
  "{" ++ quote ++ "agent" ++ quote ++ ": " ++ quote ++ "Knowledge" ++ quote ++ "}".

(** The text [{"confidence": 0.7}]. *)
Definition confidence_only_json : string :=
  "{" ++ quote ++ "confidence" ++ quote ++ ": 0.7}".

(** The text [{"agent": "Learning", "confidence": 0.9}]. *)
Definition learning_json : string :=
  "{" ++ quote ++ "agent" ++ quote ++ ": " ++ quote ++ "Learning" ++ quote
      ++ ", " ++ quote ++ "confidence" ++ quote ++ ": 0.9}".

(** [json.loads] tabulated on the texts the examples decode; every other
    text used below is not JSON at all. *)
Definition sample_json_loads (s : string) : option dict :=
  if s =? agent_only_json then Some [("agent", VStr "Knowledge")]
  else if s =? confidence_only_json then Some [("confidence", VFloat 0.7)]
  else if s =? learning_json
       then Some [("agent", VStr "Learning"); ("confidence", VFloat 0.9)]
  else None.

(** [str] on the objects whose rendering is their content. *)
Definition sample_str_of (v : value) : string :=
  match v with
  | VStr s => s
  | VNone => "None"
  | VBool true => "True"
  | VBool false => "False"
  | VInt n => if (n <? 0)%Z then "-" ++ string_of_Z (- n) else string_of_Z n
  | _ => "<" ++ type_name v ++ ">"
  end.

Definition py : builtins :=
  {| json_loads := sample_json_loads; str_of := sample_str_of |}.

Definition clock (n : nat) : string :=
  match n with
  | O => "2025-01-01T10:00:00"
  | _ => "2025-01-01T10:00:05"
  end.

(** Scenario A of the specification. *)
Definition ssl_ticket : dict :=
  [ ("id", VStr "T-1");
    ("title", VStr "How do I configure SSL?");
    ("description", VStr "need documentation for certificate setup") ].

(** Scenario B. *)
Definition outage_ticket : dict :=
  [ ("id", VStr "T-2");
    ("title", VStr "Production outage");
    ("description", VStr "critical security vulnerability, urgent") ].

(** Scenario C: no vocabulary term in the description. *)
Definition printer_ticket : dict :=
  [ ("id", VStr "T-3");
    ("title", VStr "Printer jam");
    ("description", VStr "paper stuck in tray two") ].

(** Scenario D: a ticket the mock triage assigns to automation. *)
Definition deploy_ticket : dict :=
  [ ("id", VStr "T-4");
    ("title", VStr "Deploy the new build");
    ("description", VStr "pipeline is red");
    ("expectedAgent", VStr "Automation") ].

(** A ticket whose [expectedAgent] is JSON [null]. *)
Definition null_agent_ticket : dict :=
  [ ("id", VStr "T-5");
    ("title", VStr "Untitled");
    ("description", VStr "no details");
    ("expectedAgent", VNone) ].

Definition openai : Triage.openai_config :=
  {| Triage.max_tokens := 500;
     Triage.temperature := 0.1;
     Triage.deployment_name := "gpt-4o-mini";
     Triage.model := "gpt-4o-mini" |}.

(** A completion backend that answers every request with [text]. *)
Definition answering (text : string) : Triage.TriageAzureIntegration :=
  {| Triage.config := openai;
     Triage.create := fun _ =>
       Ok {| Triage.content := text;
             Triage.prompt_tokens := 120;
             Triage.completion_tokens := 40;
             Triage.total_tokens := 160 |};
     Triage.elapsed := 1.25 |}.

(** A completion backend whose call raises. *)
Definition unreachable : Triage.TriageAzureIntegration :=
  {| Triage.config := openai;
     Triage.create := fun _ => Raise (ExternalError "Connection error.");
     Triage.elapsed := 0 |}.

Definition ai_search : Knowledge.search_config :=
  {| Knowledge.search_fields := ["title"; "content"];
     Knowledge.select_fields := ["id"; "title"; "content"; "category"] |}.

(** A search backend that finds nothing, without raising. *)
Definition empty_index : Knowledge.KnowledgeAzureIntegration :=
  {| Knowledge.config := ai_search;
     Knowledge.search := fun _ => Ok [] |}.

(** A coordinator whose automation agent raises mid-call; the other agents
    answer as the mock does. *)
Definition failing_automation : Coordinator.ServiceBusCoordinator :=
  {| Coordinator.now := clock;
     Coordinator.process_with_agent := fun agent_name data =>
       if agent_name =? "automation"
       then Raise (ExternalError "automation worker crashed")
       else Coordinator._process_with_agent py agent_name data |}.

End Samples.

(* ################################################################# *)
(** * shared/service_bus_coordinator.py: the message queues *)

Module Messaging.

(** The Service Bus client, as the coordinator drives it.  An operation
    raises when the client, the sender or the receiver does.  [receive] is
    the sequence of messages the [async for] loop reads from a queue, each
    as [str(message)]. *)
Record service_bus : Type := {
  send_messages : string -> string -> result unit;
  receive : string -> result (list string);
  complete_message : string -> result unit;
  abandon_message : string -> result unit
}.

(** [self] and what [send_message] and [receive_messages] read around it:
    the client ([None] until [initialize] has succeeded), the JSON codec,
    and the two renderings of [datetime.now()]. *)
Record ServiceBusCoordinator : Type := {
  servicebus_client : option service_bus;
  dumps : value -> string;
  loads : string -> result value;
  timestamp : string;
  isoformat : string
}.

(** [message_body] of [send_message]. *)
Definition message_body (self : ServiceBusCoordinator) (queue_name : string)
  (message_data : dict) : dict :=
  [ ("id", get message_data "id" (VStr ("msg-" ++ timestamp self)));
    ("timestamp", VStr (isoformat self));
    ("source", get message_data "source" (VStr "coordinator"));
    ("target", VStr queue_name);
    ("data", VDict message_data) ].

Definition send_message (self : ServiceBusCoordinator) (queue_name : string)
  (message_data : dict) : bool :=
  match
    (client <- match servicebus_client self with
               | Some c => Ok c
               | None => Raise (TypeError "'NoneType' object does not support the asynchronous context manager protocol")
               end ;;
     let message := dumps self (VDict (message_body self queue_name message_data)) in
     send_messages client queue_name message)
  with
  | Ok _ => true
  | Raise _ => false
  end.

(** The calls [receive_messages] makes on the receiver, in order. *)
Inductive settlement : Type :=
| Complete (message : string)
| Abandon (message : string).

(** The [async for] loop.  A message is abandoned when decoding it, the
    handler or [complete_message] raises; an exception of
    [abandon_message] leaves the loop, caught by the outer [except], which
    only logs. *)
Fixpoint receive_loop (self : ServiceBusCoordinator) (bus : service_bus)
  (handler : value -> result unit) (messages : list string)
  : list settlement :=
  match messages with
  | [] => []
  | message :: rest =>
      let continue := receive_loop self bus handler rest in
      let abandon (calls : list settlement) :=
        match abandon_message bus message with
        | Ok _ => calls ++ [Abandon message] ++ continue
        | Raise _ => calls ++ [Abandon message]
        end in
      match (message_data <- loads self message ;; handler message_data) with
      | Raise _ => abandon []
      | Ok _ =>
          match complete_message bus message with
          | Ok _ => Complete message :: continue
          | Raise _ => abandon [Complete message]
          end
      end
  end%list.

Definition receive_messages (self : ServiceBusCoordinator)
  (queue_name : string) (handler : value -> result unit) : list settlement :=
  match servicebus_client self with
  | None => []
  | Some bus =>
      match receive bus queue_name with
      | Ok messages => receive_loop self bus handler messages
      | Raise _ => []
      end
  end.

(** The message decodes and the handler accepts it. *)
Definition accepted (self : ServiceBusCoordinator)
  (handler : value -> result unit) (message : string) : bool :=
  match (message_data <- loads self message ;; handler message_data) with
  | Ok _ => true
  | Raise _ => false
  end.

End Messaging.

(* ################################################################# *)
(** * scripts/demo_orchestrator.py: ticket selection and the mock agents *)

Module Orchestrator.

(** [len(all_tickets)] compared with an arbitrary object by [min]. *)
Definition min_with_len (count : value) (len : nat) : result value :=
  let n := Z.of_nat len in
  match count with
  | VInt c => Ok (if (n <? c)%Z then VInt n else VInt c)
  | VBool b => Ok (if (n <? (if b then 1 else 0))%Z then VInt n else VBool b)
  | VFloat q => Ok (if Qle_bool q (inject_Z n) then VFloat q else VInt n)
  | _ => Raise (TypeError ("'<' not supported between instances of 'int' and '"
                             ++ type_name count ++ "'"))
  end.

(** [xs[:n]] for an integer [n]: a negative [n] counts from the end. *)
Definition take {A : Type} (n : Z) (xs : list A) : list A :=
  if (n <? 0)%Z then firstn (List.length xs - Z.to_nat (- n)) xs
  else firstn (Z.to_nat n) xs.

(** [xs[:count]] for an arbitrary object [count]. *)
Definition slice_to {A : Type} (count : value) (xs : list A)
  : result (list A) :=
  match count with
  | VInt n => Ok (take n xs)
  | VBool b => Ok (take (if b then 1 else 0) xs)
  | _ => Raise (TypeError "slice indices must be integers or None or have an __index__ method")
  end.

(** The list comprehension [[t for t in all_tickets if t["category"] in
    ticket_types]], over Python's membership test [is_in]. *)
Fixpoint of_types (is_in : value -> value -> result bool)
  (ticket_types : value) (all_tickets : list dict) : result (list dict) :=
  match all_tickets with
  | [] => Ok []
  | t :: rest =>
      category <- getitem t "category" ;;
      keep <- is_in category ticket_types ;;
      filtered <- of_types is_in ticket_types rest ;;
      Ok (if keep then t :: filtered else filtered)
  end.

Definition _select_tickets_for_scenario
  (is_in : value -> value -> result bool)
  (all_tickets : list dict) (scenario : dict) : result (list dict) :=
  let ticket_types := get scenario "ticketTypes" (VList []) in
  ticket_count <- getitem scenario "ticketCount" ;;
  count <- min_with_len ticket_count (List.length all_tickets) ;;
  if truthy ticket_types then
    filtered <- of_types is_in ticket_types all_tickets ;;
    slice_to count filtered
  else slice_to count all_tickets.

Definition processing_times : dict :=
  [ ("Automation", VStr "3.2s");
    ("Escalation", VStr "1.5s");
    ("Learning", VStr "4.1s");
    ("Analytics", VStr "0.8s") ].

(** [processing_times.get(agent_name, "2.0s")]: only a string can be one
    of the keys, and a list or a dict cannot be looked up at all. *)
Definition _mock_agent_processing (agent_name : value) (ticket : dict)
  : result dict :=
  processing_time <-
    match agent_name with
    | VStr name => Ok (get processing_times name (VStr "2.0s"))
    | VList _ | VDict _ =>
        Raise (TypeError ("unhashable type: '" ++ type_name agent_name ++ "'"))
    | _ => Ok (VStr "2.0s")
    end ;;
  Ok [ ("agent", agent_name);
       ("processing_time", processing_time);
       ("status", VStr "completed");
       ("azure_service", VStr "Service Bus") ].

End Orchestrator.

(* ################################################################# *)
(** * agents/triage-agent/main.py: the rule-based classification service *)

Module TriageService.

(** [TicketRequest]: the request body, whose three fields the framework
    has validated as strings. *)
Record TicketRequest : Type := {
  title : string;
  description : string;
  user_id : string
}.

(** What the endpoint reads from outside: Python's [hash] of a string,
    the printed form of the rounded elapsed time, and the timestamp. *)
Record environment : Type := {
  hash : string -> Z;
  elapsed_text : string;
  timestamp : string
}.

(** The first [if]/[elif] chain. *)
Definition category_of (description_lower : string) : string :=
  if Triage.any_in ["error"; "bug"; "crash"; "fail"] description_lower
  then "technical"
  else if Triage.any_in ["password"; "login"; "access"; "permission"]
                        description_lower
  then "security"
  else if Triage.any_in ["slow"; "performance"; "timeout"] description_lower
  then "performance"
  else "general".

(** The second [if]/[elif] chain. *)
Definition priority_of (description_lower : string) : string :=
  if Triage.any_in ["urgent"; "critical"; "down"; "outage"] description_lower
  then "high"
  else if Triage.any_in ["important"; "asap"; "soon"] description_lower
  then "medium"
  else "low".

Definition classify_ticket (env : environment) (ticket : TicketRequest)
  : dict :=
  let description_lower := lower (description ticket) in
  let title_lower := lower (title ticket) in
  let category := category_of description_lower in
  let priority := priority_of description_lower in
  [ ("ticket_id",
      VStr ("TKT-" ++ string_of_Z (hash env (title ticket) mod 10000)));
    ("category", VStr category);
    ("priority", VStr priority);
    ("confidence", VFloat 0.85);
    ("processing_time", VStr (elapsed_text env ++ "s"));
    ("timestamp", VStr (timestamp env)) ].

End TriageService.

(* ################################################################# *)
(** * agents/knowledge-agent/main.py: the keyword search service *)

Module KnowledgeService.

Definition KNOWLEDGE_BASE : list (string * string) :=
  [ ("login_error", "Reset password via admin portal or contact IT support");
    ("network_issue", "Check VPN connection and firewall settings");
    ("software_bug", "Update to latest version or contact support team");
    ("performance_slow", "Clear browser cache and restart application");
    ("access_denied", "Request permissions from system administrator");
    ("system_crash", "Restart service and check system logs");
    ("database_error", "Check database connection and run diagnostics");
    ("email_not_working", "Verify email settings and server status") ].

(** [SearchRequest]: both fields validated as strings. *)
Record SearchRequest : Type := {
  query : string;
  category : string
}.

(** White space, among the characters below 128. *)
Definition is_space (c : ascii) : bool :=
  let n := nat_of_ascii c in
  ((9 <=? n)%nat && (n <=? 13)%nat)
  || ((28 <=? n)%nat && (n <=? 32)%nat).

(** [s.split()] on ASCII text: the maximal runs of characters that are not
    white space.  [word] is the run read so far. *)
Fixpoint split_from (word s : string) : list string :=
  match s with
  | EmptyString => if word =? EmptyString then [] else [word]
  | String c s' =>
      if is_space c then
        if word =? EmptyString then split_from EmptyString s'
        else word :: split_from EmptyString s'
      else split_from (word ++ String c EmptyString) s'
  end.

Definition split (s : string) : list string := split_from EmptyString s.

Definition is_letter (c : ascii) : bool :=
  let n := nat_of_ascii c in
  ((65 <=? n)%nat && (n <=? 90)%nat) || ((97 <=? n)%nat && (n <=? 122)%nat).

Definition upper_ascii (c : ascii) : ascii :=
  let n := nat_of_ascii c in
  if (97 <=? n)%nat && (n <=? 122)%nat then ascii_of_nat (n - 32) else c.

(** [s.title()]: a letter that follows a letter is lower-cased, any other
    letter is upper-cased. *)
Fixpoint title_from (after_letter : bool) (s : string) : string :=
  match s with
  | EmptyString => EmptyString
  | String c s' =>
      String (if after_letter then lower_ascii c else upper_ascii c)
             (title_from (is_letter c) s')
  end.

Definition title (s : string) : string := title_from false s.

(** [s.replace(a, b)] for one-character [a] and [b]. *)
Fixpoint replace_char (s : string) (a b : ascii) : string :=
  match s with
  | EmptyString => EmptyString
  | String c s' =>
      String (if Ascii.eqb c a then b else c) (replace_char s' a b)
  end.

(** One entry of [results]. *)
Definition hit (request : SearchRequest) (key solution : string) (confidence : Q)
  : dict :=
  [ ("title", VStr (title (replace_char key "_" " ")));
    ("solution", VStr solution);
    ("confidence", VFloat confidence);
    ("source", VStr "internal_kb");
    ("category", VStr (category request)) ].

(** The first loop: the entries one of whose keys contains a query
    word. *)
Fixpoint direct_matches (request : SearchRequest) (query_words : list string)
  (kb : list (string * string)) : list dict :=
  match kb with
  | [] => []
  | (key, solution) :: rest =>
      if existsb (fun word => contains word key) query_words
      then hit request key solution 0.9
             :: direct_matches request query_words rest
      else direct_matches request query_words rest
  end.

(** The second loop: the entries whose lower-cased solution contains a
    query word. *)
Fixpoint partial_matches (request : SearchRequest) (query_words : list string)
  (kb : list (string * string)) : list dict :=
  match kb with
  | [] => []
  | (key, solution) :: rest =>
      if existsb (fun word => contains word (lower solution)) query_words
      then hit request key solution 0.7
             :: partial_matches request query_words rest
      else partial_matches request query_words rest
  end.

(** The matches of a query, before the cut to three. *)
Definition matches (request : SearchRequest) : list dict :=
  let query_words := split (lower (query request)) in
  let results := direct_matches request query_words KNOWLEDGE_BASE in
  match results with
  | [] => partial_matches request query_words KNOWLEDGE_BASE
  | _ => results
  end.

(** [search_knowledge], given the printed form of the rounded search time
    and the timestamp. *)
Definition search_knowledge (search_time_text timestamp : string)
  (request : SearchRequest) : dict :=
  let results := matches request in
  [ ("results", VList (map VDict (firstn 3 results)));
    ("total_found", VInt (Z.of_nat (List.length results)));
    ("search_time", VStr (search_time_text ++ "s"));
    ("timestamp", VStr timestamp) ].

End KnowledgeService.

(* ################################################################# *)
(** * agents/learning-agent/main.py: the feedback service *)

Module LearningService.

(** [FeedbackRequest], as validated by the framework; nothing restricts
    [user_satisfaction] to the 1-5 scale of the comment. *)
Record FeedbackRequest : Type := {
  ticket_id : string;
  user_satisfaction : Z;
  resolution_successful : bool;
  comments : string
}.

(** One entry of [feedback_data]. *)
Record feedback_entry : Type := {
  entry_ticket_id : string;
  satisfaction : Z;
  successful : bool;
  entry_comments : string;
  entry_timestamp : string
}.

(** The two module-level variables. *)
Record store : Type := {
  feedback_data : list feedback_entry;
  total_tickets : Z;
  successful_resolutions : Z;
  average_satisfaction : Q
}.

Definition initial : store :=
  {| feedback_data := [];
     total_tickets := 0;
     successful_resolutions := 0;
     average_satisfaction := 0.0 |}.

Definition generate_recommendations (st : store) : list string :=
  let recommendations := [] in
  let recommendations :=
    if negb (Qle_bool 3.0 (average_satisfaction st))
    then (recommendations ++ ["Improve response quality and accuracy"])%list
    else recommendations in
  let recommendations :=
    if (0 <? total_tickets st)%Z then
      let success_rate :=
        (inject_Z (successful_resolutions st) / inject_Z (total_tickets st))%Q in
      if negb (Qle_bool 0.8 success_rate)
      then (recommendations
              ++ ["Enhance knowledge base with more solutions"])%list
      else recommendations
    else recommendations in
  match recommendations with
  | [] => ["System performing well, continue monitoring"]
  | _ => recommendations
  end.

(** [process_feedback]: the store after the request and the response.
    [round2] is Python's [round(x, 2)]; the two stamps are the two
    readings of the clock. *)
Definition process_feedback (round2 : Q -> Q) (stamp1 stamp2 : string)
  (st : store) (feedback : FeedbackRequest) : store * dict :=
  let feedback_entry :=
    {| entry_ticket_id := ticket_id feedback;
       satisfaction := user_satisfaction feedback;
       successful := resolution_successful feedback;
       entry_comments := comments feedback;
       entry_timestamp := stamp1 |} in
  let data := (feedback_data st ++ [feedback_entry])%list in
  let total := (total_tickets st + 1)%Z in
  let succeeded :=
    if resolution_successful feedback
    then (successful_resolutions st + 1)%Z
    else successful_resolutions st in
  let total_satisfaction := fold_left Z.add (map satisfaction data) 0%Z in
  let st' :=
    {| feedback_data := data;
       total_tickets := total;
       successful_resolutions := succeeded;
       average_satisfaction :=
         round2 (inject_Z total_satisfaction
                   / inject_Z (Z.of_nat (List.length data)))%Q |} in
  (st',
   [ ("feedback_id",
       VStr ("FB-" ++ string_of_Z (Z.of_nat (List.length data))));
     ("processed", VBool true);
     ("recommendations", VList (map VStr (generate_recommendations st')));
     ("timestamp", VStr stamp2) ]).

(** The service handling a sequence of feedback requests, each with its
    two clock readings: the final store and the responses in order. *)
Fixpoint serve (round2 : Q -> Q) (st : store)
  (requests : list (FeedbackRequest * (string * string)))
  : store * list dict :=
  match requests with
  | [] => (st, [])
  | (feedback, (stamp1, stamp2)) :: rest =>
      let '(st', response) := process_feedback round2 stamp1 stamp2 st feedback in
      let '(final, responses) := serve round2 st' rest in
      (final, response :: responses)
  end.

(** The counters agree with the stored feedback. *)
Definition consistent (st : store) : Prop :=
  total_tickets st = Z.of_nat (List.length (feedback_data st))
  /\ successful_resolutions st
     = Z.of_nat (List.length (filter successful (feedback_data st))).

End LearningService.

(* ################################################################# *)
(** * Vocabulary for the properties of the remaining code *)

Module Views.


(** The lower-cased agent names the coordinator routes to themselves. *)
Definition routes : list string :=
  ["knowledge"; "automation"; "escalation"; "learning"; "analytics"].

(** The names the coordinator's mock answers for. *)
Definition mock_agents : list string :=
  ["triage"; "knowledge"; "automation"; "escalation"; "learning"; "analytics"].

(** The total the shipped coordinator prints for a routed agent: 2.3
    seconds of triage, the mock agent's own time, 0.5 seconds of
    analytics. *)
Definition mock_total (routed : string) : string :=
  if routed =? "knowledge" then "4.6s"
  else if routed =? "automation" then "6.0s"
  else if routed =? "learning" then "6.9s"
  else if routed =? "analytics" then "3.6s"
  else "4.3s".

(** The agents [_mock_agent_processing] has a time for. *)
Definition timed_agents : list string :=
  ["Automation"; "Escalation"; "Learning"; "Analytics"].

End Views.

(* ################################################################# *)
(** * Further tickets, backends and queues used by the examples *)

Module MoreSamples.

(** A ticket that states its own priority. *)
Definition critical_ticket : dict :=
  [ ("id", VStr "T-6");
    ("title", VStr "Payroll export broken");
    ("description", VStr "numbers do not add up");
    ("priority", VStr "Critical") ].

(** Dicts that are not tickets of the data model. *)
Definition no_title : dict :=
  [ ("id", VStr "T-7"); ("description", VStr "forgot the title") ].

Definition no_description : dict :=
  [ ("id", VStr "T-8"); ("title", VStr "forgot the description") ].

Definition no_id : dict :=
  [ ("title", VStr "forgot the id"); ("description", VStr "no id here") ].

Definition numeric_title : dict :=
  [ ("id", VStr "T-9"); ("title", VInt 404); ("description", VStr "not found") ].

(** A ticket the mock triage assigns to an agent the coordinator does not
    know. *)
Definition billing_ticket : dict :=
  [ ("id", VStr "T-12");
    ("title", VStr "Invoice is wrong");
    ("description", VStr "charged twice");
    ("expectedAgent", VStr "Billing") ].



(** A coordinator whose automation agent reports its time as a number;
    and one whose automation agent reports no time at all. *)
Definition numeric_time : Coordinator.ServiceBusCoordinator :=
  {| Coordinator.now := Samples.clock;
     Coordinator.process_with_agent := fun agent_name data =>
       if agent_name =? "automation"
       then Ok [("automation_triggered", VBool true); ("processing_time", VInt 3)]
       else Coordinator._process_with_agent Samples.py agent_name data |}.

Definition silent_automation : Coordinator.ServiceBusCoordinator :=
  {| Coordinator.now := Samples.clock;
     Coordinator.process_with_agent := fun agent_name data =>
       if agent_name =? "automation"
       then Ok [("automation_triggered", VBool true)]
       else Coordinator._process_with_agent Samples.py agent_name data |}.

Definition numeric_description : dict :=
  [ ("id", VStr "T-10"); ("title", VStr "Error code"); ("description", VInt 500) ].

(** The body of [{"agent": "Knowledge"}], between its braces. *)
Definition agent_only_body : string :=
  Samples.quote ++ "agent" ++ Samples.quote ++ ": "
    ++ Samples.quote ++ "Knowledge" ++ Samples.quote.

(** A ticket that names two of the fallback's topics. *)
Definition migration_ticket : dict :=
  [ ("id", VStr "T-11");
    ("title", VStr "Database migration");
    ("description", VStr "Deployment of the new schema hangs") ].



(** A queue holding three messages, the second of which is not JSON. *)
Definition inbox : list string := ["first"; "garbled"; "third"].

(** A JSON codec tabulated on the texts the examples use: [garbled] does
    not decode, [envelope] decodes to the envelope of the example below,
    any other text to itself as a string. *)
Definition ping : dict := [("id", VStr "m-1"); ("kind", VStr "ping")].

Definition ping_envelope : dict :=
  [ ("id", VStr "m-1");
    ("timestamp", VStr "2025-01-01T10:00:00");
    ("source", VStr "coordinator");
    ("target", VStr "triage-queue");
    ("data", VDict ping) ].

Definition sample_loads (s : string) : result value :=
  if s =? "garbled" then Raise (ValueError "Expecting value: line 1 column 1 (char 0)")
  else if s =? "envelope" then Ok (VDict ping_envelope)
  else Ok (VStr s).

(** A bus on which every operation succeeds. *)
Definition healthy_bus : Messaging.service_bus :=
  {| Messaging.send_messages := fun _ _ => Ok tt;
     Messaging.receive := fun _ => Ok inbox;
     Messaging.complete_message := fun _ => Ok tt;
     Messaging.abandon_message := fun _ => Ok tt |}.

(** A bus whose [abandon_message] raises. *)
Definition stuck_bus : Messaging.service_bus :=
  {| Messaging.send_messages := fun _ _ => Ok tt;
     Messaging.receive := fun _ => Ok inbox;
     Messaging.complete_message := fun _ => Ok tt;
     Messaging.abandon_message := fun _ =>
       Raise (ExternalError "The lock on the message is lost") |}.

Definition coordinator_on (bus : Messaging.service_bus)
  : Messaging.ServiceBusCoordinator :=
  {| Messaging.servicebus_client := Some bus;
     Messaging.dumps := fun _ => "envelope";
     Messaging.loads := sample_loads;
     Messaging.timestamp := "1735725600.0";
     Messaging.isoformat := "2025-01-01T10:00:00" |}.

(** Python's [in] on a list of strings, for the examples: an object that
    is not a list cannot be searched. *)
Definition in_strings (x container : value) : result bool :=
  match container with
  | VList items =>
      Ok (existsb (fun item =>
                     match x, item with
                     | VStr a, VStr b => a =? b
                     | _, _ => false
                     end) items)
  | _ => Raise (TypeError ("argument of type '" ++ type_name container
                             ++ "' is not iterable"))
  end.

Definition info_ticket (id : string) : dict :=
  [("id", VStr id); ("category", VStr "Information")].

Definition tech_ticket (id : string) : dict :=
  [("id", VStr id); ("category", VStr "Technical")].

Definition backlog : list dict :=
  [ info_ticket "T-20"; tech_ticket "T-21"; info_ticket "T-22";
    info_ticket "T-23" ].

(** A scenario asking for two information tickets. *)
Definition info_scenario : dict :=
  [ ("name", VStr "Knowledge Base Validation");
    ("ticketCount", VInt 2);
    ("ticketTypes", VList [VStr "Information"]) ].

(** A backlog whose last ticket has no category. *)
Definition ragged_backlog : list dict :=
  [ info_ticket "T-20"; tech_ticket "T-21"; [("id", VStr "T-24")] ].

(** A handler that accepts every message. *)
Definition accept_all (message_data : value) : result unit := Ok tt.

End MoreSamples.

(* ################################################################# *)
(** * The interpreter's own text and number operations *)

Module Runtime.

(** The built-ins whose result depends on the Unicode character database
    or on binary floating point.  They are taken from the interpreter, not
    computed.  A [string] stands for a Python [str] through its UTF-8
    encoding: concatenation, [in], the slice between two characters found
    and the removal of an ASCII character are on the encoding what they
    are on the [str] itself, while [lower] and [split] follow tables this
    development does not contain. *)
Record interpreter : Type := {
  (** [s.lower()] *)
  str_lower : string -> string;
  (** [s.split()] *)
  str_split : string -> list string;
  (** The values of type [float]. *)
  float : Type;
  (** [float(s)], which raises on a text that spells no number. *)
  float_of_str : string -> result float;
  (** [sum(xs)] on a list of floats. *)
  float_sum : list float -> float;
  (** [f"{x:.1f}"] *)
  float_1f : float -> string
}.

(** [v.lower()] on an arbitrary object. *)
Definition lower_of (rt : interpreter) (v : value) : result string :=
  match v with
  | VStr s => Ok (str_lower rt s)
  | _ => Raise (no_attribute v "lower")
  end.

(** Text of ASCII characters only. *)
Definition is_ascii (s : string) : bool :=
  forallb (fun c => (nat_of_ascii c <? 128)%nat) (list_ascii_of_string s).

(** On ASCII text [str.lower] folds the letters A-Z and nothing else. *)
Definition folds_ascii (rt : interpreter) : Prop :=
  forall s, is_ascii s = true -> str_lower rt s = lower s.

(** [word] occurs in [text]. *)
Definition occurs_in (word text : string) : Prop :=
  exists pre post, text = pre ++ word ++ post.

(** One of [words] occurs in [text]. *)
Definition mentions (words : list string) (text : string) : Prop :=
  exists word, In word words /\ occurs_in word text.

(** [f"{sum([float(a), float(b), float(c)]):.1f}"] is [total]. *)
Definition adds_to (rt : interpreter) (a b c total : string) : Prop :=
  exists x y z,
    float_of_str rt a = Ok x
    /\ float_of_str rt b = Ok y
    /\ float_of_str rt c = Ok z
    /\ float_1f rt (float_sum rt [x; y; z]) = total.

(** What the interpreter prints for the sums of the shipped mock agents'
    times. *)
Definition prints_mock_totals (rt : interpreter) : Prop :=
  adds_to rt "2.3" "1.8" "0.5" "4.6"
  /\ adds_to rt "2.3" "3.2" "0.5" "6.0"
  /\ adds_to rt "2.3" "1.5" "0.5" "4.3"
  /\ adds_to rt "2.3" "4.1" "0.5" "6.9"
  /\ adds_to rt "2.3" "0.8" "0.5" "3.6".

(** An interpreter for the examples: its text operations are those of
    ASCII text, its numbers exact decimals.  On the inputs of the examples
    it answers as Python does. *)
Definition plain : interpreter :=
  {| str_lower := lower;
     str_split := KnowledgeService.split;
     float := Q;
     float_of_str := float_of_string;
     float_sum := sum;
     float_1f := format_1f |}.

End Runtime.

(* ################################################################# *)
(** * agents/triage-agent/azure_integration.py, on arbitrary text *)

Module TriageRules.
Import Runtime.

Definition _fallback_classification (rt : interpreter) (ticket : dict)
  : result dict :=
  title <- getitem ticket "title" ;;
  title_lower <- lower_of rt title ;;
  description <- getitem ticket "description" ;;
  desc_lower <- lower_of rt description ;;
  let text := title_lower ++ desc_lower in
  let '(agent, resolution_time) :=
    if Triage.any_in ["how"; "guide"; "documentation"; "configure"] text then
      ("Knowledge", "30s")
    else if Triage.any_in ["deploy"; "automation"; "workflow"; "pipeline"] text then
      ("Automation", "60s")
    else if Triage.any_in ["security"; "vulnerability"; "critical"; "urgent"] text then
      ("Escalation", "90s")
    else if Triage.any_in ["report"; "analytics"; "dashboard"; "metrics"] text then
      ("Analytics", "45s")
    else
      ("Escalation", "120s") in
  ticket_id <- getitem ticket "id" ;;
  Ok [ ("ticket_id", ticket_id);
       ("classification",
         VDict [ ("agent", VStr agent);
                 ("category", get ticket "category" (VStr "General"));
                 ("priority", get ticket "priority" (VStr "Medium"));
                 ("confidence", VFloat 0.85);
                 ("resolution_time", VStr resolution_time);
                 ("reasoning", VStr "Fallback rule-based classification") ]);
       ("assigned_agent", VStr agent);
       ("processing_time", VStr "1.2s");
       ("azure_service", VStr "Fallback (Local Rules)") ].

End TriageRules.

(* ################################################################# *)
(** * agents/knowledge-agent/azure_integration.py, on arbitrary text *)

Module KnowledgeQuery.
Import Runtime.

Definition _extract_key_terms (rt : interpreter) (text : value)
  : result (list string) :=
  let technical_terms :=
    [ "ssl"; "https"; "certificate"; "deployment"; "configuration";
      "database"; "api"; "authentication"; "caching"; "redis";
      "performance"; "timeout"; "error"; "security"; "vulnerability" ] in
  text_lower <- lower_of rt text ;;
  let found_terms :=
    filter (fun term => contains term text_lower) technical_terms in
  Ok (firstn 5 found_terms).

Definition _build_search_query (rt : interpreter) (ticket : dict)
  : result string :=
  title <- getitem ticket "title" ;;
  let query_parts := [title] in
  description <- getitem ticket "description" ;;
  key_terms <- _extract_key_terms rt description ;;
  let query_parts := (query_parts ++ map VStr key_terms)%list in
  join " " query_parts.

Definition _fallback_search (rt : interpreter) (ticket : dict) : result dict :=
  title <- getitem ticket "title" ;;
  title_lower <- lower_of rt title ;;
  description <- getitem ticket "description" ;;
  desc_lower <- lower_of rt description ;;
  let best_match :=
    Knowledge.first_article Knowledge.mock_knowledge (title_lower ++ desc_lower) in
  let best_match :=
    if negb (truthy best_match) then
      VDict [ ("title", VStr "General Support Guide");
              ("content", VStr "General troubleshooting steps and support resources...");
              ("category", VStr "General") ]
    else best_match in
  ticket_id <- getitem ticket "id" ;;
  Ok [ ("ticket_id", ticket_id);
       ("search_query", title);
       ("results_found", VInt 1);
       ("best_match", best_match);
       ("relevance_score", VFloat 0.85);
       ("processing_time", VStr "0.8s");
       ("azure_service", VStr "Fallback (Local)") ].

(** The [try] block of [search_knowledge]: the primary path. *)
Definition search_primary (rt : interpreter)
  (self : Knowledge.KnowledgeAzureIntegration) (ticket : dict) : result dict :=
  query <- _build_search_query rt ticket ;;
  results <- Knowledge.search self (Knowledge.search_request self query) ;;
  let knowledge_items := map Knowledge.knowledge_item results in
  let best_match := if truthy (VList knowledge_items)
                    then hd VNone knowledge_items else VNone in
  ticket_id <- getitem ticket "id" ;;
  relevance_score <- (if truthy best_match
                      then subscript best_match "relevance_score"
                      else Ok (VFloat 0.0)) ;;
  Ok [ ("ticket_id", ticket_id);
       ("search_query", VStr query);
       ("results_found", VInt (Z.of_nat (List.length knowledge_items)));
       ("best_match", best_match);
       ("all_results", VList knowledge_items);
       ("relevance_score", relevance_score);
       ("processing_time", VStr "1.8s");
       ("azure_service", VStr "AI Search Semantic") ].

Definition search_knowledge (rt : interpreter)
  (self : Knowledge.KnowledgeAzureIntegration) (ticket : dict) : result dict :=
  try_except (search_primary rt self ticket)
             (fun _ => _fallback_search rt ticket).

End KnowledgeQuery.

(* ################################################################# *)
(** * shared/service_bus_coordinator.py, with the agent calls it makes *)

Module Pipeline.
Import Runtime Coordinator.

(** One call of [_process_with_agent]: the agent's name and the data it is
    handed. *)
Definition call : Type := (string * dict)%type.

(** The log under construction and the calls made so far. *)
Record state : Type := {
  log : processing_log;
  calls : list call
}.

(** Statements that update the log, call agents and may raise; an
    exception leaves both as the statements before it made them. *)
Definition action (A : Type) : Type := state -> state * result A.

Definition and_then {A B : Type} (m : action A) (k : A -> action B) : action B :=
  fun st =>
    match m st with
    | (st', Ok a) => k a st'
    | (st', Raise e) => (st', Raise e)
    end.

Definition lift {A : Type} (r : result A) : action A :=
  fun st => (st, r).

Definition read : action processing_log :=
  fun st => (st, Ok (log st)).

Definition update (f : processing_log -> processing_log) : action unit :=
  fun st => ({| log := f (log st); calls := calls st |}, Ok tt).

(** [await self._process_with_agent(agent_name, data)] *)
Definition await_agent (self : ServiceBusCoordinator) (agent_name : string)
  (data : dict) : action dict :=
  fun st =>
    ({| log := log st; calls := (calls st ++ [(agent_name, data)])%list |},
     process_with_agent self agent_name data).

Definition append_step (st : step) : action unit :=
  update (fun log => with_step log st).

(** The three assignments that close the [try] block. *)
Definition completed (total : string) (stamp : string) (log : processing_log)
  : processing_log :=
  {| ticket_id := ticket_id log;
     start_time := start_time log;
     steps := steps log;
     total_time := VStr total;
     status := "completed";
     end_time := Some stamp;
     error := error log |}.

Notation "x <~~ m ;; k" := (and_then m (fun x => k))
  (at level 61, m at next level, right associativity) : py_scope.

(** [float(step["duration"].replace("s", ""))] *)
Definition seconds_of (rt : interpreter) (d : value) : result (float rt) :=
  match d with
  | VStr s => float_of_str rt (remove_char s "s")
  | _ => Raise (no_attribute d "replace")
  end.

(** The list comprehension over [processing_log["steps"]]. *)
Fixpoint durations (rt : interpreter) (sts : list step)
  : result (list (float rt)) :=
  match sts with
  | [] => Ok []
  | st :: rest =>
      d <- seconds_of rt (duration st) ;;
      ds <- durations rt rest ;;
      Ok (d :: ds)
  end.

(** The [try] block of [coordinate_ticket_processing]. *)
Definition process_steps (rt : interpreter) (self : ServiceBusCoordinator)
  (ticket : dict) : action unit :=
  triage_result <~~ await_agent self "triage" ticket ;;
  _ <~~ append_step {| agent := "triage";
                       duration := VStr "2.3s";
                       step_result := triage_result |} ;;
  assigned_agent <~~
    lift (lower_of rt (get triage_result "assigned_agent" (VStr "escalation"))) ;;
  agent_result <~~
    (if assigned_agent =? "knowledge" then await_agent self "knowledge" ticket
     else if assigned_agent =? "automation" then await_agent self "automation" ticket
     else if assigned_agent =? "escalation" then await_agent self "escalation" ticket
     else if assigned_agent =? "learning" then await_agent self "learning" ticket
     else if assigned_agent =? "analytics" then await_agent self "analytics" ticket
     else await_agent self "escalation" ticket) ;;
  _ <~~ append_step {| agent := assigned_agent;
                       duration := get agent_result "processing_time" (VStr "60s");
                       step_result := agent_result |} ;;
  processing_log <~~ read ;;
  analytics_result <~~
    await_agent self "analytics"
      (setitem ticket "processing_log" (value_of_log processing_log)) ;;
  _ <~~ append_step {| agent := "analytics";
                       duration := VStr "0.5s";
                       step_result := analytics_result |} ;;
  processing_log <~~ read ;;
  seconds <~~ lift (durations rt (steps processing_log)) ;;
  let total_seconds := float_sum rt seconds in
  update (completed (float_1f rt total_seconds ++ "s") (now self 1)).

(** The calls made and what is returned or raised. *)
Definition run (rt : interpreter) (self : ServiceBusCoordinator) (ticket : dict)
  : list call * result processing_log :=
  match getitem ticket "id" with
  | Raise e => ([], Raise e)
  | Ok ticket_id =>
      let processing_log := initial_log self ticket_id in
      match process_steps rt self ticket {| log := processing_log; calls := [] |} with
      | (st, Ok _) => (calls st, Ok (log st))
      | (st, Raise e) => (calls st, Ok (fail e (log st)))
      end
  end.

Definition coordinate_ticket_processing (rt : interpreter)
  (self : ServiceBusCoordinator) (ticket : dict) : result processing_log :=
  snd (run rt self ticket).

(** The agents called during [coordinate_ticket_processing], in order. *)
Definition agents_called (rt : interpreter) (self : ServiceBusCoordinator)
  (ticket : dict) : list string :=
  map fst (fst (run rt self ticket)).

(** The record the [try] block appends for the analytics step. *)
Definition analytics_step (analytics_result : dict) : step :=
  {| agent := "analytics"; duration := VStr "0.5s";
     step_result := analytics_result |}.

(** What the analytics agent is handed after the triage and routed steps. *)
Definition analytics_data (self : ServiceBusCoordinator) (ticket : dict)
  (ticket_id : value) (triage_result : dict) (assigned_agent : string)
  (agent_result : dict) : dict :=
  setitem ticket "processing_log"
    (value_of_log
       (with_step
          (with_step (initial_log self ticket_id) (triage_step triage_result))
          (routed_step assigned_agent agent_result))).

End Pipeline.

(* ################################################################# *)
(** * agents/knowledge-agent/main.py, on arbitrary queries *)

Module KeywordSearch.
Import Runtime KnowledgeService.

(** The matches of a query, before the cut to three.  The keys and the
    solutions of [KNOWLEDGE_BASE] are ASCII text; the query is not bound to
    be. *)
Definition matches (rt : interpreter) (request : SearchRequest) : list dict :=
  let query_words := str_split rt (str_lower rt (query request)) in
  let results := direct_matches request query_words KNOWLEDGE_BASE in
  match results with
  | [] => partial_matches request query_words KNOWLEDGE_BASE
  | _ => results
  end.

(** [search_knowledge], given the printed form of the rounded search time
    and the timestamp. *)
Definition search_knowledge (rt : interpreter)
  (search_time_text timestamp : string) (request : SearchRequest) : dict :=
  let results := matches rt request in
  [ ("results", VList (map VDict (firstn 3 results)));
    ("total_found", VInt (Z.of_nat (List.length results)));
    ("search_time", VStr (search_time_text ++ "s"));
    ("timestamp", VStr timestamp) ].

(** The confidence of an entry of [results]. *)
Definition confidence_of (entry : dict) : option value :=
  lookup "confidence" entry.

End KeywordSearch.

(* ################################################################# *)
(** * Tickets and queues for the examples on arbitrary text *)

Module LaterSamples.

(** One ticket for each branch of the rule-based classifier after the
    first. *)
Definition workflow_ticket : dict :=
  [ ("id", VStr "T-30");
    ("title", VStr "Nightly WORKFLOW stuck");
    ("description", VStr "the job never ends") ].

Definition report_ticket : dict :=
  [ ("id", VStr "T-31");
    ("title", VStr "Monthly report");
    ("description", VStr "numbers missing on the dashboard") ].


(** A codec that tells envelopes apart by their id, tabulated on the
    envelope of [MoreSamples.ping]. *)
Definition id_text (v : value) : string :=
  match v with
  | VDict d =>
      match lookup "id" d with
      | Some (VStr i) => "envelope " ++ i
      | _ => "envelope"
      end
  | _ => "text"
  end.

Definition id_loads (s : string) : result value :=
  if s =? "envelope m-1" then Ok (VDict MoreSamples.ping_envelope)
  else MoreSamples.sample_loads s.

(** A bus that delivers the envelope of [MoreSamples.ping]. *)
Definition ping_bus : Messaging.service_bus :=
  {| Messaging.send_messages := fun _ _ => Ok tt;
     Messaging.receive := fun _ => Ok ["envelope m-1"];
     Messaging.complete_message := fun _ => Ok tt;
     Messaging.abandon_message := fun _ => Ok tt |}.

Definition courier : Messaging.ServiceBusCoordinator :=
  {| Messaging.servicebus_client := Some ping_bus;
     Messaging.dumps := id_text;
     Messaging.loads := id_loads;
     Messaging.timestamp := "1735725600.0";
     Messaging.isoformat := "2025-01-01T10:00:00" |}.

(** A handler that accepts pings only. *)
Definition pings_only (message : value) : result unit :=
  match message with
  | VDict d =>
      match lookup "kind" d with
      | Some (VStr "ping") => Ok tt
      | _ => Raise (ValueError "not a ping")
      end
  | _ => Raise (ValueError "not a ping")
  end.

End LaterSamples.

(* ################################################################# *)
(** * Facts about the Python model *)

Module PyFacts.

Lemma lower_app (a b : string) : lower (a ++ b) = lower a ++ lower b.
Proof.
  induction a as [|c a IH]; simpl; [reflexivity | now rewrite IH].
Qed.

Lemma contains_unfold (sub s : string) :
  contains sub s =
  if prefix sub s then true
  else match s with
       | EmptyString => false
       | String _ s' => contains sub s'
       end.
Proof. destruct s; reflexivity. Qed.

Lemma prefix_iff (sub s : string) :
  prefix sub s = true <-> exists post, s = sub ++ post.
Proof.
  revert s; induction sub as [|c sub IH]; intros s.
  - split; [intros _; now exists s | now destruct s].
  - destruct s as [|c' s]; simpl;
      [split; [discriminate | intros [post H]; discriminate]|].
    destruct (ascii_dec c c') as [->|Hne].
    + rewrite IH. split; intros [post H]; exists post.
      * now rewrite H.
      * now injection H.
    + split; [discriminate|]. intros [post H]. injection H as Hc _.
      now elim Hne.
Qed.

(** [contains] is the substring test: the needle occurs somewhere in the
    text. *)
Lemma contains_iff (sub s : string) :
  contains sub s = true <-> exists pre post, s = pre ++ sub ++ post.
Proof.
  split.
  - induction s as [|c s IH]; rewrite contains_unfold;
      destruct (prefix sub _) eqn:Hp.
    + intros _. apply prefix_iff in Hp as [post ->]. now exists EmptyString, post.
    + discriminate.
    + intros _. apply prefix_iff in Hp as [post ->]. now exists EmptyString, post.
    + intros H. destruct (IH H) as (pre & post & ->).
      now exists (String c pre), post.
  - intros (pre & post & ->).
    induction pre as [|c pre IH].
    + rewrite contains_unfold.
      replace (prefix sub (EmptyString ++ sub ++ post)) with true; [reflexivity|].
      symmetry. apply prefix_iff. now exists post.
    + change (String c pre ++ sub ++ post) with (String c (pre ++ sub ++ post)).
      rewrite contains_unfold.
      destruct (prefix sub (String c (pre ++ sub ++ post)));
        [reflexivity | exact IH].
Qed.

Lemma getitem_lookup (d : dict) (k : string) (v : value) :
  getitem d k = Ok v <-> lookup k d = Some v.
Proof.
  unfold getitem. destruct (lookup k d); split; congruence.
Qed.

Lemma getitem_missing (d : dict) (k : string) :
  lookup k d = None -> getitem d k = Raise (KeyError k).
Proof. unfold getitem. now intros ->. Qed.

Lemma get_present (d : dict) (k : string) (v default : value) :
  lookup k d = Some v -> get d k default = v.
Proof. unfold get. now intros ->. Qed.

Lemma get_missing (d : dict) (k : string) (default : value) :
  lookup k d = None -> get d k default = default.
Proof. unfold get. now intros ->. Qed.

Lemma lookup_setitem_other (d : dict) (k k' : string) (v : value) :
  k <> k' -> lookup k (setitem d k' v) = lookup k d.
Proof.
  intros Hne. induction d as [|[k0 v0] d IH]; simpl.
  - destruct (String.eqb_spec k' k); [now subst | reflexivity].
  - destruct (String.eqb_spec k0 k') as [->|H0]; simpl.
    + destruct (String.eqb_spec k' k); [now subst | reflexivity].
    + destruct (String.eqb_spec k0 k); [reflexivity | exact IH].
Qed.

Lemma lower_ascii_idempotent (c : ascii) :
  lower_ascii (lower_ascii c) = lower_ascii c.
Proof.
  destruct c as [[] [] [] [] [] [] [] []]; reflexivity.
Qed.

Lemma lower_idempotent (s : string) : lower (lower s) = lower s.
Proof.
  induction s as [|c s IH]; simpl; [reflexivity|].
  now rewrite lower_ascii_idempotent, IH.
Qed.

End PyFacts.

(* ################################################################# *)
(** * The classifier *)

Module TriageSpec.
Import Triage PyFacts.

(** On a ticket of the data model the rule-based classifier returns, and
    its choice is the first matching keyword set of [keyword_rules]. *)
Lemma fallback_classification_ticket ticket ticket_id title description :
  is_ticket ticket ticket_id title description ->
  let text := lower (title ++ description) in
  _fallback_classification ticket =
    Ok (fallback_record ticket ticket_id
          (first_matching_rule keyword_rules text)
          (first_matching_time keyword_rules fallback_times text)).
Proof.
  intros (Hid & Ht & Hd) text. unfold _fallback_classification.
  rewrite Ht, Hd. cbn [bind lower_of]. rewrite <- lower_app. fold text.
  unfold keyword_rules, fallback_times.
  cbn [first_matching_rule first_matching_time].
  repeat match goal with
         | |- context [if any_in ?w text then _ else _] =>
             destruct (any_in w text)
         end;
    rewrite Hid; reflexivity.
Qed.

(** The rule-based classifier returns only on a ticket of the data model. *)
Lemma fallback_classification_inv ticket record :
  _fallback_classification ticket = Ok record ->
  exists ticket_id title description,
    is_ticket ticket ticket_id title description.
Proof.
  unfold _fallback_classification, is_ticket. intros H.
  destruct (getitem ticket "title") as [t|] eqn:Ht; [|discriminate].
  destruct t; try discriminate.
  destruct (getitem ticket "description") as [d|] eqn:Hd; [|discriminate].
  destruct d; try discriminate.
  cbn [bind lower_of] in H.
  destruct (getitem ticket "id") as [i|] eqn:Hi.
  - now exists i, s, s0.
  - repeat match type of H with
           | context [if ?b then _ else _] => destruct b
           end; discriminate.
Qed.

Lemma first_matching_rule_range text :
  In (first_matching_rule keyword_rules text)
     ["Knowledge"; "Automation"; "Escalation"; "Analytics"].
Proof.
  unfold keyword_rules. cbn [first_matching_rule].
  repeat match goal with
         | |- context [if ?b then _ else _] => destruct b
         end; simpl; tauto.
Qed.

Lemma first_matching_rule_not_learning text :
  first_matching_rule keyword_rules text <> "Learning".
Proof.
  unfold keyword_rules. cbn [first_matching_rule].
  repeat match goal with
         | |- context [if ?b then _ else _] => destruct b
         end; discriminate.
Qed.

Lemma build_prompt_inv ticket p :
  _build_classification_prompt ticket = Ok p ->
  exists title description,
    getitem ticket "title" = Ok title
    /\ getitem ticket "description" = Ok description.
Proof.
  unfold _build_classification_prompt. intros H.
  destruct (getitem ticket "title") as [t|]; [|discriminate].
  destruct (getitem ticket "description") as [d|]; [|discriminate].
  now exists t, d.
Qed.

(** The primary path, once the prompt is built, the backend has answered
    and the ticket has an id. *)
Lemma classify_primary_answer py self ticket ticket_id p resp :
  getitem ticket "id" = Ok ticket_id ->
  _build_classification_prompt ticket = Ok p ->
  create self (classification_request self p) = Ok resp ->
  classify_primary py self ticket =
    Ok (primary_record self ticket ticket_id
          (_parse_classification_response py (content resp)) resp).
Proof.
  intros Hid Hp Hc. unfold classify_primary.
  rewrite Hp. cbn [bind]. rewrite Hc. cbn [bind]. rewrite Hid. reflexivity.
Qed.

(** Every record of the primary path is a [primary_record]. *)
Lemma classify_primary_inv py self ticket record :
  classify_primary py self ticket = Ok record ->
  exists ticket_id classification resp,
    record = primary_record self ticket ticket_id classification resp.
Proof.
  unfold classify_primary. intros H.
  destruct (_build_classification_prompt ticket) as [p|]; [|discriminate].
  cbn [bind] in H.
  destruct (create self (classification_request self p)) as [resp|];
    [|discriminate].
  cbn [bind] in H.
  destruct (getitem ticket "id") as [i|]; [|discriminate].
  cbn [bind] in H. injection H as <-.
  now exists i, (_parse_classification_response py (content resp)), resp.
Qed.

(** When the backend call raises, [classify_ticket] is the fallback. *)
Lemma classify_backend_raises py self ticket p e :
  _build_classification_prompt ticket = Ok p ->
  create self (classification_request self p) = Raise e ->
  classify_ticket py self ticket = _fallback_classification ticket.
Proof.
  intros Hp Hc. unfold classify_ticket, classify_primary.
  rewrite Hp. cbn [bind]. rewrite Hc. reflexivity.
Qed.

Lemma no_json_object_raises py response :
  no_json_object py response <-> exists e, extract_json py response = Raise e.
Proof.
  unfold no_json_object, extract_json.
  destruct (0 <=? find response "{")%Z eqn:H0;
    destruct (find response "{" <? rfind response "}" + 1)%Z eqn:H1;
    cbn [andb];
    try (split; [intros _; eexists; reflexivity | intros _; lia]).
  destruct (json_loads py _) eqn:Hj.
  - split; [intros [H|[H|H]]; [lia | lia | discriminate]
           | intros [e He]; discriminate].
  - split; [intros _; eexists; reflexivity | intros _; now right; right].
Qed.

Lemma parse_no_json_object py response :
  no_json_object py response ->
  _parse_classification_response py response = parse_error_classification.
Proof.
  intros H. apply no_json_object_raises in H as [e He].
  unfold _parse_classification_response. now rewrite He.
Qed.

Lemma is_primary_record self ticket ticket_id classification resp :
  is_primary self (primary_record self ticket ticket_id classification resp)
  = true.
Proof. unfold is_primary, primary_record. cbn. apply String.eqb_refl. Qed.

Lemma is_fallback_primary_record self ticket ticket_id classification resp :
  is_fallback (primary_record self ticket ticket_id classification resp)
  = false.
Proof. reflexivity. Qed.

(** Scenario B: the outage ticket goes to Escalation. *)
Example outage_ticket_escalates :
  _fallback_classification Samples.outage_ticket
  = Ok (fallback_record Samples.outage_ticket (VStr "T-2") "Escalation" "90s").
Proof. reflexivity. Qed.

(** The letter case of title and description does not matter. *)
Lemma fallback_case_insensitive ticket1 ticket2 id1 id2 title1 title2 d1 d2 :
  is_ticket ticket1 id1 title1 d1 ->
  is_ticket ticket2 id2 title2 d2 ->
  lower title1 = lower title2 ->
  lower d1 = lower d2 ->
  exists r1 r2,
    _fallback_classification ticket1 = Ok r1
    /\ _fallback_classification ticket2 = Ok r2
    /\ lookup "assigned_agent" r1 = lookup "assigned_agent" r2.
Proof.
  intros H1 H2 Ht Hd.
  rewrite (fallback_classification_ticket _ _ _ _ H1).
  rewrite (fallback_classification_ticket _ _ _ _ H2). cbv zeta.
  rewrite !lower_app, Ht, Hd.
  eexists. eexists. split; [reflexivity|]. split; reflexivity.
Qed.

(** Outside the data model the fallback itself raises: a dict without a
    title makes [classify_ticket] raise [KeyError]. *)
Lemma classify_ticket_without_title py self ticket :
  lookup "title" ticket = None ->
  classify_ticket py self ticket = Raise (KeyError "title").
Proof.
  intros H. unfold classify_ticket, classify_primary,
    _build_classification_prompt, _fallback_classification.
  now rewrite (getitem_missing _ _ H).
Qed.

(** C10.  The agent assigned by the rule-based fallback is Knowledge,
    Automation, Escalation or Analytics and never Learning; hence a record
    of [classify_ticket] that routes to Learning was built by the primary
    path. *)
Theorem fallback_never_selects_learning :
  forall ticket record,
    _fallback_classification ticket = Ok record ->
    (exists agent,
        lookup "assigned_agent" record = Some (VStr agent)
        /\ In agent ["Knowledge"; "Automation"; "Escalation"; "Analytics"]
        /\ agent <> "Learning")
    /\ (forall py self learning,
           classify_ticket py self ticket = Ok learning ->
           lookup "assigned_agent" learning = Some (VStr "Learning") ->
           classify_primary py self ticket = Ok learning).
Proof.
  intros ticket record H.
  destruct (fallback_classification_inv _ _ H) as (i & t & d & Ht).
  pose proof (fallback_classification_ticket _ _ _ _ Ht) as Hf.
  cbv zeta in Hf.
  pose proof (first_matching_rule_range (lower (t ++ d))) as Hr.
  pose proof (first_matching_rule_not_learning (lower (t ++ d))) as Hne.
  split.
  - rewrite Hf in H. injection H as <-.
    eexists. split; [reflexivity|]. now split.
  - intros py self learning Hc Hl. unfold classify_ticket in Hc.
    destruct (classify_primary py self ticket) as [r|e].
    + exact Hc.
    + cbn [try_except] in Hc. rewrite Hf in Hc. injection Hc as <-.
      unfold fallback_record in Hl. cbn [lookup String.eqb Ascii.eqb Bool.eqb] in Hl.
      injection Hl as Hl. now elim Hne.
Qed.

Lemma fallback_never_selects_learning_witness :
  _fallback_classification Samples.ssl_ticket
    = Ok (fallback_record Samples.ssl_ticket (VStr "T-1") "Knowledge" "30s")
  /\ (exists agent,
         lookup "assigned_agent"
                (fallback_record Samples.ssl_ticket (VStr "T-1") "Knowledge" "30s")
           = Some (VStr agent)
         /\ In agent ["Knowledge"; "Automation"; "Escalation"; "Analytics"]
         /\ agent <> "Learning")
  /\ (forall py self learning,
         classify_ticket py self Samples.ssl_ticket = Ok learning ->
         lookup "assigned_agent" learning = Some (VStr "Learning") ->
         classify_primary py self Samples.ssl_ticket = Ok learning).
Proof.
  split; [reflexivity|].
  exact (fallback_never_selects_learning Samples.ssl_ticket _ eq_refl).
Defined.

(** A Learning routing does come out of the primary path. *)
Example primary_can_select_learning :
  exists record,
    classify_ticket Samples.py (Samples.answering Samples.learning_json)
                    Samples.ssl_ticket = Ok record
    /\ lookup "assigned_agent" record = Some (VStr "Learning")
    /\ is_primary (Samples.answering Samples.learning_json) record = true.
Proof. eexists. split; [reflexivity|]. split; reflexivity. Qed.

(** C6.  When the completion backend call raises, [classify_ticket]
    returns the fallback-tagged record, and its assigned agent is one of
    the five agent names. *)
Theorem classify_falls_back_when_backend_raises :
  forall py self ticket ticket_id title description p e,
    is_ticket ticket ticket_id title description ->
    _build_classification_prompt ticket = Ok p ->
    create self (classification_request self p) = Raise e ->
    exists record agent,
      classify_ticket py self ticket = Ok record
      /\ is_fallback record = true
      /\ lookup "assigned_agent" record = Some (VStr agent)
      /\ In agent agent_names.
Proof.
  intros py self ticket ticket_id title description p e Ht Hp Hc.
  rewrite (classify_backend_raises _ _ _ _ _ Hp Hc).
  rewrite (fallback_classification_ticket _ _ _ _ Ht). cbv zeta.
  eexists. eexists. split; [reflexivity|].
  split; [reflexivity|]. split; [reflexivity|].
  pose proof (first_matching_rule_range (lower (title ++ description))) as Hr.
  unfold agent_names. simpl in Hr |- *. tauto.
Qed.

Lemma classify_falls_back_when_backend_raises_witness :
  is_ticket Samples.outage_ticket (VStr "T-2") "Production outage"
            "critical security vulnerability, urgent"
  /\ create Samples.unreachable
            (classification_request Samples.unreachable
               {| prompt_title := VStr "Production outage";
                  prompt_description :=
                    VStr "critical security vulnerability, urgent";
                  prompt_priority := VStr "Medium" |})
       = Raise (ExternalError "Connection error.")
  /\ exists record agent,
       classify_ticket Samples.py Samples.unreachable Samples.outage_ticket
         = Ok record
       /\ is_fallback record = true
       /\ lookup "assigned_agent" record = Some (VStr agent)
       /\ In agent agent_names.
Proof.
  split; [repeat split; reflexivity|]. split; [reflexivity|].
  apply (classify_falls_back_when_backend_raises
           Samples.py Samples.unreachable Samples.outage_ticket (VStr "T-2")
           "Production outage" "critical security vulnerability, urgent"
           {| prompt_title := VStr "Production outage";
              prompt_description :=
                VStr "critical security vulnerability, urgent";
              prompt_priority := VStr "Medium" |}
           (ExternalError "Connection error.")).
  - repeat split; reflexivity.
  - reflexivity.
  - reflexivity.
Defined.

(** C9.  A record of the fallback path has exactly the keys [ticket_id],
    [classification], [assigned_agent], [processing_time] and
    [azure_service]; reading [confidence], [priority],
    [estimated_resolution_time] or [token_usage] from it is a [KeyError],
    whereas every record of the primary path carries those four keys. *)
Theorem fallback_record_shape :
  forall py self ticket,
    (forall e record,
        classify_primary py self ticket = Raise e ->
        classify_ticket py self ticket = Ok record ->
        keys record = fallback_keys
        /\ forall k,
            In k ["confidence"; "priority"; "estimated_resolution_time";
                  "token_usage"] ->
            getitem record k = Raise (KeyError k))
    /\ (forall record,
           classify_primary py self ticket = Ok record ->
           keys record = primary_keys
           /\ forall k,
               In k ["confidence"; "priority"; "estimated_resolution_time";
                     "token_usage"] ->
               exists v, getitem record k = Ok v).
Proof.
  intros py self ticket. split.
  - intros e record He Hc. unfold classify_ticket in Hc. rewrite He in Hc.
    cbn [try_except] in Hc.
    destruct (fallback_classification_inv _ _ Hc) as (i & t & d & Ht).
    rewrite (fallback_classification_ticket _ _ _ _ Ht) in Hc.
    injection Hc as <-. split; [reflexivity|].
    intros k [<-|[<-|[<-|[<-|[]]]]]; reflexivity.
  - intros record Hp.
    destruct (classify_primary_inv _ _ _ _ Hp) as (i & c & resp & ->).
    split; [reflexivity|].
    intros k [<-|[<-|[<-|[<-|[]]]]]; eexists; reflexivity.
Qed.

Lemma fallback_record_shape_witness :
  (classify_primary Samples.py Samples.unreachable Samples.ssl_ticket
     = Raise (ExternalError "Connection error.")
   /\ classify_ticket Samples.py Samples.unreachable Samples.ssl_ticket
      = Ok (fallback_record Samples.ssl_ticket (VStr "T-1") "Knowledge" "30s")
   /\ keys (fallback_record Samples.ssl_ticket (VStr "T-1") "Knowledge" "30s")
      = fallback_keys
   /\ forall k,
       In k ["confidence"; "priority"; "estimated_resolution_time";
             "token_usage"] ->
       getitem (fallback_record Samples.ssl_ticket (VStr "T-1") "Knowledge" "30s") k
       = Raise (KeyError k))
  /\ (classify_primary Samples.py (Samples.answering Samples.learning_json)
                       Samples.ssl_ticket
      = Ok (primary_record (Samples.answering Samples.learning_json)
              Samples.ssl_ticket (VStr "T-1")
              [("agent", VStr "Learning"); ("confidence", VFloat 0.9)]
              {| content := Samples.learning_json; prompt_tokens := 120;
                 completion_tokens := 40; total_tokens := 160 |})
      /\ keys (primary_record (Samples.answering Samples.learning_json)
                 Samples.ssl_ticket (VStr "T-1")
                 [("agent", VStr "Learning"); ("confidence", VFloat 0.9)]
                 {| content := Samples.learning_json; prompt_tokens := 120;
                    completion_tokens := 40; total_tokens := 160 |})
         = primary_keys).
Proof.
  split.
  - split; [reflexivity|]. split; [reflexivity|].
    exact (proj1 (fallback_record_shape Samples.py Samples.unreachable
                    Samples.ssl_ticket) _ _ eq_refl eq_refl).
  - split; [reflexivity|].
    exact (proj1 (proj2 (fallback_record_shape Samples.py
                           (Samples.answering Samples.learning_json)
                           Samples.ssl_ticket) _ eq_refl)).
Defined.

(** C3, as the code has it.  A response with no parseable JSON object is
    not handed to the rule-based fallback: the parser substitutes its own
    default classification (Escalation, confidence 0.8) and
    [classify_ticket] returns a record of the primary path built from it. *)
Theorem unparseable_response_keeps_primary_path :
  forall py self ticket ticket_id p resp,
    getitem ticket "id" = Ok ticket_id ->
    _build_classification_prompt ticket = Ok p ->
    create self (classification_request self p) = Ok resp ->
    no_json_object py (content resp) ->
    exists record,
      classify_ticket py self ticket = Ok record
      /\ record = primary_record self ticket ticket_id
                    parse_error_classification resp
      /\ is_primary self record = true
      /\ is_fallback record = false
      /\ lookup "assigned_agent" record = Some (VStr "Escalation")
      /\ lookup "confidence" record = Some (VFloat 0.8).
Proof.
  intros py self ticket ticket_id p resp Hid Hp Hc Hn.
  eexists. unfold classify_ticket.
  rewrite (classify_primary_answer _ _ _ _ _ _ Hid Hp Hc).
  rewrite (parse_no_json_object _ _ Hn). cbn [try_except].
  split; [reflexivity|]. split; [reflexivity|].
  split; [apply is_primary_record|].
  repeat split; reflexivity.
Qed.

Lemma unparseable_response_keeps_primary_path_witness :
  getitem Samples.ssl_ticket "id" = Ok (VStr "T-1")
  /\ no_json_object Samples.py "I cannot classify this ticket."
  /\ exists record,
       classify_ticket Samples.py
         (Samples.answering "I cannot classify this ticket.")
         Samples.ssl_ticket = Ok record
       /\ record = primary_record
                     (Samples.answering "I cannot classify this ticket.")
                     Samples.ssl_ticket (VStr "T-1")
                     parse_error_classification
                     {| content := "I cannot classify this ticket.";
                        prompt_tokens := 120; completion_tokens := 40;
                        total_tokens := 160 |}
       /\ is_primary (Samples.answering "I cannot classify this ticket.")
                     record = true
       /\ is_fallback record = false
       /\ lookup "assigned_agent" record = Some (VStr "Escalation")
       /\ lookup "confidence" record = Some (VFloat 0.8).
Proof.
  split; [reflexivity|].
  assert (Hn : no_json_object Samples.py "I cannot classify this ticket.")
    by (left; reflexivity).
  split; [exact Hn|].
  exact (unparseable_response_keeps_primary_path
           Samples.py (Samples.answering "I cannot classify this ticket.")
           Samples.ssl_ticket (VStr "T-1") _ _ eq_refl eq_refl eq_refl Hn).
Defined.

(** C3 as stated fails.  On the SSL ticket a backend answer without any
    brace comes back tagged as the primary tier and assigned to
    Escalation, although the rule-based fallback assigns that ticket to
    Knowledge. *)
Lemma unparseable_response_is_not_fallback :
  no_json_object Samples.py "I cannot classify this ticket."
  /\ exists record fallback,
       classify_ticket Samples.py
         (Samples.answering "I cannot classify this ticket.")
         Samples.ssl_ticket = Ok record
       /\ _fallback_classification Samples.ssl_ticket = Ok fallback
       /\ is_fallback record = false
       /\ is_fallback fallback = true
       /\ lookup "assigned_agent" record = Some (VStr "Escalation")
       /\ lookup "assigned_agent" fallback = Some (VStr "Knowledge")
       /\ keys record = primary_keys
       /\ keys fallback = fallback_keys.
Proof.
  split; [left; reflexivity|].
  eexists. eexists. split; [reflexivity|]. split; [reflexivity|].
  repeat split; reflexivity.
Qed.

(** C4, as the code has it.  When the backend answers and its JSON object
    decodes, the record is tagged as the primary tier; a missing [agent]
    defaults to Escalation and a missing [confidence] to 0.95. *)
Theorem missing_fields_default :
  forall py self ticket ticket_id p resp classification,
    getitem ticket "id" = Ok ticket_id ->
    _build_classification_prompt ticket = Ok p ->
    create self (classification_request self p) = Ok resp ->
    extract_json py (content resp) = Ok classification ->
    exists record,
      classify_ticket py self ticket = Ok record
      /\ is_primary self record = true
      /\ lookup "assigned_agent" record
         = Some (get classification "agent" (VStr "Escalation"))
      /\ lookup "confidence" record
         = Some (get classification "confidence" (VFloat 0.95))
      /\ (lookup "agent" classification = None ->
          lookup "assigned_agent" record = Some (VStr "Escalation"))
      /\ (lookup "confidence" classification = None ->
          lookup "confidence" record = Some (VFloat 0.95)).
Proof.
  intros py self ticket ticket_id p resp classification Hid Hp Hc Hj.
  eexists. unfold classify_ticket.
  rewrite (classify_primary_answer _ _ _ _ _ _ Hid Hp Hc).
  unfold _parse_classification_response. rewrite Hj. cbn [try_except].
  split; [reflexivity|]. split; [apply is_primary_record|].
  split; [reflexivity|]. split; [reflexivity|].
  split; intros H; cbn [primary_record lookup String.eqb Ascii.eqb Bool.eqb];
    now rewrite (get_missing _ _ _ H).
Qed.

Lemma missing_fields_default_witness :
  getitem Samples.ssl_ticket "id" = Ok (VStr "T-1")
  /\ extract_json Samples.py Samples.agent_only_json
     = Ok [("agent", VStr "Knowledge")]
  /\ exists record,
       classify_ticket Samples.py (Samples.answering Samples.agent_only_json)
                       Samples.ssl_ticket = Ok record
       /\ is_primary (Samples.answering Samples.agent_only_json) record = true
       /\ lookup "assigned_agent" record
          = Some (get [("agent", VStr "Knowledge")] "agent" (VStr "Escalation"))
       /\ lookup "confidence" record
          = Some (get [("agent", VStr "Knowledge")] "confidence" (VFloat 0.95))
       /\ (lookup "agent" [("agent", VStr "Knowledge")] = None ->
           lookup "assigned_agent" record = Some (VStr "Escalation"))
       /\ (lookup "confidence" [("agent", VStr "Knowledge")] = None ->
           lookup "confidence" record = Some (VFloat 0.95)).
Proof.
  split; [reflexivity|]. split; [reflexivity|].
  exact (missing_fields_default
           Samples.py (Samples.answering Samples.agent_only_json)
           Samples.ssl_ticket (VStr "T-1") _ _ _ eq_refl eq_refl eq_refl eq_refl).
Defined.

(** C4 as stated fails.  The backend answers [{"agent": "Knowledge"}]: the
    object decodes, has no [confidence] field, and the record's confidence
    is 0.95, not 0.8. *)
Lemma missing_confidence_is_not_0_8 :
  extract_json Samples.py Samples.agent_only_json
    = Ok [("agent", VStr "Knowledge")]
  /\ lookup "confidence" [("agent", VStr "Knowledge")] = None
  /\ exists record,
       classify_ticket Samples.py (Samples.answering Samples.agent_only_json)
                       Samples.ssl_ticket = Ok record
       /\ is_primary (Samples.answering Samples.agent_only_json) record = true
       /\ lookup "confidence" record = Some (VFloat 0.95)
       /\ ~ (0.95 == 0.8)%Q.
Proof.
  split; [reflexivity|]. split; [reflexivity|].
  eexists. split; [reflexivity|]. split; [reflexivity|].
  split; [reflexivity|]. intros H. discriminate H.
Qed.

End TriageSpec.

(* ################################################################# *)
(** * The knowledge retriever *)

Module KnowledgeSpec.
Import Knowledge PyFacts.

Lemma subsequence_refl {A : Type} (l : list A) : subsequence l l.
Proof. induction l; constructor; assumption. Qed.

Lemma subsequence_nil_l {A : Type} (l : list A) : subsequence [] l.
Proof. induction l; constructor; assumption. Qed.

Lemma subsequence_trans {A : Type} (l1 l2 l3 : list A) :
  subsequence l1 l2 -> subsequence l2 l3 -> subsequence l1 l3.
Proof.
  intros H12 H23. revert l1 H12.
  induction H23 as [|x l2 l3 H IH|x l2 l3 H IH]; intros l1 H12.
  - exact H12.
  - constructor. now apply IH.
  - inversion H12; subst; constructor; now apply IH.
Qed.

Lemma subsequence_filter {A : Type} (f : A -> bool) (l : list A) :
  subsequence (filter f l) l.
Proof.
  induction l as [|x l IH]; simpl; [constructor|].
  destruct (f x); constructor; exact IH.
Qed.

Lemma subsequence_firstn {A : Type} (n : nat) (l : list A) :
  subsequence (firstn n l) l.
Proof.
  revert n; induction l as [|x l IH]; intros [|n]; simpl.
  - constructor.
  - constructor.
  - apply subsequence_nil_l.
  - apply subsequence_cons, IH.
Qed.





Lemma fallback_search_ticket ticket ticket_id title description :
  is_ticket ticket ticket_id title description ->
  exists record,
    _fallback_search ticket = Ok record
    /\ lookup "azure_service" record = Some (VStr "Fallback (Local)").
Proof.
  intros (Hid & Ht & Hd). unfold _fallback_search.
  rewrite Ht, Hd. cbn [bind lower_of]. rewrite Hid. cbn [bind].
  eexists. split; reflexivity.
Qed.

(** A record tagged as the fallback tier is returned only when the
    primary path raised. *)
Lemma fallback_only_on_error self ticket record :
  search_knowledge self ticket = Ok record ->
  lookup "azure_service" record = Some (VStr "Fallback (Local)") ->
  exists e, search_primary self ticket = Raise e.
Proof.
  unfold search_knowledge. intros H Ha.
  destruct (search_primary self ticket) as [r|e] eqn:Hp; [|now exists e].
  cbn [try_except] in H. injection H as ->. exfalso.
  unfold search_primary in Hp.
  destruct (_build_search_query ticket) as [q|]; [|discriminate].
  cbn [bind] in Hp.
  destruct (search self (search_request self q)) as [rs|]; [|discriminate].
  cbn [bind] in Hp.
  destruct (getitem ticket "id") as [i|]; [|discriminate].
  cbn [bind] in Hp.
  match type of Hp with
  | bind ?m _ = _ => destruct m as [sc|]; [|discriminate]
  end.
  cbn [bind] in Hp. injection Hp as <-. discriminate Ha.
Qed.


(** The query of a ticket whose description names vocabulary terms. *)
Example ssl_ticket_query :
  _build_search_query Samples.ssl_ticket
  = Ok "How do I configure SSL? certificate".
Proof. reflexivity. Qed.

(** Terms come in vocabulary order, not in the order of the text, and stop
    at five. *)
Example key_terms_vocabulary_order :
  key_terms_of "Redis timeout, then an API error; database and SSL certificate"
  = ["ssl"; "certificate"; "database"; "api"; "redis"].
Proof. reflexivity. Qed.



End KnowledgeSpec.

(* ################################################################# *)
(** * The coordinator *)

Module CoordinatorSpec.
Import Coordinator PyFacts.

(** Unfold the statements of the [try] block. *)
Ltac run_steps :=
  unfold process_steps, and_then, lift, append_step, read, complete.

(** Whatever the outcome of the steps, the records of a returned log are
    an initial part of triage, assigned agent, analytics, and a completed
    log holds all three. *)
Lemma returned_steps_prefix self ticket log :
  coordinate_ticket_processing self ticket = Ok log ->
  exists assigned_agent n,
    agents_of log = firstn n ["triage"; assigned_agent; "analytics"]
    /\ (status log = "completed" -> n = 3%nat).
Proof.
  unfold coordinate_ticket_processing. intros H.
  destruct (getitem ticket "id") as [i|]; [|discriminate].
  cbn [bind] in H. revert H. run_steps.
  destruct (process_with_agent self "triage" ticket) as [tr|].
  2:{ intros H; injection H as <-. exists "escalation", 0%nat.
      split; [reflexivity | discriminate]. }
  destruct (lower_of _) as [a|].
  2:{ intros H; injection H as <-. exists "escalation", 1%nat.
      split; [reflexivity | discriminate]. }
  destruct (process_with_agent self (route a) ticket) as [ar|].
  2:{ intros H; injection H as <-. exists a, 1%nat.
      split; [reflexivity | discriminate]. }
  destruct (process_with_agent self "analytics" _) as [an|].
  2:{ intros H; injection H as <-. exists a, 2%nat.
      split; [reflexivity | discriminate]. }
  destruct (durations _) as [seconds|];
    intros H; injection H as <-; exists a, 3%nat; split; reflexivity.
Qed.

(** The mock agents of scenario D's ticket take 2.3, 3.2 and 0.5 seconds:
    the total is printed as 6.0s. *)
Example deploy_ticket_total :
  exists log,
    coordinate_ticket_processing
      (mock_coordinator Samples.py Samples.clock) Samples.deploy_ticket = Ok log
    /\ map duration (steps log) = [VStr "2.3s"; VStr "3.2s"; VStr "0.5s"]
    /\ total_time log = VStr "6.0s".
Proof. eexists. split; [reflexivity|]. split; reflexivity. Qed.

(** C2 as stated fails.  The shipped coordinator, on a ticket whose
    [expectedAgent] is null, returns a failed log that holds the triage
    record of 2.3 seconds while its total is still 0. *)
Lemma failed_log_total_is_not_the_sum :
  exists log,
    coordinate_ticket_processing
      (mock_coordinator Samples.py Samples.clock) Samples.null_agent_ticket
    = Ok log
    /\ status log = "failed"
    /\ error log = Some "'NoneType' object has no attribute 'lower'"
    /\ map duration (steps log) = [VStr "2.3s"]
    /\ durations (steps log) = Ok [2.3%Q]
    /\ total_time log = VInt 0
    /\ ~ (sum [2.3] == 0)%Q.
Proof.
  eexists. split; [reflexivity|]. repeat (split; [reflexivity|]).
  intros H. discriminate H.
Qed.

(** C1 as stated fails.  In scenario D (the automation agent raises) the
    returned log holds one record, for triage: none for the step that
    raised, and none for analytics. *)
Lemma failed_step_is_not_recorded :
  process_with_agent Samples.failing_automation "automation"
                     Samples.deploy_ticket
  = Raise (ExternalError "automation worker crashed")
  /\ exists log,
       coordinate_ticket_processing Samples.failing_automation
                                    Samples.deploy_ticket = Ok log
       /\ status log = "failed"
       /\ agents_of log = ["triage"]
       /\ List.length (steps log) = 1%nat
       /\ ~ In "analytics" (agents_of log)
       /\ ~ In "automation" (agents_of log).
Proof.
  split; [reflexivity|]. eexists. split; [reflexivity|].
  split; [reflexivity|]. split; [reflexivity|]. split; [reflexivity|].
  split; simpl; intros [H|[]]; discriminate H.
Qed.

End CoordinatorSpec.

(* ################################################################# *)
(** * More of the classifier *)

Module TriageMore.
Import Triage PyFacts TriageSpec.

Lemma length_app (a b : string) :
  String.length (a ++ b) = (String.length a + String.length b)%nat.
Proof. induction a as [|c a IH]; simpl; [reflexivity | now rewrite IH]. Qed.

Lemma app_assoc_string (a b c : string) : (a ++ b) ++ c = a ++ b ++ c.
Proof. induction a as [|x a IH]; simpl; [reflexivity | now rewrite IH]. Qed.

Lemma find_range (s : string) (c : ascii) : (-1 <= find s c)%Z.
Proof.
  induction s as [|a s IH]; simpl; [lia|].
  destruct (Ascii.eqb a c); [lia|].
  destruct (find s c <? 0)%Z eqn:H; [lia|]. apply Z.ltb_ge in H. lia.
Qed.

Lemma rfind_range (s : string) (c : ascii) : (-1 <= rfind s c)%Z.
Proof.
  induction s as [|a s IH]; simpl; [lia|].
  destruct (0 <=? rfind s c)%Z eqn:H.
  - apply Z.leb_le in H. lia.
  - destruct (Ascii.eqb a c); lia.
Qed.

(** The first occurrence: a character absent from [pre] is found right
    after it. *)
Lemma find_after_prefix (pre rest : string) (c : ascii) :
  find pre c = (-1)%Z ->
  find (pre ++ String c rest) c = Z.of_nat (String.length pre).
Proof.
  induction pre as [|a pre IH]; simpl.
  - intros _. now rewrite Ascii.eqb_refl.
  - destruct (Ascii.eqb a c); [discriminate|].
    pose proof (find_range pre c) as Hr.
    destruct (find pre c <? 0)%Z eqn:H.
    + intros _. apply Z.ltb_lt in H. rewrite IH by lia.
      replace (Z.of_nat (String.length pre) <? 0)%Z with false; [lia|].
      symmetry. apply Z.ltb_ge. lia.
    + intros E. apply Z.ltb_ge in H. lia.
Qed.

(** The last occurrence: a character absent from [post] is found right
    before it. *)
Lemma rfind_before_suffix (s post : string) (c : ascii) :
  rfind post c = (-1)%Z ->
  rfind (s ++ String c post) c = Z.of_nat (String.length s).
Proof.
  intros Hp. induction s as [|a s IH]; simpl.
  - rewrite Hp. cbn. now rewrite Ascii.eqb_refl.
  - rewrite IH.
    replace (0 <=? Z.of_nat (String.length s))%Z with true; [lia|].
    symmetry. apply Z.leb_le. lia.
Qed.

Lemma substring_skip (pre s : string) (n : nat) :
  substring (String.length pre) n (pre ++ s) = substring 0 n s.
Proof. induction pre as [|a pre IH]; simpl; [reflexivity | exact IH]. Qed.

Lemma substring_prefix (a b : string) :
  substring 0 (String.length a) (a ++ b) = a.
Proof.
  induction a as [|c a IH]; simpl; [now destruct b | now rewrite IH].
Qed.

(** The span handed to [json.loads] runs from the first opening brace to
    the last closing brace. *)
Lemma slice_between_braces (pre body post : string) :
  find pre "{" = (-1)%Z ->
  rfind post "}" = (-1)%Z ->
  let response := pre ++ "{" ++ body ++ "}" ++ post in
  find response "{" = Z.of_nat (String.length pre)
  /\ rfind response "}" = Z.of_nat (String.length pre + 1 + String.length body)
  /\ slice response (find response "{") (rfind response "}" + 1)
     = "{" ++ body ++ "}".
Proof.
  intros Hpre Hpost response.
  assert (Hf : find response "{" = Z.of_nat (String.length pre)).
  { unfold response. cbn [append]. now apply find_after_prefix. }
  assert (Hr : rfind response "}"
               = Z.of_nat (String.length pre + 1 + String.length body)).
  { unfold response.
    replace (pre ++ "{" ++ body ++ "}" ++ post)
      with ((pre ++ "{" ++ body) ++ String "}" post)
      by (now rewrite !app_assoc_string).
    rewrite (rfind_before_suffix _ _ _ Hpost), !length_app. cbn. f_equal. lia. }
  split; [exact Hf|]. split; [exact Hr|].
  rewrite Hf, Hr. unfold slice, response. rewrite Nat2Z.id.
  replace (Z.to_nat (Z.of_nat (String.length pre + 1 + String.length body) + 1
                     - Z.of_nat (String.length pre)))
    with (String.length ("{" ++ body ++ "}"))
    by (rewrite !length_app; cbn; lia).
  rewrite substring_skip.
  replace ("{" ++ body ++ "}" ++ post) with (("{" ++ body ++ "}") ++ post)
    by (now rewrite !app_assoc_string).
  apply substring_prefix.
Qed.

Lemma build_prompt_ticket ticket ticket_id title description :
  is_ticket ticket ticket_id title description ->
  _build_classification_prompt ticket
  = Ok {| prompt_title := VStr title;
          prompt_description := VStr description;
          prompt_priority := get ticket "priority" (VStr "Medium") |}.
Proof.
  intros (_ & Ht & Hd). unfold _build_classification_prompt.
  now rewrite Ht, Hd.
Qed.

(** X1.  Text around the JSON object is ignored: when no opening brace
    precedes the object and no closing brace follows it, the classifier
    decodes exactly the object, and falls back on its default
    classification only if that object does not decode. *)
Theorem parse_ignores_surrounding_text :
  forall py pre body post,
    find pre "{" = (-1)%Z ->
    rfind post "}" = (-1)%Z ->
    _parse_classification_response py (pre ++ "{" ++ body ++ "}" ++ post)
    = match json_loads py ("{" ++ body ++ "}") with
      | Some d => d
      | None => parse_error_classification
      end.
Proof.
  intros py pre body post Hpre Hpost.
  destruct (slice_between_braces pre body post Hpre Hpost) as (Hf & Hr & Hs).
  unfold _parse_classification_response, extract_json.
  rewrite Hs, Hf, Hr.
  replace (0 <=? Z.of_nat (String.length pre))%Z with true
    by (symmetry; apply Z.leb_le; lia).
  replace (Z.of_nat (String.length pre)
           <? Z.of_nat (String.length pre + 1 + String.length body) + 1)%Z
    with true by (symmetry; apply Z.ltb_lt; lia).
  cbn [andb]. now destruct (json_loads py _).
Qed.

Lemma parse_ignores_surrounding_text_witness :
  find "Here is my answer: " "{" = (-1)%Z
  /\ rfind " Hope this helps." "}" = (-1)%Z
  /\ _parse_classification_response Samples.py
       ("Here is my answer: " ++ "{" ++ MoreSamples.agent_only_body ++ "}"
          ++ " Hope this helps.")
     = match json_loads Samples.py ("{" ++ MoreSamples.agent_only_body ++ "}") with
       | Some d => d
       | None => parse_error_classification
       end
  /\ json_loads Samples.py ("{" ++ MoreSamples.agent_only_body ++ "}")
     = Some [("agent", VStr "Knowledge")].
Proof.
  split; [reflexivity|]. split; [reflexivity|]. split; [|reflexivity].
  apply (parse_ignores_surrounding_text Samples.py "Here is my answer: "
           MoreSamples.agent_only_body " Hope this helps."); reflexivity.
Defined.

(** X2.  On a ticket of the data model [classify_ticket] returns a record
    whether the completion backend answers or raises an exception derived
    from [Exception], the ones [except Exception] catches: the record is
    tagged as the primary or as the fallback tier, and either way it has
    the keys [ticket_id], [classification], [assigned_agent],
    [processing_time] and [azure_service]. *)
Theorem classify_ticket_always_returns :
  forall py self ticket ticket_id title description,
    is_ticket ticket ticket_id title description ->
    exists record,
      classify_ticket py self ticket = Ok record
      /\ (is_primary self record = true \/ is_fallback record = true)
      /\ forall k, In k fallback_keys -> exists v, getitem record k = Ok v.
Proof.
  intros py self ticket ticket_id title description Ht.
  pose proof (build_prompt_ticket _ _ _ _ Ht) as Hp.
  destruct (create self (classification_request self
              {| prompt_title := VStr title;
                 prompt_description := VStr description;
                 prompt_priority := get ticket "priority" (VStr "Medium") |}))
    as [resp|e] eqn:Hc.
  - destruct Ht as (Hid & _).
    eexists. unfold classify_ticket.
    rewrite (classify_primary_answer _ _ _ _ _ _ Hid Hp Hc). cbn [try_except].
    split; [reflexivity|]. split; [left; apply is_primary_record|].
    intros k [<-|[<-|[<-|[<-|[<-|[]]]]]]; eexists; reflexivity.
  - rewrite (classify_backend_raises _ _ _ _ _ Hp Hc).
    rewrite (fallback_classification_ticket _ _ _ _ Ht). cbv zeta.
    eexists. split; [reflexivity|]. split; [right; reflexivity|].
    intros k [<-|[<-|[<-|[<-|[<-|[]]]]]]; eexists; reflexivity.
Qed.

Lemma classify_ticket_always_returns_witness :
  is_ticket Samples.outage_ticket (VStr "T-2") "Production outage"
            "critical security vulnerability, urgent"
  /\ exists record,
       classify_ticket Samples.py Samples.unreachable Samples.outage_ticket
         = Ok record
       /\ (is_primary Samples.unreachable record = true
           \/ is_fallback record = true)
       /\ forall k, In k fallback_keys -> exists v, getitem record k = Ok v.
Proof.
  assert (Ht : is_ticket Samples.outage_ticket (VStr "T-2") "Production outage"
                         "critical security vulnerability, urgent")
    by (repeat split; reflexivity).
  split; [exact Ht|].
  exact (classify_ticket_always_returns Samples.py Samples.unreachable
           Samples.outage_ticket _ _ _ Ht).
Defined.

(** X3.  The priority of a primary record: when the decoded object has no
    [priority], the ticket's own priority is kept ([Medium] if it has
    none); but when no object can be parsed the priority is [Medium]
    whatever the ticket says. *)
Theorem primary_priority :
  forall py self ticket ticket_id p resp,
    getitem ticket "id" = Ok ticket_id ->
    _build_classification_prompt ticket = Ok p ->
    create self (classification_request self p) = Ok resp ->
    exists record,
      classify_ticket py self ticket = Ok record
      /\ (forall classification,
             extract_json py (content resp) = Ok classification ->
             lookup "priority" classification = None ->
             lookup "priority" record
             = Some (get ticket "priority" (VStr "Medium")))
      /\ (no_json_object py (content resp) ->
          lookup "priority" record = Some (VStr "Medium")).
Proof.
  intros py self ticket ticket_id p resp Hid Hp Hc.
  eexists. unfold classify_ticket.
  rewrite (classify_primary_answer _ _ _ _ _ _ Hid Hp Hc). cbn [try_except].
  split; [reflexivity|]. split.
  - intros classification Hj Hn. unfold _parse_classification_response.
    rewrite Hj. cbn [primary_record lookup String.eqb Ascii.eqb Bool.eqb].
    now rewrite (get_missing _ _ _ Hn).
  - intros Hn. now rewrite (parse_no_json_object _ _ Hn).
Qed.

Lemma primary_priority_witness :
  (exists record,
      classify_ticket Samples.py (Samples.answering Samples.agent_only_json)
                      MoreSamples.critical_ticket = Ok record
      /\ extract_json Samples.py Samples.agent_only_json
         = Ok [("agent", VStr "Knowledge")]
      /\ lookup "priority" record = Some (VStr "Critical"))
  /\ (exists record,
         classify_ticket Samples.py (Samples.answering "no idea")
                         MoreSamples.critical_ticket = Ok record
         /\ no_json_object Samples.py "no idea"
         /\ lookup "priority" record = Some (VStr "Medium")).
Proof.
  split.
  - destruct (primary_priority Samples.py
                (Samples.answering Samples.agent_only_json)
                MoreSamples.critical_ticket (VStr "T-6") _ _
                eq_refl eq_refl eq_refl) as (record & Hr & Hk & _).
    assert (Hj : extract_json Samples.py Samples.agent_only_json
                 = Ok [("agent", VStr "Knowledge")])
      by (vm_compute; reflexivity).
    exists record. split; [exact Hr|]. split; [exact Hj|].
    exact (Hk _ Hj eq_refl).
  - destruct (primary_priority Samples.py (Samples.answering "no idea")
                MoreSamples.critical_ticket (VStr "T-6") _ _
                eq_refl eq_refl eq_refl) as (record & Hr & _ & Hn).
    assert (H : no_json_object Samples.py "no idea") by (left; reflexivity).
    exists record. split; [exact Hr|]. split; [exact H|]. exact (Hn H).
Defined.

(** X4.  Outside the data model [classify_ticket] raises, because the
    fallback reads the same fields: a [KeyError] for a missing title,
    description or id (the id even when the backend has answered), and an
    [AttributeError] for a title that is not a string once the backend
    call raises. *)
Theorem classify_ticket_malformed_ticket :
  forall py self ticket,
    (lookup "title" ticket = None ->
     classify_ticket py self ticket = Raise (KeyError "title"))
    /\ (forall title,
           getitem ticket "title" = Ok (VStr title) ->
           lookup "description" ticket = None ->
           classify_ticket py self ticket = Raise (KeyError "description"))
    /\ (forall title description,
           getitem ticket "title" = Ok (VStr title) ->
           getitem ticket "description" = Ok (VStr description) ->
           lookup "id" ticket = None ->
           classify_ticket py self ticket = Raise (KeyError "id"))
    /\ (forall title description p e,
           getitem ticket "title" = Ok title ->
           (forall s, title <> VStr s) ->
           getitem ticket "description" = Ok description ->
           _build_classification_prompt ticket = Ok p ->
           create self (classification_request self p) = Raise e ->
           classify_ticket py self ticket
           = Raise (no_attribute title "lower")).
Proof.
  intros py self ticket. split; [apply classify_ticket_without_title|].
  split; [|split].
  - intros title Ht Hd.
    unfold classify_ticket, classify_primary, _build_classification_prompt,
      _fallback_classification.
    rewrite Ht, (getitem_missing _ _ Hd). reflexivity.
  - intros title description Ht Hd Hi.
    unfold classify_ticket, classify_primary, _build_classification_prompt,
      _fallback_classification.
    rewrite Ht, Hd, (getitem_missing _ _ Hi). cbn [bind lower_of].
    destruct (create self _); cbn [bind try_except];
      repeat match goal with
             | |- context [if ?b then _ else _] => destruct b
             end; reflexivity.
  - intros title description p e Ht Hs Hd Hp Hc.
    rewrite (classify_backend_raises _ _ _ _ _ Hp Hc).
    unfold _fallback_classification. rewrite Ht. cbn [bind].
    destruct title; try reflexivity. now elim (Hs s).
Qed.

Lemma classify_ticket_malformed_ticket_witness :
  classify_ticket Samples.py (Samples.answering Samples.agent_only_json)
                  MoreSamples.no_title = Raise (KeyError "title")
  /\ classify_ticket Samples.py (Samples.answering Samples.agent_only_json)
                     MoreSamples.no_description
     = Raise (KeyError "description")
  /\ classify_ticket Samples.py (Samples.answering Samples.agent_only_json)
                     MoreSamples.no_id = Raise (KeyError "id")
  /\ classify_ticket Samples.py Samples.unreachable MoreSamples.numeric_title
     = Raise (AttributeError "'int' object has no attribute 'lower'").
Proof.
  pose proof (classify_ticket_malformed_ticket Samples.py
                (Samples.answering Samples.agent_only_json)) as H.
  split; [exact (proj1 (H MoreSamples.no_title) eq_refl)|].
  split; [exact (proj1 (proj2 (H MoreSamples.no_description)) _ eq_refl eq_refl)|].
  split; [exact (proj1 (proj2 (proj2 (H MoreSamples.no_id))) _ _
                   eq_refl eq_refl eq_refl)|].
  refine (proj2 (proj2 (proj2 (classify_ticket_malformed_ticket Samples.py
            Samples.unreachable MoreSamples.numeric_title)))
            (VInt 404) (VStr "not found") _ (ExternalError "Connection error.")
            eq_refl _ eq_refl eq_refl eq_refl).
  intros s. discriminate.
Defined.

(** X5.  Every agent the rule-based fallback assigns is, once lower-cased,
    one of the names the coordinator routes to itself: a fallback
    classification is never re-routed to the escalation default. *)
Theorem fallback_agents_are_routable :
  forall ticket record,
    _fallback_classification ticket = Ok record ->
    exists agent,
      lookup "assigned_agent" record = Some (VStr agent)
      /\ Coordinator.route (lower agent) = lower agent
      /\ In (lower agent) ["knowledge"; "automation"; "escalation"; "analytics"].
Proof.
  intros ticket record H.
  destruct (fallback_classification_inv _ _ H) as (i & t & d & Ht).
  rewrite (fallback_classification_ticket _ _ _ _ Ht) in H. cbv zeta in H.
  injection H as <-.
  exists (first_matching_rule keyword_rules (lower (t ++ d))).
  split; [reflexivity|].
  pose proof (first_matching_rule_range (lower (t ++ d))) as Hr.
  destruct Hr as [<-|[<-|[<-|[<-|[]]]]]; (split; [reflexivity|]);
    simpl; tauto.
Qed.

Lemma fallback_agents_are_routable_witness :
  _fallback_classification Samples.ssl_ticket
  = Ok (fallback_record Samples.ssl_ticket (VStr "T-1") "Knowledge" "30s")
  /\ exists agent,
       lookup "assigned_agent"
              (fallback_record Samples.ssl_ticket (VStr "T-1") "Knowledge" "30s")
       = Some (VStr agent)
       /\ Coordinator.route (lower agent) = lower agent
       /\ In (lower agent) ["knowledge"; "automation"; "escalation"; "analytics"].
Proof.
  split; [reflexivity|].
  exact (fallback_agents_are_routable Samples.ssl_ticket _ eq_refl).
Defined.

End TriageMore.

(* ################################################################# *)
(** * More of the knowledge retriever *)

Module KnowledgeMore.
Import Knowledge PyFacts KnowledgeSpec Views.


Lemma fallback_search_record ticket ticket_id title description :
  is_ticket ticket ticket_id title description ->
  _fallback_search ticket
  = Ok [ ("ticket_id", ticket_id);
         ("search_query", VStr title);
         ("results_found", VInt 1);
         ("best_match",
           let best := first_article mock_knowledge
                         (lower title ++ lower description) in
           if negb (truthy best)
           then VDict [ ("title", VStr "General Support Guide");
                        ("content", VStr "General troubleshooting steps and support resources...");
                        ("category", VStr "General") ]
           else best);
         ("relevance_score", VFloat 0.85);
         ("processing_time", VStr "0.8s");
         ("azure_service", VStr "Fallback (Local)") ].
Proof.
  intros (Hid & Ht & Hd). unfold _fallback_search.
  rewrite Ht, Hd. cbn [bind lower_of]. now rewrite Hid.
Qed.





(** X8.  The fallback search always reports exactly one result with
    relevance 0.85 and queries by the bare title.  Its article is chosen
    by the first topic, in the order ssl, deployment, database, that
    occurs in the lower-cased title followed by the lower-cased
    description; the general guide is used when none occurs.  The record
    has no [all_results] key. *)
Theorem fallback_search_article :
  forall ticket ticket_id title description,
    is_ticket ticket ticket_id title description ->
    let text := lower title ++ lower description in
    exists record best,
      _fallback_search ticket = Ok record
      /\ lookup "best_match" record = Some (VDict best)
      /\ lookup "title" best
         = Some (VStr (if contains "ssl" text
                       then "SSL Certificate Configuration Guide"
                       else if contains "deployment" text
                       then "Deployment Troubleshooting Guide"
                       else if contains "database" text
                       then "Database Performance Optimization"
                       else "General Support Guide"))
      /\ lookup "results_found" record = Some (VInt 1)
      /\ lookup "relevance_score" record = Some (VFloat 0.85)
      /\ lookup "search_query" record = Some (VStr title)
      /\ lookup "all_results" record = None.
Proof.
  intros ticket ticket_id title description Ht text.
  rewrite (fallback_search_record _ _ _ _ Ht). fold text.
  unfold mock_knowledge. cbn [first_article].
  destruct (contains "ssl" text);
    [|destruct (contains "deployment" text);
      [|destruct (contains "database" text)]];
    eexists; eexists; (split; [reflexivity|]); repeat split; reflexivity.
Qed.

Lemma fallback_search_article_witness :
  is_ticket MoreSamples.migration_ticket (VStr "T-11") "Database migration"
            "Deployment of the new schema hangs"
  /\ exists record best,
       _fallback_search MoreSamples.migration_ticket = Ok record
       /\ lookup "best_match" record = Some (VDict best)
       /\ lookup "title" best = Some (VStr "Deployment Troubleshooting Guide")
       /\ lookup "results_found" record = Some (VInt 1)
       /\ lookup "relevance_score" record = Some (VFloat 0.85)
       /\ lookup "search_query" record = Some (VStr "Database migration")
       /\ lookup "all_results" record = None.
Proof.
  assert (Ht : is_ticket MoreSamples.migration_ticket (VStr "T-11")
                 "Database migration" "Deployment of the new schema hangs")
    by (repeat split; reflexivity).
  split; [exact Ht|].
  exact (fallback_search_article MoreSamples.migration_ticket _ _ _ Ht).
Defined.

Lemma subsequence_In {A : Type} (l1 l2 : list A) (x : A) :
  subsequence l1 l2 -> In x l1 -> In x l2.
Proof.
  induction 1 as [|y l1 l2 H IH|y l1 l2 H IH]; simpl; [tauto | auto |].
  intros [->|Hx]; auto.
Qed.

Lemma subsequence_NoDup {A : Type} (l1 l2 : list A) :
  subsequence l1 l2 -> NoDup l2 -> NoDup l1.
Proof.
  induction 1 as [|y l1 l2 H IH|y l1 l2 H IH]; intros Hn.
  - constructor.
  - inversion Hn; subst. auto.
  - inversion Hn; subst. constructor; [|auto].
    intros Hy. eauto using subsequence_In.
Qed.

Lemma technical_terms_NoDup : NoDup technical_terms.
Proof.
  unfold technical_terms.
  repeat (constructor;
          [simpl; intros H;
           repeat (destruct H as [H|H]; [discriminate H|]); exact H|]).
  constructor.
Qed.

(** X9.  [_extract_key_terms] returns only for a string, and then no
    term is repeated among the key terms, however often it occurs in the
    text. *)
Theorem key_terms_are_distinct :
  forall text terms,
    _extract_key_terms text = Ok terms ->
    (exists s, text = VStr s) /\ NoDup terms.
Proof.
  intros text terms H. unfold _extract_key_terms in H.
  destruct text; try discriminate.
  change (Ok (key_terms_of s) = Ok terms) in H.
  injection H as <-. split; [now exists s|]. unfold key_terms_of.
  eapply subsequence_NoDup; [|apply technical_terms_NoDup].
  eapply subsequence_trans;
    [apply subsequence_firstn | apply subsequence_filter].
Qed.

Lemma key_terms_are_distinct_witness :
  _extract_key_terms (VStr "SSL here, ssl there, and an SSL certificate")
  = Ok ["ssl"; "certificate"]
  /\ (exists s, VStr "SSL here, ssl there, and an SSL certificate" = VStr s)
  /\ NoDup ["ssl"; "certificate"].
Proof.
  split; [reflexivity|].
  exact (key_terms_are_distinct
           (VStr "SSL here, ssl there, and an SSL certificate") _ eq_refl).
Defined.

(** X10.  Outside the data model [search_knowledge] raises, because the
    fallback reads the same fields as the primary path: a [KeyError] for
    a missing title or id, an [AttributeError] for a title or a
    description that is not a string. *)
Theorem search_knowledge_malformed_ticket :
  forall self ticket,
    (lookup "title" ticket = None ->
     search_knowledge self ticket = Raise (KeyError "title"))
    /\ (forall title description,
           getitem ticket "title" = Ok (VStr title) ->
           getitem ticket "description" = Ok description ->
           (forall s, description <> VStr s) ->
           search_knowledge self ticket
           = Raise (no_attribute description "lower"))
    /\ (forall title description,
           getitem ticket "title" = Ok title ->
           (forall s, title <> VStr s) ->
           getitem ticket "description" = Ok (VStr description) ->
           search_knowledge self ticket = Raise (no_attribute title "lower"))
    /\ (forall title description,
           getitem ticket "title" = Ok (VStr title) ->
           getitem ticket "description" = Ok (VStr description) ->
           lookup "id" ticket = None ->
           search_knowledge self ticket = Raise (KeyError "id")).
Proof.
  intros self ticket. split; [|split; [|split]].
  - intros Ht. unfold search_knowledge, search_primary, _build_search_query,
      _fallback_search.
    now rewrite (getitem_missing _ _ Ht).
  - intros title description Ht Hd Hs.
    unfold search_knowledge, search_primary, _build_search_query,
      _extract_key_terms, _fallback_search.
    rewrite Ht, Hd. cbn [bind lower_of].
    destruct description; try reflexivity. now elim (Hs s).
  - intros title description Ht Hs Hd.
    unfold search_knowledge, search_primary, _build_search_query,
      _extract_key_terms, _fallback_search, join.
    rewrite Ht, Hd. cbn [bind lower_of app strings_of].
    destruct title; try reflexivity. now elim (Hs s).
  - intros title description Ht Hd Hi.
    assert (Hf : _fallback_search ticket = Raise (KeyError "id")).
    { unfold _fallback_search. rewrite Ht, Hd. cbn [bind lower_of].
      now rewrite (getitem_missing _ _ Hi). }
    unfold search_knowledge, search_primary.
    destruct (_build_search_query ticket) as [q|]; [|exact Hf].
    cbn [bind]. destruct (search self (search_request self q)); [|exact Hf].
    cbn [bind]. rewrite (getitem_missing _ _ Hi). exact Hf.
Qed.

Lemma search_knowledge_malformed_ticket_witness :
  search_knowledge Samples.empty_index MoreSamples.no_title
  = Raise (KeyError "title")
  /\ search_knowledge Samples.empty_index MoreSamples.numeric_description
     = Raise (AttributeError "'int' object has no attribute 'lower'")
  /\ search_knowledge Samples.empty_index MoreSamples.numeric_title
     = Raise (AttributeError "'int' object has no attribute 'lower'")
  /\ search_knowledge Samples.empty_index MoreSamples.no_id
     = Raise (KeyError "id").
Proof.
  split; [exact (proj1 (search_knowledge_malformed_ticket Samples.empty_index
                          MoreSamples.no_title) eq_refl)|].
  split.
  { refine (proj1 (proj2 (search_knowledge_malformed_ticket Samples.empty_index
                            MoreSamples.numeric_description))
                  "Error code" (VInt 500) eq_refl eq_refl _).
    intros s. discriminate. }
  split.
  { refine (proj1 (proj2 (proj2 (search_knowledge_malformed_ticket
                                   Samples.empty_index
                                   MoreSamples.numeric_title)))
                  (VInt 404) "not found" eq_refl _ eq_refl).
    intros s. discriminate. }
  exact (proj2 (proj2 (proj2 (search_knowledge_malformed_ticket
                                Samples.empty_index MoreSamples.no_id)))
               _ _ eq_refl eq_refl eq_refl).
Defined.

End KnowledgeMore.

(* ################################################################# *)
(** * More of the coordinator *)

Module CoordinatorMore.
Import Coordinator PyFacts CoordinatorSpec Views.

(** X11.  A dict without an id makes [coordinate_ticket_processing] raise
    [KeyError] before any log exists.  For a ticket with an id a log is
    returned whether each agent returns or raises an exception derived
    from [Exception], the ones [except Exception] catches: it carries the
    ticket's id and the start time, its status is completed or failed, the
    error is set exactly when it is failed and the end time exactly when
    it is completed. *)
Theorem returned_log_invariant :
  forall self ticket,
    (lookup "id" ticket = None ->
     coordinate_ticket_processing self ticket = Raise (KeyError "id"))
    /\ (forall ticket_id,
           getitem ticket "id" = Ok ticket_id ->
           exists log,
             coordinate_ticket_processing self ticket = Ok log
             /\ Coordinator.ticket_id log = ticket_id
             /\ start_time log = now self 0
             /\ ((status log = "completed" /\ error log = None
                  /\ end_time log = Some (now self 1))
                 \/ (status log = "failed" /\ end_time log = None
                     /\ exists text, error log = Some text))).
Proof.
  intros self ticket. split.
  - intros H. unfold coordinate_ticket_processing.
    now rewrite (getitem_missing _ _ H).
  - intros ticket_id Hid. unfold coordinate_ticket_processing.
    rewrite Hid. cbn [bind]. run_steps.
    destruct (process_with_agent self "triage" ticket) as [tr|e].
    2:{ eexists. split; [reflexivity|]. split; [reflexivity|].
        split; [reflexivity|]. right. cbn. eauto. }
    destruct (lower_of _) as [a|e].
    2:{ eexists. split; [reflexivity|]. split; [reflexivity|].
        split; [reflexivity|]. right. cbn. eauto. }
    destruct (process_with_agent self (route a) ticket) as [ar|e].
    2:{ eexists. split; [reflexivity|]. split; [reflexivity|].
        split; [reflexivity|]. right. cbn. eauto. }
    destruct (process_with_agent self "analytics" _) as [an|e].
    2:{ eexists. split; [reflexivity|]. split; [reflexivity|].
        split; [reflexivity|]. right. cbn. eauto. }
    destruct (durations _) as [seconds|e].
    + eexists. split; [reflexivity|]. split; [reflexivity|].
      split; [reflexivity|]. left. cbn. auto.
    + eexists. split; [reflexivity|]. split; [reflexivity|].
      split; [reflexivity|]. right. cbn. eauto.
Qed.

Lemma returned_log_invariant_witness :
  coordinate_ticket_processing (mock_coordinator Samples.py Samples.clock)
                               MoreSamples.no_id = Raise (KeyError "id")
  /\ exists log,
       coordinate_ticket_processing Samples.failing_automation
                                    Samples.deploy_ticket = Ok log
       /\ Coordinator.ticket_id log = VStr "T-4"
       /\ start_time log = now Samples.failing_automation 0
       /\ ((status log = "completed" /\ error log = None
            /\ end_time log = Some (now Samples.failing_automation 1))
           \/ (status log = "failed" /\ end_time log = None
               /\ exists text, error log = Some text)).
Proof.
  split.
  - exact (proj1 (returned_log_invariant
                    (mock_coordinator Samples.py Samples.clock)
                    MoreSamples.no_id) eq_refl).
  - exact (proj2 (returned_log_invariant Samples.failing_automation
                    Samples.deploy_ticket) _ eq_refl).
Defined.

(** The [if]/[elif] chain: a known name is routed to itself, any other
    to escalation. *)
Lemma route_known (a : string) : In a routes -> route a = a.
Proof.
  unfold routes. simpl. intros [<-|[<-|[<-|[<-|[<-|[]]]]]]; reflexivity.
Qed.

Lemma route_unknown (a : string) : ~ In a routes -> route a = "escalation".
Proof.
  unfold routes, route. simpl. intros H.
  repeat match goal with
         | |- context [?x =? ?y] =>
             destruct (String.eqb_spec x y); [subst; tauto|]
         end.
  reflexivity.
Qed.

(** X14.  When the triage result assigns something that is not a string
    (a JSON null, a number), the log comes back failed with the triage
    record alone and the [AttributeError] of [.lower()] as error; no
    other agent is called. *)
Theorem non_string_assignment_fails :
  forall self ticket ticket_id triage_result assigned,
    getitem ticket "id" = Ok ticket_id ->
    process_with_agent self "triage" ticket = Ok triage_result ->
    lookup "assigned_agent" triage_result = Some assigned ->
    (forall s, assigned <> VStr s) ->
    exists log,
      coordinate_ticket_processing self ticket = Ok log
      /\ steps log = [triage_step triage_result]
      /\ status log = "failed"
      /\ error log = Some ("'" ++ type_name assigned
                              ++ "' object has no attribute 'lower'")
      /\ total_time log = VInt 0.
Proof.
  intros self ticket ticket_id triage_result assigned Hid Ht Ha Hs.
  unfold coordinate_ticket_processing. rewrite Hid. cbn [bind]. run_steps.
  rewrite Ht, (get_present _ _ _ _ Ha).
  destruct assigned; try (now elim (Hs s));
    (eexists; split; [reflexivity|]; repeat split; reflexivity).
Qed.

Lemma non_string_assignment_fails_witness :
  getitem Samples.null_agent_ticket "id" = Ok (VStr "T-5")
  /\ exists log,
       coordinate_ticket_processing
         (mock_coordinator Samples.py Samples.clock) Samples.null_agent_ticket
       = Ok log
       /\ steps log
          = [triage_step [ ("assigned_agent", VNone);
                           ("confidence", VFloat 0.95);
                           ("category", VStr "General");
                           ("priority", VStr "Medium");
                           ("processing_time", VStr "2.3s") ]]
       /\ status log = "failed"
       /\ error log = Some ("'" ++ type_name VNone
                               ++ "' object has no attribute 'lower'")
       /\ total_time log = VInt 0.
Proof.
  split; [reflexivity|].
  refine (non_string_assignment_fails
            (mock_coordinator Samples.py Samples.clock)
            Samples.null_agent_ticket (VStr "T-5") _ VNone
            eq_refl eq_refl eq_refl _).
  intros s. discriminate.
Defined.



(** X17.  The shipped mock agent reads [data['id']] whatever the agent:
    without an id every call raises [KeyError], with one no call raises,
    and a name outside the six it knows is answered with a bare
    one-second processing time. *)
Theorem mock_agent_needs_only_an_id :
  forall py agent_name data,
    (lookup "id" data = None ->
     _process_with_agent py agent_name data = Raise (KeyError "id"))
    /\ (forall ticket_id,
           getitem data "id" = Ok ticket_id ->
           exists r,
             _process_with_agent py agent_name data = Ok r
             /\ (~ In agent_name mock_agents ->
                 r = [("processing_time", VStr "1.0s")])).
Proof.
  intros py agent_name data. split.
  - intros H. unfold _process_with_agent. now rewrite (getitem_missing _ _ H).
  - intros ticket_id Hid. unfold _process_with_agent. rewrite Hid.
    cbn [bind List.find fst]. eexists. split; [reflexivity|].
    intros Hn. unfold mock_agents in Hn. simpl in Hn.
    repeat match goal with
           | |- context [?k =? agent_name] =>
               destruct (String.eqb_spec k agent_name); [subst; tauto|]
           end.
    reflexivity.
Qed.

Lemma mock_agent_needs_only_an_id_witness :
  _process_with_agent Samples.py "knowledge" MoreSamples.no_id
  = Raise (KeyError "id")
  /\ exists r,
       _process_with_agent Samples.py "billing" Samples.deploy_ticket = Ok r
       /\ (~ In "billing" mock_agents -> r = [("processing_time", VStr "1.0s")]).
Proof.
  split.
  - exact (proj1 (mock_agent_needs_only_an_id Samples.py "knowledge"
                    MoreSamples.no_id) eq_refl).
  - exact (proj2 (mock_agent_needs_only_an_id Samples.py "billing"
                    Samples.deploy_ticket) _ eq_refl).
Defined.

End CoordinatorMore.

(* ################################################################# *)
(** * The message queues *)

Module MessagingSpec.
Import Messaging PyFacts.

(** X19.  While the receiver's [complete_message] and [abandon_message]
    do not raise, [receive_messages] settles every message of the queue
    exactly once and in order: it completes the messages that decode and
    that the handler accepts and abandons the others, so one bad message
    does not keep the later ones from being handled. *)
Theorem every_message_is_settled_once :
  forall self bus handler queue_name messages,
    servicebus_client self = Some bus ->
    receive bus queue_name = Ok messages ->
    (forall m, In m messages ->
               complete_message bus m = Ok tt /\ abandon_message bus m = Ok tt) ->
    receive_messages self queue_name handler
    = map (fun m => if accepted self handler m then Complete m else Abandon m)
          messages.
Proof.
  intros self bus handler queue_name messages Hc Hr Hs.
  unfold receive_messages. rewrite Hc, Hr. clear Hc Hr.
  induction messages as [|m rest IH]; [reflexivity|].
  cbn [receive_loop map]. unfold accepted.
  destruct (Hs m (or_introl eq_refl)) as (Hcm & Ham).
  rewrite IH by (intros m' Hm'; apply Hs; now right).
  destruct (bind (loads self m) _) as [u|e].
  - now rewrite Hcm.
  - now rewrite Ham.
Qed.

Lemma every_message_is_settled_once_witness :
  servicebus_client (MoreSamples.coordinator_on MoreSamples.healthy_bus)
  = Some MoreSamples.healthy_bus
  /\ receive MoreSamples.healthy_bus "triage-queue" = Ok MoreSamples.inbox
  /\ receive_messages (MoreSamples.coordinator_on MoreSamples.healthy_bus)
                      "triage-queue" MoreSamples.accept_all
     = map (fun m =>
              if accepted (MoreSamples.coordinator_on MoreSamples.healthy_bus)
                          MoreSamples.accept_all m
              then Complete m else Abandon m)
           MoreSamples.inbox.
Proof.
  split; [reflexivity|]. split; [reflexivity|].
  apply (every_message_is_settled_once
           (MoreSamples.coordinator_on MoreSamples.healthy_bus)
           MoreSamples.healthy_bus MoreSamples.accept_all "triage-queue"
           MoreSamples.inbox eq_refl eq_refl).
  intros m _. split; reflexivity.
Defined.

(** The garbled message is abandoned, its neighbours are completed. *)
Example inbox_settlement :
  receive_messages (MoreSamples.coordinator_on MoreSamples.healthy_bus)
                   "triage-queue" MoreSamples.accept_all
  = [Complete "first"; Abandon "garbled"; Complete "third"].
Proof. reflexivity. Qed.

(** X20.  When [abandon_message] raises, settling stops there: the
    messages before the one that could not be abandoned are settled as
    usual, and none of the messages after it is completed or abandoned. *)
Theorem failed_abandon_stops_receiving :
  forall self bus handler queue_name before m after e,
    servicebus_client self = Some bus ->
    receive bus queue_name = Ok (before ++ m :: after)%list ->
    (forall m', In m' before ->
                if accepted self handler m'
                then complete_message bus m' = Ok tt
                else abandon_message bus m' = Ok tt) ->
    accepted self handler m = false ->
    abandon_message bus m = Raise e ->
    receive_messages self queue_name handler
    = (map (fun m' => if accepted self handler m'
                      then Complete m' else Abandon m')
           before
         ++ [Abandon m])%list.
Proof.
  intros self bus handler queue_name before m after e Hc Hr Hs Ha He.
  unfold receive_messages. rewrite Hc, Hr. clear Hc Hr.
  induction before as [|m' rest IH].
  - cbn [app map receive_loop]. unfold accepted in Ha.
    destruct (bind (loads self m) _); [discriminate|]. now rewrite He.
  - cbn [app map receive_loop].
    pose proof (Hs m' (or_introl eq_refl)) as Hm.
    rewrite IH by (intros m0 Hm0; apply Hs; now right).
    destruct (accepted self handler m') eqn:Hacc; unfold accepted in Hacc;
      destruct (bind (loads self m') _) as [u|e']; try discriminate;
      now rewrite Hm.
Qed.

Lemma failed_abandon_stops_receiving_witness :
  receive MoreSamples.stuck_bus "triage-queue"
  = Ok (["first"] ++ "garbled" :: ["third"])%list
  /\ accepted (MoreSamples.coordinator_on MoreSamples.stuck_bus)
              MoreSamples.accept_all "garbled" = false
  /\ receive_messages (MoreSamples.coordinator_on MoreSamples.stuck_bus)
                      "triage-queue" MoreSamples.accept_all
     = (map (fun m' =>
               if accepted (MoreSamples.coordinator_on MoreSamples.stuck_bus)
                           MoreSamples.accept_all m'
               then Complete m' else Abandon m')
            ["first"]
          ++ [Abandon "garbled"])%list.
Proof.
  split; [reflexivity|]. split; [reflexivity|].
  apply (failed_abandon_stops_receiving
           (MoreSamples.coordinator_on MoreSamples.stuck_bus)
           MoreSamples.stuck_bus MoreSamples.accept_all "triage-queue"
           ["first"] "garbled" ["third"]
           (ExternalError "The lock on the message is lost")
           eq_refl eq_refl).
  - intros m' [<-|[]]. reflexivity.
  - reflexivity.
  - reflexivity.
Defined.

(** On the stuck bus the third message is not settled. *)
Example stuck_inbox_settlement :
  receive_messages (MoreSamples.coordinator_on MoreSamples.stuck_bus)
                   "triage-queue" MoreSamples.accept_all
  = [Complete "first"; Abandon "garbled"].
Proof. reflexivity. Qed.

(** X21.  What [send_message] puts on the queue is the message wrapped in
    an envelope, and [send_message] returns [True] exactly when the
    transport took it.  When the queue then delivers that text and the
    JSON codec reads the envelope back, [receive_messages] hands the
    envelope, not the bare message, to the handler: a handler that unwraps
    [data] works on the original message, which is completed when the
    handler returns and abandoned when it raises. *)
Theorem sent_message_arrives_in_envelope :
  forall self bus queue_name message_data handler,
    let envelope := VDict (message_body self queue_name message_data) in
    let payload := dumps self envelope in
    servicebus_client self = Some bus ->
    loads self payload = Ok envelope ->
    receive bus queue_name = Ok [payload] ->
    complete_message bus payload = Ok tt ->
    abandon_message bus payload = Ok tt ->
    (send_message self queue_name message_data = true
     <-> send_messages bus queue_name payload = Ok tt)
    /\ receive_messages self queue_name handler
       = [ match handler envelope with
           | Ok _ => Complete payload
           | Raise _ => Abandon payload
           end ]
    /\ receive_messages self queue_name
         (fun message => data <- subscript message "data" ;; handler data)
       = [ match handler (VDict message_data) with
           | Ok _ => Complete payload
           | Raise _ => Abandon payload
           end ].
Proof.
  intros self bus queue_name message_data handler envelope payload
         Hc Hl Hr Hcm Ham.
  assert (Hloop : forall h,
             receive_messages self queue_name h
             = [ match h envelope with
                 | Ok _ => Complete payload
                 | Raise _ => Abandon payload
                 end ]).
  { intros h. unfold receive_messages. rewrite Hc, Hr.
    cbn [receive_loop]. rewrite Hl. cbn [bind].
    destruct (h envelope) as [u|e].
    - now rewrite Hcm.
    - now rewrite Ham. }
  split; [|split].
  - unfold send_message. rewrite Hc. cbn [bind]. fold envelope. fold payload.
    destruct (send_messages bus queue_name payload) as [[]|e];
      split; congruence.
  - apply Hloop.
  - rewrite Hloop. reflexivity.
Qed.

Lemma sent_message_arrives_in_envelope_witness :
  message_body LaterSamples.courier "triage-queue" MoreSamples.ping
  = MoreSamples.ping_envelope
  /\ dumps LaterSamples.courier (VDict MoreSamples.ping_envelope)
     = "envelope m-1"
  /\ send_message LaterSamples.courier "triage-queue" MoreSamples.ping = true
  /\ receive_messages LaterSamples.courier "triage-queue"
       (fun message =>
          data <- subscript message "data" ;; LaterSamples.pings_only data)
     = [Complete "envelope m-1"]
  /\ receive_messages LaterSamples.courier "triage-queue"
       LaterSamples.pings_only
     = [Abandon "envelope m-1"].
Proof.
  pose proof (sent_message_arrives_in_envelope
                LaterSamples.courier LaterSamples.ping_bus "triage-queue"
                MoreSamples.ping LaterSamples.pings_only
                eq_refl eq_refl eq_refl eq_refl eq_refl) as (Hs & Hw & Hd).
  split; [reflexivity|]. split; [reflexivity|]. split; [|split].
  - apply Hs. reflexivity.
  - exact Hd.
  - exact Hw.
Defined.

End MessagingSpec.

(* ################################################################# *)
(** * Ticket selection and the mock agents of the demo *)

Module OrchestratorSpec.
Import Orchestrator PyFacts Knowledge KnowledgeSpec KnowledgeMore Views.

Lemma take_subsequence {A : Type} (n : Z) (xs : list A) :
  subsequence (take n xs) xs.
Proof. unfold take. destruct (n <? 0)%Z; apply subsequence_firstn. Qed.

Lemma take_length {A : Type} (n : Z) (xs : list A) :
  (0 <= n)%Z -> (List.length (take n xs) <= Z.to_nat n)%nat.
Proof.
  intros Hn. unfold take.
  replace (n <? 0)%Z with false by (symmetry; apply Z.ltb_ge; lia).
  apply firstn_le_length.
Qed.

Lemma slice_to_subsequence {A : Type} (count : value) (xs ys : list A) :
  slice_to count xs = Ok ys -> subsequence ys xs.
Proof.
  unfold slice_to. destruct count; try discriminate;
    intros H; injection H as <-; apply take_subsequence.
Qed.

Lemma subsequence_length {A : Type} (l1 l2 : list A) :
  subsequence l1 l2 -> (List.length l1 <= List.length l2)%nat.
Proof. induction 1; simpl; lia. Qed.

(** What the list comprehension keeps. *)
Lemma of_types_spec is_in ticket_types all_tickets filtered :
  of_types is_in ticket_types all_tickets = Ok filtered ->
  subsequence filtered all_tickets
  /\ forall t, In t filtered ->
       exists category,
         getitem t "category" = Ok category
         /\ is_in category ticket_types = Ok true.
Proof.
  revert filtered. induction all_tickets as [|t rest IH]; intros filtered H.
  - injection H as <-. split; [constructor | intros t []].
  - cbn [of_types] in H.
    destruct (getitem t "category") as [c|] eqn:Hc; [|discriminate].
    cbn [bind] in H.
    destruct (is_in c ticket_types) as [keep|] eqn:Hk; [|discriminate].
    cbn [bind] in H.
    destruct (of_types is_in ticket_types rest) as [f|]; [|discriminate].
    cbn [bind] in H. injection H as <-.
    destruct (IH f eq_refl) as (Hs & Hin).
    destruct keep.
    + split; [now constructor|].
      intros t' [<-|Ht']; [now exists c | now apply Hin].
    + split; [now constructor | exact Hin].
Qed.

(** X22.  A selection never invents or reorders tickets and never exceeds
    the requested count: the selected tickets are a subsequence of the
    given ones, at most [ticketCount] of them when that is a non-negative
    integer, and when the scenario names ticket types each of them has a
    category that is among those types. *)
Theorem selection_is_bounded :
  forall is_in all_tickets scenario selected,
    _select_tickets_for_scenario is_in all_tickets scenario = Ok selected ->
    subsequence selected all_tickets
    /\ (List.length selected <= List.length all_tickets)%nat
    /\ (forall n, lookup "ticketCount" scenario = Some (VInt n) ->
                  (0 <= n)%Z ->
                  (Z.of_nat (List.length selected) <= n)%Z)
    /\ (truthy (get scenario "ticketTypes" (VList [])) = true ->
        forall t, In t selected ->
          exists category,
            getitem t "category" = Ok category
            /\ is_in category (get scenario "ticketTypes" (VList []))
               = Ok true).
Proof.
  intros is_in all_tickets scenario selected H.
  unfold _select_tickets_for_scenario in H.
  destruct (getitem scenario "ticketCount") as [tc|] eqn:Htc; [|discriminate].
  cbn [bind] in H.
  destruct (min_with_len tc (List.length all_tickets)) as [count|] eqn:Hm;
    [|discriminate].
  cbn [bind] in H.
  assert (Hcount : forall n xs (ys : list dict),
             tc = VInt n -> (0 <= n)%Z ->
             slice_to count xs = Ok ys ->
             (Z.of_nat (List.length ys) <= n)%Z).
  { intros n xs ys -> Hn Hs. cbn [min_with_len] in Hm.
    destruct (Z.of_nat (List.length all_tickets) <? n)%Z eqn:Hlt;
      injection Hm as <-; cbn [slice_to] in Hs; injection Hs as <-.
    - apply Z.ltb_lt in Hlt.
      pose proof (take_length (Z.of_nat (List.length all_tickets)) xs).
      lia.
    - pose proof (take_length n xs Hn). lia. }
  apply getitem_lookup in Htc.
  destruct (truthy (get scenario "ticketTypes" (VList []))) eqn:Htt.
  - destruct (of_types is_in _ all_tickets) as [filtered|] eqn:Hf;
      [|discriminate].
    cbn [bind] in H. destruct (of_types_spec _ _ _ _ Hf) as (Hsub & Hin).
    pose proof (slice_to_subsequence _ _ _ H) as Hs.
    assert (Hall : subsequence selected all_tickets)
      by (eapply subsequence_trans; eassumption).
    split; [exact Hall|]. split; [now apply subsequence_length|].
    split.
    + intros n Hn Hn0. rewrite Htc in Hn. injection Hn as ->.
      eapply Hcount; eauto.
    + intros _ t Ht. apply Hin. eapply subsequence_In; eassumption.
  - pose proof (slice_to_subsequence _ _ _ H) as Hs.
    split; [exact Hs|]. split; [now apply subsequence_length|].
    split; [|discriminate].
    intros n Hn Hn0. rewrite Htc in Hn. injection Hn as ->.
    eapply Hcount; eauto.
Qed.

Lemma selection_is_bounded_witness :
  _select_tickets_for_scenario MoreSamples.in_strings MoreSamples.backlog
                               MoreSamples.info_scenario
  = Ok [MoreSamples.info_ticket "T-20"; MoreSamples.info_ticket "T-22"]
  /\ subsequence [MoreSamples.info_ticket "T-20"; MoreSamples.info_ticket "T-22"]
                 MoreSamples.backlog
  /\ (List.length [MoreSamples.info_ticket "T-20"; MoreSamples.info_ticket "T-22"]
      <= List.length MoreSamples.backlog)%nat
  /\ (Z.of_nat (List.length [MoreSamples.info_ticket "T-20";
                             MoreSamples.info_ticket "T-22"]) <= 2)%Z.
Proof.
  pose proof (selection_is_bounded MoreSamples.in_strings MoreSamples.backlog
                MoreSamples.info_scenario _ eq_refl) as (Hs & Hl & Hn & _).
  split; [reflexivity|]. split; [exact Hs|]. split; [exact Hl|].
  apply Hn; [reflexivity | lia].
Defined.

Lemma of_types_missing_category is_in ticket_types before t after filtered :
  of_types is_in ticket_types before = Ok filtered ->
  lookup "category" t = None ->
  of_types is_in ticket_types (before ++ t :: after)
  = Raise (KeyError "category").
Proof.
  revert filtered. induction before as [|b rest IH]; intros filtered Hb Ht.
  - cbn [app of_types]. now rewrite (getitem_missing _ _ Ht).
  - cbn [app of_types] in Hb |- *.
    destruct (getitem b "category") as [c|]; [|discriminate].
    cbn [bind] in Hb |- *.
    destruct (is_in c ticket_types) as [keep|]; [|discriminate].
    cbn [bind] in Hb |- *.
    destruct (of_types is_in ticket_types rest) as [f|] eqn:Hf; [|discriminate].
    now rewrite (IH f eq_refl Ht).
Qed.

(** X23.  When the scenario names ticket types, one ticket without a
    category makes the whole selection raise [KeyError], even a ticket
    that lies beyond the requested count: the filter runs over all the
    tickets before the count is applied. *)
Theorem uncategorised_ticket_fails_selection :
  forall is_in before t after scenario n filtered,
    lookup "ticketCount" scenario = Some (VInt n) ->
    truthy (get scenario "ticketTypes" (VList [])) = true ->
    of_types is_in (get scenario "ticketTypes" (VList [])) before
      = Ok filtered ->
    lookup "category" t = None ->
    _select_tickets_for_scenario is_in (before ++ t :: after) scenario
    = Raise (KeyError "category").
Proof.
  intros is_in before t after scenario n filtered Hn Htt Hb Ht.
  unfold _select_tickets_for_scenario.
  apply getitem_lookup in Hn. rewrite Hn. cbn [bind min_with_len].
  rewrite Htt. now rewrite (of_types_missing_category _ _ _ _ _ _ Hb Ht).
Qed.

Lemma uncategorised_ticket_fails_selection_witness :
  lookup "ticketCount" MoreSamples.info_scenario = Some (VInt 2)
  /\ lookup "category" [("id", VStr "T-24")] = None
  /\ _select_tickets_for_scenario MoreSamples.in_strings
       ([MoreSamples.info_ticket "T-20"; MoreSamples.tech_ticket "T-21"]
          ++ [("id", VStr "T-24")] :: [])
       MoreSamples.info_scenario
     = Raise (KeyError "category").
Proof.
  split; [reflexivity|]. split; [reflexivity|].
  exact (uncategorised_ticket_fails_selection MoreSamples.in_strings
           [MoreSamples.info_ticket "T-20"; MoreSamples.tech_ticket "T-21"]
           [("id", VStr "T-24")] [] MoreSamples.info_scenario 2 _
           eq_refl eq_refl eq_refl eq_refl).
Defined.

(** X24.  The demo's mock agents and the coordinator's mock agents agree
    on the processing time of Automation, Escalation, Learning and
    Analytics.  The demo's table is keyed by the capitalised names only:
    any other name, a lower-cased one included, is given 2.0 seconds. *)
Theorem mock_agents_agree_on_times :
  forall py name ticket data ticket_id,
    getitem data "id" = Ok ticket_id ->
    exists demo,
      _mock_agent_processing (VStr name) ticket = Ok demo
      /\ lookup "agent" demo = Some (VStr name)
      /\ (In name timed_agents ->
          exists mock,
            Coordinator._process_with_agent py (lower name) data = Ok mock
            /\ lookup "processing_time" demo = lookup "processing_time" mock)
      /\ (~ In name timed_agents ->
          lookup "processing_time" demo = Some (VStr "2.0s")).
Proof.
  intros py name ticket data ticket_id Hid.
  unfold _mock_agent_processing. cbn [bind].
  eexists. split; [reflexivity|]. split; [reflexivity|]. split.
  - unfold timed_agents. simpl.
    intros [<-|[<-|[<-|[<-|[]]]]];
      unfold Coordinator._process_with_agent; rewrite Hid;
      eexists; (split; [reflexivity|]); reflexivity.
  - unfold timed_agents, processing_times, get. cbn [In lookup]. intros Hn.
    repeat match goal with
           | |- context [?k =? name] =>
               destruct (String.eqb_spec k name); [subst; tauto|]
           end.
    reflexivity.
Qed.

Lemma mock_agents_agree_on_times_witness :
  getitem Samples.deploy_ticket "id" = Ok (VStr "T-4")
  /\ exists demo,
       _mock_agent_processing (VStr "Learning") Samples.deploy_ticket = Ok demo
       /\ lookup "agent" demo = Some (VStr "Learning")
       /\ (In "Learning" timed_agents ->
           exists mock,
             Coordinator._process_with_agent Samples.py (lower "Learning")
                                             Samples.deploy_ticket = Ok mock
             /\ lookup "processing_time" demo = lookup "processing_time" mock)
       /\ (~ In "Learning" timed_agents ->
           lookup "processing_time" demo = Some (VStr "2.0s")).
Proof.
  split; [reflexivity|].
  exact (mock_agents_agree_on_times Samples.py "Learning" Samples.deploy_ticket
           Samples.deploy_ticket (VStr "T-4") eq_refl).
Defined.

(** A lower-cased name is not in the demo's table. *)
Example lower_case_agent_time :
  _mock_agent_processing (VStr "automation") Samples.deploy_ticket
  = Ok [ ("agent", VStr "automation"); ("processing_time", VStr "2.0s");
         ("status", VStr "completed"); ("azure_service", VStr "Service Bus") ].
Proof. reflexivity. Qed.

End OrchestratorSpec.

(* ################################################################# *)
(** * The feedback service *)

Module LearningSpec.
Import LearningService PyFacts.

Lemma length_snoc {A : Type} (l : list A) (x : A) :
  List.length (l ++ [x]) = S (List.length l).
Proof. rewrite length_app. simpl. lia. Qed.

Lemma filter_snoc {A : Type} (f : A -> bool) (l : list A) (x : A) :
  filter f (l ++ [x]) = (filter f l ++ if f x then [x] else [])%list.
Proof. rewrite filter_app. reflexivity. Qed.

Lemma filter_length {A : Type} (f : A -> bool) (l : list A) :
  (List.length (filter f l) <= List.length l)%nat.
Proof.
  induction l as [|x l IH]; simpl; [lia|]. destruct (f x); simpl; lia.
Qed.

(** One request keeps the counters in step with the stored feedback. *)
Lemma process_feedback_consistent round2 stamp1 stamp2 st feedback :
  consistent st ->
  consistent (fst (process_feedback round2 stamp1 stamp2 st feedback))
  /\ List.length
       (feedback_data (fst (process_feedback round2 stamp1 stamp2 st feedback)))
     = S (List.length (feedback_data st))
  /\ lookup "feedback_id"
       (snd (process_feedback round2 stamp1 stamp2 st feedback))
     = Some (VStr ("FB-" ++ string_of_Z
                               (Z.of_nat (S (List.length (feedback_data st)))))).
Proof.
  intros (Ht & Hs). unfold process_feedback, consistent.
  cbn [fst snd feedback_data total_tickets successful_resolutions lookup].
  rewrite length_snoc, filter_snoc. cbn [successful].
  split; [split|split; reflexivity].
  - rewrite Ht. lia.
  - destruct (resolution_successful feedback).
    + rewrite length_snoc, Hs. lia.
    + rewrite app_nil_r. exact Hs.
Qed.

Lemma serve_consistent round2 requests :
  forall st,
    consistent st ->
    consistent (fst (serve round2 st requests))
    /\ List.length (feedback_data (fst (serve round2 st requests)))
       = (List.length (feedback_data st) + List.length requests)%nat
    /\ map (lookup "feedback_id") (snd (serve round2 st requests))
       = map (fun k => Some (VStr ("FB-" ++ string_of_Z (Z.of_nat k))))
             (seq (S (List.length (feedback_data st))) (List.length requests)).
Proof.
  induction requests as [|[feedback [stamp1 stamp2]] rest IH]; intros st Hc.
  - cbn. split; [exact Hc|]. split; [lia | reflexivity].
  - cbn [serve].
    destruct (process_feedback_consistent round2 stamp1 stamp2 st feedback Hc)
      as (Hc' & Hl & Hid).
    destruct (process_feedback round2 stamp1 stamp2 st feedback)
      as [st' response] eqn:Hp.
    cbn [fst snd] in Hc', Hl, Hid.
    destruct (IH st' Hc') as (Hf & Hn & Hids).
    destruct (serve round2 st' rest) as [final responses].
    cbn [fst snd] in *. split; [exact Hf|]. split.
    + rewrite Hn, Hl. cbn [List.length]. lia.
    + cbn [map List.length seq]. rewrite Hid, Hids, Hl. reflexivity.
Qed.

(** X25.  Whatever sequence of feedback requests the service handles
    from its initial state, its counters stay in step with the stored
    feedback: [total_tickets] is the number of entries,
    [successful_resolutions] the number of successful ones and never more
    than the total, and the responses carry the ids FB-1, FB-2, ... in
    order. *)
Theorem feedback_counters_stay_consistent :
  forall round2 requests,
    consistent (fst (serve round2 initial requests))
    /\ total_tickets (fst (serve round2 initial requests))
       = Z.of_nat (List.length requests)
    /\ (0 <= successful_resolutions (fst (serve round2 initial requests))
        <= total_tickets (fst (serve round2 initial requests)))%Z
    /\ map (lookup "feedback_id") (snd (serve round2 initial requests))
       = map (fun k => Some (VStr ("FB-" ++ string_of_Z (Z.of_nat k))))
             (seq 1 (List.length requests)).
Proof.
  intros round2 requests.
  assert (Hi : consistent initial) by (split; reflexivity).
  destruct (serve_consistent round2 requests initial Hi) as (Hc & Hn & Hids).
  cbn [initial feedback_data List.length Nat.add] in Hn, Hids.
  split; [exact Hc|]. destruct Hc as (Ht & Hs).
  split; [now rewrite Ht, Hn|]. split; [|exact Hids].
  rewrite Ht, Hs.
  pose proof (filter_length successful
                (feedback_data (fst (serve round2 initial requests)))).
  lia.
Qed.

Lemma success_rate_below (succeeded total : Z) :
  (0 < total)%Z ->
  negb (Qle_bool 0.8 (inject_Z succeeded / inject_Z total)) = true
  <-> (5 * succeeded < 4 * total)%Z.
Proof.
  intros Ht. destruct total as [|p|p]; try lia.
  rewrite negb_true_iff, <- not_true_iff_false, Qle_bool_iff.
  unfold Qle, Qdiv, Qmult, Qinv, inject_Z. cbn [Qnum Qden].
  rewrite Pos.mul_1_l. lia.
Qed.

Lemma satisfaction_below (average : Q) :
  negb (Qle_bool 3.0 average) = true <-> (average < 3)%Q.
Proof.
  rewrite negb_true_iff, <- not_true_iff_false, Qle_bool_iff.
  split; intros H.
  - apply Qnot_le_lt in H. unfold Qlt in *. cbn [Qnum Qden] in *. lia.
  - apply Qlt_not_le. unfold Qlt in *. cbn [Qnum Qden] in *. lia.
Qed.

Lemma generate_cases st :
  generate_recommendations st
  = match negb (Qle_bool 3.0 (average_satisfaction st)),
          (0 <? total_tickets st)%Z
          && negb (Qle_bool 0.8 (inject_Z (successful_resolutions st)
                                   / inject_Z (total_tickets st)))
    with
    | true, true => [ "Improve response quality and accuracy";
                      "Enhance knowledge base with more solutions" ]
    | true, false => ["Improve response quality and accuracy"]
    | false, true => ["Enhance knowledge base with more solutions"]
    | false, false => ["System performing well, continue monitoring"]
    end.
Proof.
  unfold generate_recommendations.
  destruct (negb (Qle_bool 3.0 _)); destruct (0 <? total_tickets st)%Z;
    cbn [andb]; try destruct (negb (Qle_bool 0.8 _)); reflexivity.
Qed.

Lemma enhance_iff st :
  (0 <? total_tickets st)%Z
  && negb (Qle_bool 0.8 (inject_Z (successful_resolutions st)
                           / inject_Z (total_tickets st))) = true
  <-> (0 < total_tickets st
       /\ 5 * successful_resolutions st < 4 * total_tickets st)%Z.
Proof.
  rewrite andb_true_iff, Z.ltb_lt. split; intros (Ht & H); split; trivial;
    now apply (success_rate_below _ _ Ht).
Qed.

(** X26.  The recommendations are determined by two tests: whether the
    average satisfaction is below 3, and whether there is feedback of
    which fewer than four resolutions in five were successful.  The
    service recommends improving response quality exactly when the first
    holds and enhancing the knowledge base exactly when the second holds,
    in that order when both do; when neither holds, and only then, it
    reports the system as performing well, and that is then the only
    recommendation. *)
Theorem recommendations_follow_the_metrics :
  forall st,
    let low_satisfaction := (average_satisfaction st < 3)%Q in
    let low_success :=
      (0 < total_tickets st
       /\ 5 * successful_resolutions st < 4 * total_tickets st)%Z in
    (exists first rest, generate_recommendations st = first :: rest)
    /\ (In "Improve response quality and accuracy"
           (generate_recommendations st)
        <-> low_satisfaction)
    /\ (In "Enhance knowledge base with more solutions"
           (generate_recommendations st)
        <-> low_success)
    /\ (In "System performing well, continue monitoring"
           (generate_recommendations st)
        <-> generate_recommendations st
            = ["System performing well, continue monitoring"])
    /\ (generate_recommendations st
        = ["System performing well, continue monitoring"]
        <-> ~ low_satisfaction /\ ~ low_success)
    /\ (low_satisfaction -> low_success ->
        generate_recommendations st
        = [ "Improve response quality and accuracy";
            "Enhance knowledge base with more solutions" ])
    /\ (low_satisfaction -> ~ low_success ->
        generate_recommendations st
        = ["Improve response quality and accuracy"])
    /\ (~ low_satisfaction -> low_success ->
        generate_recommendations st
        = ["Enhance knowledge base with more solutions"]).
Proof.
  intros st low_satisfaction low_success. rewrite generate_cases.
  unfold low_satisfaction, low_success.
  rewrite <- satisfaction_below, <- enhance_iff.
  destruct (negb (Qle_bool 3.0 _)); destruct (_ && _);
    (split; [eexists; eexists; reflexivity|]);
    cbn [In];
    repeat split; intros;
    repeat match goal with
           | H : _ \/ _ |- _ => destruct H as [H|H]
           | H : _ /\ _ |- _ => destruct H
           end;
    try discriminate; try contradiction; try reflexivity;
    try congruence; auto.
Qed.

(** Four stores, one for each outcome of the two tests. *)
Example recommendations_by_case :
  generate_recommendations
    {| feedback_data := []; total_tickets := 10;
       successful_resolutions := 7; average_satisfaction := 2.5 |}
  = [ "Improve response quality and accuracy";
      "Enhance knowledge base with more solutions" ]
  /\ generate_recommendations
       {| feedback_data := []; total_tickets := 10;
          successful_resolutions := 8; average_satisfaction := 2.5 |}
     = ["Improve response quality and accuracy"]
  /\ generate_recommendations
       {| feedback_data := []; total_tickets := 10;
          successful_resolutions := 7; average_satisfaction := 3 |}
     = ["Enhance knowledge base with more solutions"]
  /\ generate_recommendations
       {| feedback_data := []; total_tickets := 10;
          successful_resolutions := 8; average_satisfaction := 3 |}
     = ["System performing well, continue monitoring"]
  /\ generate_recommendations initial
     = ["Improve response quality and accuracy"].
Proof. repeat split; reflexivity. Qed.

End LearningSpec.

(* ################################################################# *)
(** * The rule-based classification service *)

Module TriageServiceSpec.
Import TriageService PyFacts.

Lemma category_range text :
  In (category_of text) ["technical"; "security"; "performance"; "general"].
Proof.
  unfold category_of.
  repeat match goal with
         | |- context [if ?b then _ else _] => destruct b
         end; simpl; tauto.
Qed.

Lemma priority_range text :
  In (priority_of text) ["high"; "medium"; "low"].
Proof.
  unfold priority_of.
  repeat match goal with
         | |- context [if ?b then _ else _] => destruct b
         end; simpl; tauto.
Qed.

(** X27.  The service classifies by the description alone: category and
    priority are each one of their fixed names and are the same for any
    two requests with the same description, whatever their titles, users
    and environments; the ticket id is TKT- followed by a number from 0
    to 9999. *)
Theorem service_reads_the_description_only :
  forall env ticket,
    exists category priority n,
      lookup "category" (classify_ticket env ticket) = Some (VStr category)
      /\ In category ["technical"; "security"; "performance"; "general"]
      /\ lookup "priority" (classify_ticket env ticket) = Some (VStr priority)
      /\ In priority ["high"; "medium"; "low"]
      /\ lookup "ticket_id" (classify_ticket env ticket)
         = Some (VStr ("TKT-" ++ string_of_Z n))
      /\ (0 <= n < 10000)%Z
      /\ forall env' other,
          description other = description ticket ->
          lookup "category" (classify_ticket env' other) = Some (VStr category)
          /\ lookup "priority" (classify_ticket env' other)
             = Some (VStr priority).
Proof.
  intros env ticket.
  exists (category_of (lower (description ticket))),
         (priority_of (lower (description ticket))),
         (hash env (title ticket) mod 10000)%Z.
  split; [reflexivity|]. split; [apply category_range|].
  split; [reflexivity|]. split; [apply priority_range|].
  split; [reflexivity|]. split; [apply Z.mod_pos_bound; lia|].
  intros env' other Hd. unfold classify_ticket. rewrite Hd.
  split; reflexivity.
Qed.

(** A keyword in the title does not raise the priority. *)
Example urgent_title_is_low_priority :
  forall env,
    lookup "priority"
      (classify_ticket env {| title := "URGENT: production outage";
                              description := "see the title";
                              user_id := "u-1" |})
    = Some (VStr "low").
Proof. reflexivity. Qed.

Lemma any_in_iff words text :
  Triage.any_in words text = true
  <-> exists word pre post, In word words /\ text = pre ++ word ++ post.
Proof.
  unfold Triage.any_in. rewrite existsb_exists. split.
  - intros (w & Hw & Hc). apply contains_iff in Hc as (pre & post & ->).
    now exists w, pre, post.
  - intros (w & pre & post & Hw & ->). exists w. split; [exact Hw|].
    apply contains_iff. now exists pre, post.
Qed.

(** X28.  Keywords are matched as substrings, not as words: the priority
    is high exactly when urgent, critical, down or outage occurs somewhere
    in the lower-cased description, so that a description that mentions a
    download is high priority. *)
Theorem high_priority_is_a_substring_match :
  forall env ticket,
    lookup "priority" (classify_ticket env ticket) = Some (VStr "high")
    <-> exists word pre post,
          In word ["urgent"; "critical"; "down"; "outage"]
          /\ lower (description ticket) = pre ++ word ++ post.
Proof.
  intros env ticket. rewrite <- any_in_iff.
  unfold classify_ticket. cbn [lookup String.eqb Ascii.eqb Bool.eqb].
  unfold priority_of.
  destruct (Triage.any_in ["urgent"; "critical"; "down"; "outage"] _).
  - split; reflexivity.
  - destruct (Triage.any_in _ _); split; discriminate.
Qed.

Example download_is_high_priority :
  forall env user,
    lookup "priority"
      (classify_ticket env {| title := "Installer";
                              description := "Where can I download the installer?";
                              user_id := user |})
    = Some (VStr "high").
Proof. reflexivity. Qed.

End TriageServiceSpec.

(* ################################################################# *)
(** * The keyword search service *)

Module KnowledgeServiceSpec.
Import KnowledgeService PyFacts.





(** The word [error] matches two keys; a word found only in a solution
    gives the lower confidence. *)
Example error_query :
  map (lookup "title") (matches {| query := "Error"; category := "Technical" |})
  = [Some (VStr "Login Error"); Some (VStr "Database Error")].
Proof. reflexivity. Qed.

Example firewall_query :
  map (lookup "confidence")
      (matches {| query := "firewall"; category := "Network" |})
  = [Some (VFloat 0.7)].
Proof. reflexivity. Qed.

Lemma is_space_lower (c : ascii) :
  is_space c = true -> lower_ascii c = c.
Proof.
  destruct c as [[] [] [] [] [] [] [] []]; try discriminate; reflexivity.
Qed.

Lemma split_blank (s : string) :
  (forall c, In c (list_ascii_of_string s) -> is_space c = true) ->
  split (lower s) = [].
Proof.
  unfold split. induction s as [|c s IH]; intros H; [reflexivity|].
  cbn [lower split_from].
  assert (Hc : is_space c = true) by (apply H; now left).
  rewrite (is_space_lower _ Hc), Hc. cbn. apply IH.
  intros c' Hc'. apply H. now right.
Qed.

Lemma direct_matches_no_words request kb :
  direct_matches request [] kb = [].
Proof. induction kb as [|[key solution] kb IH]; [reflexivity | exact IH]. Qed.

Lemma partial_matches_no_words request kb :
  partial_matches request [] kb = [].
Proof. induction kb as [|[key solution] kb IH]; [reflexivity | exact IH]. Qed.

(** X30.  A query without any word, empty or made of white space only,
    finds nothing: no results and a total of zero. *)
Theorem blank_query_finds_nothing :
  forall search_time_text timestamp request,
    (forall c, In c (list_ascii_of_string (query request)) ->
               is_space c = true) ->
    lookup "results" (search_knowledge search_time_text timestamp request)
    = Some (VList [])
    /\ lookup "total_found" (search_knowledge search_time_text timestamp request)
       = Some (VInt 0).
Proof.
  intros search_time_text timestamp request H.
  assert (Hm : matches request = []).
  { unfold matches. rewrite (split_blank _ H), direct_matches_no_words.
    apply partial_matches_no_words. }
  unfold search_knowledge. rewrite Hm. split; reflexivity.
Qed.

Lemma blank_query_finds_nothing_witness :
  (forall c, In c (list_ascii_of_string "   ") -> is_space c = true)
  /\ lookup "results"
       (search_knowledge "0.0" "2025-01-01T10:00:00"
          {| query := "   "; category := "General" |})
     = Some (VList [])
  /\ lookup "total_found"
       (search_knowledge "0.0" "2025-01-01T10:00:00"
          {| query := "   "; category := "General" |})
     = Some (VInt 0).
Proof.
  assert (H : forall c, In c (list_ascii_of_string "   ") -> is_space c = true).
  { intros c Hc. simpl in Hc.
    repeat (destruct Hc as [<-|Hc]; [reflexivity|]). contradiction. }
  split; [exact H|].
  exact (blank_query_finds_nothing "0.0" "2025-01-01T10:00:00"
           {| query := "   "; category := "General" |} H).
Defined.

End KnowledgeServiceSpec.

(* ################################################################# *)
(** * The rule-based classifier on arbitrary text *)

Module TriageRulesSpec.
Import Runtime TriageRules PyFacts.

(** The scan [any(word in text for word in words)] finds a word exactly
    when one of the words occurs in the text. *)
Lemma any_in_mentions (words : list string) (text : string) :
  Triage.any_in words text = true <-> mentions words text.
Proof.
  unfold mentions, occurs_in, Triage.any_in. rewrite existsb_exists.
  split; intros (word & Hin & H); exists word; (split; [exact Hin|]);
    now apply contains_iff.
Qed.

Lemma any_in_silent (words : list string) (text : string) :
  Triage.any_in words text = false <-> ~ mentions words text.
Proof.
  rewrite <- any_in_mentions. destruct (Triage.any_in words text);
    split; congruence.
Qed.

(** The plain interpreter folds ASCII text as [str.lower] does. *)
Lemma plain_folds_ascii : folds_ascii plain.
Proof. intros s _. reflexivity. Qed.

(** The text scanned for a ticket of the data model, and the record built
    for each outcome of the four scans. *)
Lemma fallback_classification_scans rt ticket ticket_id title description :
  is_ticket ticket ticket_id title description ->
  let text := str_lower rt title ++ str_lower rt description in
  _fallback_classification rt ticket =
    Ok (if Triage.any_in ["how"; "guide"; "documentation"; "configure"] text
        then Triage.fallback_record ticket ticket_id "Knowledge" "30s"
        else if Triage.any_in ["deploy"; "automation"; "workflow"; "pipeline"] text
        then Triage.fallback_record ticket ticket_id "Automation" "60s"
        else if Triage.any_in ["security"; "vulnerability"; "critical"; "urgent"] text
        then Triage.fallback_record ticket ticket_id "Escalation" "90s"
        else if Triage.any_in ["report"; "analytics"; "dashboard"; "metrics"] text
        then Triage.fallback_record ticket ticket_id "Analytics" "45s"
        else Triage.fallback_record ticket ticket_id "Escalation" "120s").
Proof.
  intros (Hid & Ht & Hd) text. unfold _fallback_classification.
  rewrite Ht, Hd. cbn [bind lower_of]. fold text.
  repeat match goal with
         | |- context [if Triage.any_in ?w text then _ else _] =>
             destruct (Triage.any_in w text)
         end;
    rewrite Hid; reflexivity.
Qed.

(** C7.  On every ticket the rule-based fallback looks for keywords in the
    lower-cased title followed by the lower-cased description.  A keyword
    of [how, guide, documentation, configure] occurring in that text
    selects Knowledge; failing that, one of [deploy, automation, workflow,
    pipeline] selects Automation; failing that, one of [security,
    vulnerability, critical, urgent] selects Escalation; failing that, one
    of [report, analytics, dashboard, metrics] selects Analytics; with no
    keyword at all the agent is Escalation.  The confidence is 0.85 in
    every case.  On the SSL ticket of scenario A the agent is Knowledge
    with confidence 0.85. *)
Theorem fallback_keyword_policy :
  (forall rt ticket ticket_id title description,
      is_ticket ticket ticket_id title description ->
      let text := str_lower rt title ++ str_lower rt description in
      let knowledge :=
        mentions ["how"; "guide"; "documentation"; "configure"] text in
      let automation :=
        mentions ["deploy"; "automation"; "workflow"; "pipeline"] text in
      let escalation :=
        mentions ["security"; "vulnerability"; "critical"; "urgent"] text in
      let analytics :=
        mentions ["report"; "analytics"; "dashboard"; "metrics"] text in
      exists record classification agent,
        _fallback_classification rt ticket = Ok record
        /\ lookup "assigned_agent" record = Some (VStr agent)
        /\ lookup "classification" record = Some (VDict classification)
        /\ lookup "agent" classification = Some (VStr agent)
        /\ lookup "confidence" classification = Some (VFloat 0.85)
        /\ (knowledge -> agent = "Knowledge")
        /\ (~ knowledge -> automation -> agent = "Automation")
        /\ (~ knowledge -> ~ automation -> escalation -> agent = "Escalation")
        /\ (~ knowledge -> ~ automation -> ~ escalation -> analytics ->
            agent = "Analytics")
        /\ (~ knowledge -> ~ automation -> ~ escalation -> ~ analytics ->
            agent = "Escalation"))
  /\ (forall rt,
         folds_ascii rt ->
         exists record classification,
           _fallback_classification rt Samples.ssl_ticket = Ok record
           /\ lookup "assigned_agent" record = Some (VStr "Knowledge")
           /\ lookup "classification" record = Some (VDict classification)
           /\ lookup "agent" classification = Some (VStr "Knowledge")
           /\ lookup "confidence" classification = Some (VFloat 0.85)).
Proof.
  split.
  - intros rt ticket ticket_id title description Ht text
           knowledge automation escalation analytics.
    rewrite (fallback_classification_scans rt _ _ _ _ Ht). fold text.
    assert (Hyes : forall words, Triage.any_in words text = true ->
                                 mentions words text)
      by (intros words; apply any_in_mentions).
    assert (Hno : forall words, Triage.any_in words text = false ->
                                ~ mentions words text)
      by (intros words; apply any_in_silent).
    destruct (Triage.any_in ["how"; "guide"; "documentation"; "configure"] text)
      eqn:Hk.
    { apply Hyes in Hk. eexists. eexists. eexists.
      do 5 (split; [reflexivity|]). repeat split; intros; tauto. }
    apply Hno in Hk.
    destruct (Triage.any_in ["deploy"; "automation"; "workflow"; "pipeline"] text)
      eqn:Ha.
    { apply Hyes in Ha. eexists. eexists. eexists.
      do 5 (split; [reflexivity|]). repeat split; intros; tauto. }
    apply Hno in Ha.
    destruct (Triage.any_in ["security"; "vulnerability"; "critical"; "urgent"]
                            text) eqn:He.
    { apply Hyes in He. eexists. eexists. eexists.
      do 5 (split; [reflexivity|]). repeat split; intros; tauto. }
    apply Hno in He.
    destruct (Triage.any_in ["report"; "analytics"; "dashboard"; "metrics"] text)
      eqn:Hn.
    { apply Hyes in Hn. eexists. eexists. eexists.
      do 5 (split; [reflexivity|]). repeat split; intros; tauto. }
    apply Hno in Hn. eexists. eexists. eexists.
    do 5 (split; [reflexivity|]). repeat split; intros; tauto.
  - intros rt Hrt.
    assert (Ht : is_ticket Samples.ssl_ticket (VStr "T-1")
                   "How do I configure SSL?"
                   "need documentation for certificate setup")
      by (repeat split; reflexivity).
    rewrite (fallback_classification_scans rt _ _ _ _ Ht).
    rewrite !Hrt by reflexivity.
    eexists. eexists. split; [vm_compute; reflexivity|].
    repeat split; reflexivity.
Qed.

Lemma fallback_keyword_policy_witness :
  (exists record,
      _fallback_classification plain Samples.ssl_ticket = Ok record
      /\ lookup "assigned_agent" record = Some (VStr "Knowledge"))
  /\ (exists record,
         _fallback_classification plain LaterSamples.workflow_ticket = Ok record
         /\ lookup "assigned_agent" record = Some (VStr "Automation"))
  /\ (exists record,
         _fallback_classification plain Samples.outage_ticket = Ok record
         /\ lookup "assigned_agent" record = Some (VStr "Escalation"))
  /\ (exists record,
         _fallback_classification plain LaterSamples.report_ticket = Ok record
         /\ lookup "assigned_agent" record = Some (VStr "Analytics"))
  /\ (exists record,
         _fallback_classification plain Samples.printer_ticket = Ok record
         /\ lookup "assigned_agent" record = Some (VStr "Escalation")).
Proof.
  assert (Hyes : forall words text,
             Triage.any_in words text = true -> mentions words text)
    by (intros words text; apply any_in_mentions).
  assert (Hno : forall words text,
             Triage.any_in words text = false -> ~ mentions words text)
    by (intros words text; apply any_in_silent).
  split; [|split; [|split; [|split]]].
  - destruct (proj2 fallback_keyword_policy plain plain_folds_ascii)
      as (record & classification & Hr & Ha & _).
    exists record. split; [exact Hr | exact Ha].
  - destruct (proj1 fallback_keyword_policy plain LaterSamples.workflow_ticket
                (VStr "T-30") "Nightly WORKFLOW stuck" "the job never ends")
      as (record & classification & agent & Hr & Ha & _ & _ & _ & _ & H2 & _);
      [repeat split; reflexivity|].
    exists record. split; [exact Hr|]. rewrite Ha.
    rewrite H2; [reflexivity | apply Hno | apply Hyes]; vm_compute; reflexivity.
  - destruct (proj1 fallback_keyword_policy plain Samples.outage_ticket
                (VStr "T-2") "Production outage"
                "critical security vulnerability, urgent")
      as (record & classification & agent & Hr & Ha & _ & _ & _ & _ & _ & H3 & _);
      [repeat split; reflexivity|].
    exists record. split; [exact Hr|]. rewrite Ha.
    rewrite H3; [reflexivity | apply Hno | apply Hno | apply Hyes];
      vm_compute; reflexivity.
  - destruct (proj1 fallback_keyword_policy plain LaterSamples.report_ticket
                (VStr "T-31") "Monthly report" "numbers missing on the dashboard")
      as (record & classification & agent & Hr & Ha & _ & _ & _ & _ & _ & _
          & H4 & _);
      [repeat split; reflexivity|].
    exists record. split; [exact Hr|]. rewrite Ha.
    rewrite H4; [reflexivity | apply Hno | apply Hno | apply Hno | apply Hyes];
      vm_compute; reflexivity.
  - destruct (proj1 fallback_keyword_policy plain Samples.printer_ticket
                (VStr "T-3") "Printer jam" "paper stuck in tray two")
      as (record & classification & agent & Hr & Ha & _ & _ & _ & _ & _ & _
          & _ & H5);
      [repeat split; reflexivity|].
    exists record. split; [exact Hr|]. rewrite Ha.
    rewrite H5; [reflexivity | apply Hno | apply Hno | apply Hno | apply Hno];
      vm_compute; reflexivity.
Defined.

(** On ASCII text the classifier of module [Triage] is this one. *)
Lemma fallback_classification_plain ticket :
  Triage._fallback_classification ticket = _fallback_classification plain ticket.
Proof. reflexivity. Qed.

End TriageRulesSpec.

(* ################################################################# *)
(** * The search query on arbitrary text *)

Module KnowledgeQuerySpec.
Import Runtime KnowledgeQuery PyFacts KnowledgeSpec.






(** On ASCII text the query of module [Knowledge] is this one. *)
Lemma build_search_query_plain ticket :
  Knowledge._build_search_query ticket = _build_search_query plain ticket.
Proof. reflexivity. Qed.

End KnowledgeQuerySpec.

(* ################################################################# *)
(** * The coordinator and the agents it calls *)

Module PipelineSpec.
Import Coordinator Runtime Pipeline PyFacts Views.

(** The [if]/[elif] chain calls the agent [route] names. *)
Lemma routed_call self assigned_agent ticket :
  (if assigned_agent =? "knowledge" then await_agent self "knowledge" ticket
   else if assigned_agent =? "automation" then await_agent self "automation" ticket
   else if assigned_agent =? "escalation" then await_agent self "escalation" ticket
   else if assigned_agent =? "learning" then await_agent self "learning" ticket
   else if assigned_agent =? "analytics" then await_agent self "analytics" ticket
   else await_agent self "escalation" ticket)
  = await_agent self (route assigned_agent) ticket.
Proof.
  unfold route.
  repeat match goal with
         | |- context [if ?b then _ else _] => destruct b
         end; reflexivity.
Qed.

(** The run of a ticket that has an id, stage by stage: the calls made
    and the log returned. *)
Lemma run_with_id rt self ticket ticket_id :
  getitem ticket "id" = Ok ticket_id ->
  run rt self ticket =
    match process_with_agent self "triage" ticket with
    | Raise e =>
        ([("triage", ticket)], Ok (fail e (initial_log self ticket_id)))
    | Ok triage_result =>
        let log1 :=
          with_step (initial_log self ticket_id) (triage_step triage_result) in
        match lower_of rt (get triage_result "assigned_agent" (VStr "escalation"))
        with
        | Raise e => ([("triage", ticket)], Ok (fail e log1))
        | Ok assigned_agent =>
            match process_with_agent self (route assigned_agent) ticket with
            | Raise e =>
                ([("triage", ticket); (route assigned_agent, ticket)],
                 Ok (fail e log1))
            | Ok agent_result =>
                let log2 :=
                  with_step log1 (routed_step assigned_agent agent_result) in
                let data :=
                  analytics_data self ticket ticket_id triage_result
                                 assigned_agent agent_result in
                let called :=
                  [ ("triage", ticket); (route assigned_agent, ticket);
                    ("analytics", data) ] in
                match process_with_agent self "analytics" data with
                | Raise e => (called, Ok (fail e log2))
                | Ok analytics_result =>
                    let log3 :=
                      with_step log2 (analytics_step analytics_result) in
                    match durations rt (steps log3) with
                    | Raise e => (called, Ok (fail e log3))
                    | Ok seconds =>
                        (called,
                         Ok (completed
                               (float_1f rt (float_sum rt seconds) ++ "s")
                               (now self 1) log3))
                    end
                end
            end
        end
    end.
Proof.
  intros Hid. unfold run. rewrite Hid.
  unfold process_steps.
  unfold and_then at 1. unfold await_agent at 1. cbn [log calls app].
  destruct (process_with_agent self "triage" ticket) as [tr|e]; [|reflexivity].
  unfold and_then at 1. unfold append_step at 1, update at 1. cbn [log calls].
  unfold and_then at 1. unfold lift at 1.
  destruct (lower_of rt _) as [a|e]; [|reflexivity].
  rewrite routed_call.
  unfold and_then at 1. unfold await_agent at 1. cbn [log calls app].
  destruct (process_with_agent self (route a) ticket) as [ar|e]; [|reflexivity].
  unfold and_then at 1. unfold append_step at 1, update at 1. cbn [log calls].
  unfold and_then at 1. unfold read at 1. cbn [log calls].
  unfold and_then at 1. unfold await_agent at 1. cbn [log calls app].
  change (setitem ticket "processing_log" _)
    with (analytics_data self ticket ticket_id tr a ar).
  destruct (process_with_agent self "analytics" _) as [an|e]; [|reflexivity].
  unfold and_then at 1. unfold append_step at 1, update at 1. cbn [log calls].
  unfold and_then at 1. unfold read at 1. cbn [log calls].
  unfold and_then at 1. unfold lift at 1.
  cbv zeta.
  change {| agent := "analytics"; duration := VStr "0.5s"; step_result := an |}
    with (analytics_step an).
  change {| agent := "triage"; duration := VStr "2.3s"; step_result := tr |}
    with (triage_step tr).
  change {| agent := a;
            duration := get ar "processing_time" (VStr "60s");
            step_result := ar |}
    with (routed_step a ar).
  destruct (durations rt _) as [seconds|e]; reflexivity.
Qed.

(** Each duration read by the list comprehension is a string, handed to
    [float] without its [s]. *)
Lemma durations_read rt sts seconds :
  durations rt sts = Ok seconds ->
  Forall2 (fun st x =>
             exists text,
               duration st = VStr text
               /\ float_of_str rt (remove_char text "s") = Ok x)
          sts seconds.
Proof.
  revert seconds; induction sts as [|st sts IH]; intros seconds H.
  - injection H as <-. constructor.
  - cbn [durations] in H.
    destruct (seconds_of rt (duration st)) as [x|] eqn:Hx; [|discriminate].
    cbn [bind] in H.
    destruct (durations rt sts) as [xs|]; [|discriminate].
    cbn [bind] in H. injection H as <-.
    constructor; [|now apply IH].
    unfold seconds_of in Hx. destruct (duration st); try discriminate.
    eexists. split; [reflexivity | exact Hx].
Qed.

(** The shipped mock agent, on data that has an id. *)
Lemma mock_answer py agent_name data ticket_id :
  getitem data "id" = Ok ticket_id ->
  _process_with_agent py agent_name data
  = Ok (if "triage" =? agent_name then
          [ ("assigned_agent", get data "expectedAgent" (VStr "Escalation"));
            ("confidence", VFloat 0.95);
            ("category", get data "category" (VStr "General"));
            ("priority", get data "priority" (VStr "Medium"));
            ("processing_time", VStr "2.3s") ]
        else if "knowledge" =? agent_name then
          [ ("solution_found", VBool true);
            ("relevance_score", VFloat 0.92);
            ("knowledge_base_hits", VInt 3);
            ("processing_time", VStr "1.8s") ]
        else if "automation" =? agent_name then
          [ ("automation_triggered", VBool true);
            ("workflow_id", VStr ("wf-" ++ str_of py ticket_id));
            ("estimated_completion", VStr "45s");
            ("processing_time", VStr "3.2s") ]
        else if "escalation" =? agent_name then
          [ ("escalated", VBool true);
            ("notification_sent", VBool true);
            ("assigned_human", VStr "support-team");
            ("processing_time", VStr "1.5s") ]
        else if "learning" =? agent_name then
          [ ("feedback_processed", VBool true);
            ("model_updated", VBool false);
            ("confidence_improvement", VFloat 0.02);
            ("processing_time", VStr "4.1s") ]
        else if "analytics" =? agent_name then
          [ ("metrics_updated", VBool true);
            ("kpi_impact", VStr "positive");
            ("trend_analysis", VStr "normal");
            ("processing_time", VStr "0.8s") ]
        else [("processing_time", VStr "1.0s")]).
Proof.
  intros Hid. unfold _process_with_agent. rewrite Hid. cbn [bind List.find fst].
  repeat match goal with
         | |- context [if ?k =? agent_name then _ else _] =>
             destruct (k =? agent_name)
         end; reflexivity.
Qed.

Lemma analytics_data_id self ticket ticket_id triage_result assigned_agent
      agent_result :
  getitem ticket "id" = Ok ticket_id ->
  getitem (analytics_data self ticket ticket_id triage_result assigned_agent
                          agent_result) "id" = Ok ticket_id.
Proof.
  intros Hid. unfold analytics_data. apply getitem_lookup.
  rewrite lookup_setitem_other by discriminate. now apply getitem_lookup.
Qed.

(** C1, as the code has it.  Once the triage step has returned and named
    an agent: if the routed step raises, the log comes back with status
    failed and the exception's text as error, holding the triage record
    alone, and no agent is called after the one that raised, so the
    analytics step is not run; if the routed step and then the analytics
    step return, the agents called are triage, the routed agent and
    analytics, and the records are triage, the assigned agent, analytics,
    in that order. *)
Theorem routed_step_outcomes :
  forall rt self ticket ticket_id triage_result assigned_agent,
    getitem ticket "id" = Ok ticket_id ->
    process_with_agent self "triage" ticket = Ok triage_result ->
    lower_of rt (get triage_result "assigned_agent" (VStr "escalation"))
      = Ok assigned_agent ->
    (forall e,
        process_with_agent self (route assigned_agent) ticket = Raise e ->
        exists log,
          coordinate_ticket_processing rt self ticket = Ok log
          /\ steps log = [triage_step triage_result]
          /\ agents_of log = ["triage"]
          /\ status log = "failed"
          /\ error log = Some (str_exn e)
          /\ agents_called rt self ticket = ["triage"; route assigned_agent])
    /\ (forall agent_result analytics_result,
           process_with_agent self (route assigned_agent) ticket
             = Ok agent_result ->
           process_with_agent self "analytics"
             (analytics_data self ticket ticket_id triage_result
                             assigned_agent agent_result)
             = Ok analytics_result ->
           exists log,
             coordinate_ticket_processing rt self ticket = Ok log
             /\ agents_of log = ["triage"; assigned_agent; "analytics"]
             /\ agents_called rt self ticket
                = ["triage"; route assigned_agent; "analytics"]
             /\ (status log = "completed" \/ status log = "failed")).
Proof.
  intros rt self ticket ticket_id triage_result assigned_agent Hid Ht Ha.
  unfold coordinate_ticket_processing, agents_called.
  rewrite (run_with_id rt _ _ _ Hid), Ht. cbv zeta. rewrite Ha.
  split.
  - intros e He. rewrite He.
    eexists. split; [reflexivity|]. repeat split; reflexivity.
  - intros agent_result analytics_result Hr Han. rewrite Hr, Han.
    destruct (durations rt _) as [seconds|e].
    + eexists. split; [reflexivity|]. split; [reflexivity|].
      split; [reflexivity | now left].
    + eexists. split; [reflexivity|]. split; [reflexivity|].
      split; [reflexivity | now right].
Qed.

Lemma routed_step_outcomes_witness :
  (exists log,
      coordinate_ticket_processing plain Samples.failing_automation
                                   Samples.deploy_ticket = Ok log
      /\ steps log
         = [triage_step [ ("assigned_agent", VStr "Automation");
                          ("confidence", VFloat 0.95);
                          ("category", VStr "General");
                          ("priority", VStr "Medium");
                          ("processing_time", VStr "2.3s") ]]
      /\ agents_of log = ["triage"]
      /\ status log = "failed"
      /\ error log = Some "automation worker crashed"
      /\ agents_called plain Samples.failing_automation Samples.deploy_ticket
         = ["triage"; "automation"])
  /\ (exists log,
         coordinate_ticket_processing plain
           (mock_coordinator Samples.py Samples.clock) Samples.deploy_ticket
         = Ok log
         /\ agents_of log = ["triage"; "automation"; "analytics"]
         /\ agents_called plain (mock_coordinator Samples.py Samples.clock)
                          Samples.deploy_ticket
            = ["triage"; "automation"; "analytics"]
         /\ (status log = "completed" \/ status log = "failed")).
Proof.
  split.
  - exact (proj1 (routed_step_outcomes plain
                    Samples.failing_automation Samples.deploy_ticket
                    (VStr "T-4") _ "automation" eq_refl eq_refl eq_refl)
                 (ExternalError "automation worker crashed") eq_refl).
  - exact (proj2 (routed_step_outcomes plain
                    (mock_coordinator Samples.py Samples.clock)
                    Samples.deploy_ticket
                    (VStr "T-4") _ "automation" eq_refl eq_refl eq_refl)
                 _ _ eq_refl eq_refl).
Defined.

(** C2, as the code has it.  A log returned with status completed carries
    as total the sum of its records' durations as the interpreter computes
    it: every duration is a string, read by [float] without its [s]; the
    floats are added by [sum] and the result is printed with one decimal,
    followed by [s].  A log returned with status failed keeps the initial
    total 0, whatever records it holds.  No other status is returned. *)
Theorem total_time_of_returned_log :
  forall rt self ticket log,
    coordinate_ticket_processing rt self ticket = Ok log ->
    (status log = "completed" ->
     exists seconds,
       Forall2 (fun st x =>
                  exists text,
                    duration st = VStr text
                    /\ float_of_str rt (remove_char text "s") = Ok x)
               (steps log) seconds
       /\ total_time log = VStr (float_1f rt (float_sum rt seconds) ++ "s"))
    /\ (status log = "failed" -> total_time log = VInt 0)
    /\ (status log = "completed" \/ status log = "failed").
Proof.
  intros rt self ticket log. unfold coordinate_ticket_processing.
  destruct (getitem ticket "id") as [i|e] eqn:Hid.
  2:{ unfold run. rewrite Hid. discriminate. }
  rewrite (run_with_id rt _ _ _ Hid).
  assert (Hfail : forall e l,
             total_time l = VInt 0 ->
             Ok (fail e l) = Ok log ->
             (status log = "completed" ->
              exists seconds,
                Forall2 (fun st x =>
                           exists text,
                             duration st = VStr text
                             /\ float_of_str rt (remove_char text "s") = Ok x)
                        (steps log) seconds
                /\ total_time log
                   = VStr (float_1f rt (float_sum rt seconds) ++ "s"))
             /\ (status log = "failed" -> total_time log = VInt 0)
             /\ (status log = "completed" \/ status log = "failed")).
  { intros e l Hl H. injection H as <-. cbn.
    split; [discriminate|]. split; [intros _; exact Hl | now right]. }
  destruct (process_with_agent self "triage" ticket) as [tr|e];
    [|cbn [snd]; now apply Hfail].
  cbv zeta.
  destruct (lower_of rt _) as [a|e]; [|cbn [snd]; now apply Hfail].
  destruct (process_with_agent self (route a) ticket) as [ar|e];
    [|cbn [snd]; now apply Hfail].
  destruct (process_with_agent self "analytics" _) as [an|e];
    [|cbn [snd]; now apply Hfail].
  destruct (durations rt _) as [seconds|e] eqn:Hd;
    [|cbn [snd]; now apply Hfail].
  cbn [snd]. intros H. injection H as <-.
  split; [|split; [discriminate | now left]].
  intros _. exists seconds. split; [|reflexivity].
  apply durations_read. exact Hd.
Qed.

Lemma total_time_of_returned_log_witness :
  exists log,
    coordinate_ticket_processing plain
      (mock_coordinator Samples.py Samples.clock) Samples.deploy_ticket = Ok log
    /\ status log = "completed"
    /\ map duration (steps log) = [VStr "2.3s"; VStr "3.2s"; VStr "0.5s"]
    /\ total_time log = VStr "6.0s"
    /\ exists seconds,
         Forall2 (fun st x =>
                    exists text,
                      duration st = VStr text
                      /\ float_of_str plain (remove_char text "s") = Ok x)
                 (steps log) seconds
         /\ total_time log
            = VStr (float_1f plain (float_sum plain seconds) ++ "s").
Proof.
  assert (H : exists log,
             coordinate_ticket_processing plain
               (mock_coordinator Samples.py Samples.clock) Samples.deploy_ticket
             = Ok log
             /\ status log = "completed"
             /\ map duration (steps log)
                = [VStr "2.3s"; VStr "3.2s"; VStr "0.5s"]
             /\ total_time log = VStr "6.0s")
    by (eexists; split; [vm_compute; reflexivity|]; repeat split; reflexivity).
  destruct H as (log & H & Hs & Hm & Ht).
  exists log. split; [exact H|]. split; [exact Hs|]. split; [exact Hm|].
  split; [exact Ht|].
  exact (proj1 (total_time_of_returned_log plain
                  (mock_coordinator Samples.py Samples.clock)
                  Samples.deploy_ticket log H) Hs).
Defined.

(** The run in which the three agents return. *)
Lemma three_agents_return rt self ticket ticket_id triage_result assigned_agent
      agent_result analytics_result :
  getitem ticket "id" = Ok ticket_id ->
  process_with_agent self "triage" ticket = Ok triage_result ->
  lower_of rt (get triage_result "assigned_agent" (VStr "escalation"))
    = Ok assigned_agent ->
  process_with_agent self (route assigned_agent) ticket = Ok agent_result ->
  process_with_agent self "analytics"
    (analytics_data self ticket ticket_id triage_result assigned_agent
                    agent_result)
    = Ok analytics_result ->
  let recorded :=
    [ triage_step triage_result;
      routed_step assigned_agent agent_result;
      analytics_step analytics_result ] in
  agents_called rt self ticket = ["triage"; route assigned_agent; "analytics"]
  /\ exists log,
       coordinate_ticket_processing rt self ticket = Ok log
       /\ steps log = recorded
       /\ match durations rt recorded with
          | Ok seconds =>
              status log = "completed"
              /\ total_time log
                 = VStr (float_1f rt (float_sum rt seconds) ++ "s")
          | Raise e =>
              status log = "failed"
              /\ total_time log = VInt 0
              /\ error log = Some (str_exn e)
          end.
Proof.
  intros Hid Ht Ha Hr Han recorded.
  unfold coordinate_ticket_processing, agents_called.
  rewrite (run_with_id rt _ _ _ Hid), Ht. cbv zeta. rewrite Ha, Hr, Han.
  cbn [steps with_step initial_log app]. fold recorded.
  destruct (durations rt recorded) as [seconds|e].
  - split; [reflexivity|]. eexists. split; [reflexivity|].
    split; [reflexivity|]. split; reflexivity.
  - split; [reflexivity|]. eexists. split; [reflexivity|].
    split; [reflexivity|]. repeat split; reflexivity.
Qed.

(** X12.  The durations of a log do not come from the triage and
    analytics agents: whatever they report, their records carry 2.3 and
    0.5 seconds.  Only the routed agent's [processing_time] is read, 60
    seconds standing in when it reports none, and a completed total is
    what the interpreter prints for the sum of 2.3, that time and 0.5. *)
Theorem recorded_durations :
  forall rt self ticket ticket_id triage_result assigned_agent agent_result
         analytics_result a q c,
    getitem ticket "id" = Ok ticket_id ->
    process_with_agent self "triage" ticket = Ok triage_result ->
    lower_of rt (get triage_result "assigned_agent" (VStr "escalation"))
      = Ok assigned_agent ->
    process_with_agent self (route assigned_agent) ticket = Ok agent_result ->
    process_with_agent self "analytics"
      (analytics_data self ticket ticket_id triage_result assigned_agent
                      agent_result)
      = Ok analytics_result ->
    float_of_str rt "2.3" = Ok a ->
    seconds_of rt (get agent_result "processing_time" (VStr "60s")) = Ok q ->
    float_of_str rt "0.5" = Ok c ->
    exists log,
      coordinate_ticket_processing rt self ticket = Ok log
      /\ map duration (steps log)
         = [ VStr "2.3s";
             get agent_result "processing_time" (VStr "60s");
             VStr "0.5s" ]
      /\ status log = "completed"
      /\ total_time log = VStr (float_1f rt (float_sum rt [a; q; c]) ++ "s").
Proof.
  intros rt self ticket ticket_id triage_result assigned_agent agent_result
         analytics_result a q c Hid Ht Ha Hr Han Hfa Hq Hfc.
  destruct (three_agents_return rt _ _ _ _ _ _ _ Hid Ht Ha Hr Han)
    as (_ & log & Hc & Hs & Hd).
  exists log. split; [exact Hc|]. rewrite Hs. split; [reflexivity|].
  cbn [durations duration triage_step routed_step analytics_step] in Hd.
  rewrite Hq in Hd. cbn [seconds_of remove_char Ascii.eqb Bool.eqb] in Hd.
  rewrite Hfa, Hfc in Hd. exact Hd.
Qed.

Lemma recorded_durations_witness :
  exists log,
    coordinate_ticket_processing plain MoreSamples.silent_automation
                                 Samples.deploy_ticket = Ok log
    /\ map duration (steps log)
       = [ VStr "2.3s";
           get [("automation_triggered", VBool true)]
               "processing_time" (VStr "60s");
           VStr "0.5s" ]
    /\ status log = "completed"
    /\ total_time log
       = VStr (float_1f plain (float_sum plain [2.3%Q; 60%Q; 0.5%Q]) ++ "s").
Proof.
  exact (recorded_durations plain MoreSamples.silent_automation
           Samples.deploy_ticket (VStr "T-4") _ "automation" _ _
           2.3%Q 60%Q 0.5%Q
           eq_refl eq_refl eq_refl eq_refl eq_refl eq_refl eq_refl eq_refl).
Defined.

(** X13.  Routing.  The record of the routed step is labelled with the
    lower-cased assignment, while the agent called is that name only if
    it is one of the five known ones: any other assignment is handled by
    the escalation agent, whose result is stored under the unknown
    label. *)
Theorem unknown_assignment_goes_to_escalation :
  forall rt self ticket ticket_id triage_result assigned_agent agent_result
         analytics_result,
    getitem ticket "id" = Ok ticket_id ->
    process_with_agent self "triage" ticket = Ok triage_result ->
    lower_of rt (get triage_result "assigned_agent" (VStr "escalation"))
      = Ok assigned_agent ->
    ~ In assigned_agent routes ->
    process_with_agent self "escalation" ticket = Ok agent_result ->
    process_with_agent self "analytics"
      (analytics_data self ticket ticket_id triage_result assigned_agent
                      agent_result)
      = Ok analytics_result ->
    exists log,
      coordinate_ticket_processing rt self ticket = Ok log
      /\ agents_called rt self ticket = ["triage"; "escalation"; "analytics"]
      /\ agents_of log = ["triage"; assigned_agent; "analytics"]
      /\ nth_error (steps log) 1
         = Some {| agent := assigned_agent;
                   duration := get agent_result "processing_time" (VStr "60s");
                   step_result := agent_result |}.
Proof.
  intros rt self ticket ticket_id triage_result assigned_agent agent_result
         analytics_result Hid Ht Ha Hn Hr Han.
  rewrite <- (CoordinatorMore.route_unknown _ Hn) in Hr.
  destruct (three_agents_return rt _ _ _ _ _ _ _ Hid Ht Ha Hr Han)
    as (Hcalls & log & Hc & Hs & _).
  exists log. split; [exact Hc|].
  split; [now rewrite Hcalls, (CoordinatorMore.route_unknown _ Hn)|].
  unfold agents_of. rewrite Hs. split; reflexivity.
Qed.

Lemma unknown_assignment_goes_to_escalation_witness :
  ~ In "billing" routes
  /\ exists log,
       coordinate_ticket_processing plain
         (mock_coordinator Samples.py Samples.clock) MoreSamples.billing_ticket
       = Ok log
       /\ agents_called plain (mock_coordinator Samples.py Samples.clock)
                        MoreSamples.billing_ticket
          = ["triage"; "escalation"; "analytics"]
       /\ agents_of log = ["triage"; "billing"; "analytics"]
       /\ nth_error (steps log) 1
          = Some {| agent := "billing";
                    duration :=
                      get [ ("escalated", VBool true);
                            ("notification_sent", VBool true);
                            ("assigned_human", VStr "support-team");
                            ("processing_time", VStr "1.5s") ]
                          "processing_time" (VStr "60s");
                    step_result :=
                      [ ("escalated", VBool true);
                        ("notification_sent", VBool true);
                        ("assigned_human", VStr "support-team");
                        ("processing_time", VStr "1.5s") ] |}.
Proof.
  assert (Hn : ~ In "billing" routes).
  { unfold routes. simpl. intros H.
    repeat (destruct H as [H|H]; [discriminate H|]). exact H. }
  split; [exact Hn|].
  exact (unknown_assignment_goes_to_escalation plain
           (mock_coordinator Samples.py Samples.clock)
           MoreSamples.billing_ticket (VStr "T-12") _ "billing" _ _
           eq_refl eq_refl eq_refl Hn eq_refl eq_refl).
Defined.

(** X16.  A routed agent that returns but reports a [processing_time]
    the list comprehension cannot read (an object that is not a string, or
    a text [float] rejects) makes the run fail after all three agents have
    answered: the log holds the three records, yet its status is failed,
    its error is that exception's text and its total is still 0. *)
Theorem unreadable_duration_fails_late :
  forall rt self ticket ticket_id triage_result assigned_agent agent_result
         analytics_result a e,
    getitem ticket "id" = Ok ticket_id ->
    process_with_agent self "triage" ticket = Ok triage_result ->
    lower_of rt (get triage_result "assigned_agent" (VStr "escalation"))
      = Ok assigned_agent ->
    process_with_agent self (route assigned_agent) ticket = Ok agent_result ->
    process_with_agent self "analytics"
      (analytics_data self ticket ticket_id triage_result assigned_agent
                      agent_result)
      = Ok analytics_result ->
    float_of_str rt "2.3" = Ok a ->
    seconds_of rt (get agent_result "processing_time" (VStr "60s")) = Raise e ->
    exists log,
      coordinate_ticket_processing rt self ticket = Ok log
      /\ agents_called rt self ticket
         = ["triage"; route assigned_agent; "analytics"]
      /\ agents_of log = ["triage"; assigned_agent; "analytics"]
      /\ status log = "failed"
      /\ error log = Some (str_exn e)
      /\ total_time log = VInt 0.
Proof.
  intros rt self ticket ticket_id triage_result assigned_agent agent_result
         analytics_result a e Hid Ht Ha Hr Han Hfa Hq.
  destruct (three_agents_return rt _ _ _ _ _ _ _ Hid Ht Ha Hr Han)
    as (Hcalls & log & Hc & Hs & Hd).
  exists log. split; [exact Hc|]. split; [exact Hcalls|].
  unfold agents_of. rewrite Hs. split; [reflexivity|].
  cbn [durations duration triage_step routed_step analytics_step] in Hd.
  rewrite Hq in Hd. cbn [seconds_of remove_char Ascii.eqb Bool.eqb] in Hd.
  rewrite Hfa in Hd. cbn [bind] in Hd. tauto.
Qed.

Lemma unreadable_duration_fails_late_witness :
  seconds_of plain (get [ ("automation_triggered", VBool true);
                          ("processing_time", VInt 3) ]
                        "processing_time" (VStr "60s"))
  = Raise (AttributeError "'int' object has no attribute 'replace'")
  /\ exists log,
       coordinate_ticket_processing plain MoreSamples.numeric_time
                                    Samples.deploy_ticket = Ok log
       /\ agents_called plain MoreSamples.numeric_time Samples.deploy_ticket
          = ["triage"; route "automation"; "analytics"]
       /\ agents_of log = ["triage"; "automation"; "analytics"]
       /\ status log = "failed"
       /\ error log
          = Some (str_exn (AttributeError
                             "'int' object has no attribute 'replace'"))
       /\ total_time log = VInt 0.
Proof.
  split; [reflexivity|].
  exact (unreadable_duration_fails_late plain MoreSamples.numeric_time
           Samples.deploy_ticket (VStr "T-4") _ "automation" _ _ 2.3%Q _
           eq_refl eq_refl eq_refl eq_refl eq_refl eq_refl eq_refl).
Defined.

(** The exact decimals of the plain interpreter print the mock totals as
    Python's floats do. *)
Lemma plain_prints_mock_totals : prints_mock_totals plain.
Proof.
  repeat split; eexists; eexists; eexists;
    (split; [reflexivity|]); (split; [reflexivity|]);
    (split; [reflexivity|]); vm_compute; reflexivity.
Qed.

(** X18.  With the shipped mock agents a ticket that has an id and whose
    [expectedAgent], if any, is a string is always completed, and its
    total depends on the routed agent alone.  Given what the interpreter
    prints for the five sums, it is 4.6s for knowledge, 6.0s for
    automation, 6.9s for learning, 3.6s for analytics and 4.3s for
    escalation, which also serves every unknown name. *)
Theorem mock_total_by_route :
  forall rt py clock ticket ticket_id expected,
    prints_mock_totals rt ->
    getitem ticket "id" = Ok ticket_id ->
    get ticket "expectedAgent" (VStr "Escalation") = VStr expected ->
    exists log,
      coordinate_ticket_processing rt (mock_coordinator py clock) ticket = Ok log
      /\ status log = "completed"
      /\ agents_called rt (mock_coordinator py clock) ticket
         = ["triage"; route (str_lower rt expected); "analytics"]
      /\ total_time log = VStr (mock_total (route (str_lower rt expected))).
Proof.
  intros rt py clock ticket ticket_id expected Hrt Hid He.
  set (self := mock_coordinator py clock).
  set (a := str_lower rt expected).
  assert (Ht : process_with_agent self "triage" ticket
               = Ok [ ("assigned_agent", VStr expected);
                      ("confidence", VFloat 0.95);
                      ("category", get ticket "category" (VStr "General"));
                      ("priority", get ticket "priority" (VStr "Medium"));
                      ("processing_time", VStr "2.3s") ]).
  { cbn [self process_with_agent mock_coordinator].
    rewrite (mock_answer py _ _ _ Hid), He. reflexivity. }
  assert (Hr : exists agent_result routed routed_time total,
             process_with_agent self (route a) ticket = Ok agent_result
             /\ get agent_result "processing_time" (VStr "60s") = VStr routed
             /\ remove_char routed "s" = routed_time
             /\ adds_to rt "2.3" routed_time "0.5" total
             /\ mock_total (route a) = total ++ "s").
  { cbn [self process_with_agent mock_coordinator].
    rewrite (mock_answer py _ _ _ Hid).
    destruct Hrt as (Hk & Hau & Hes & Hle & Han).
    unfold route.
    repeat match goal with
           | |- context [a =? ?k] => destruct (a =? k)
           end;
      (eexists; eexists; eexists; eexists; split; [reflexivity|];
       split; [reflexivity|]; split; [reflexivity|];
       split; [eassumption | reflexivity]). }
  destruct Hr as (agent_result & routed & routed_time & total
                  & Hr & Hg & Hrem & Hadd & Htot).
  pose proof (mock_answer py "analytics"
                (analytics_data self ticket ticket_id
                   [ ("assigned_agent", VStr expected);
                     ("confidence", VFloat 0.95);
                     ("category", get ticket "category" (VStr "General"));
                     ("priority", get ticket "priority" (VStr "Medium"));
                     ("processing_time", VStr "2.3s") ] a agent_result)
                ticket_id (analytics_data_id self _ _ _ _ _ Hid)) as Han.
  cbn [String.eqb Ascii.eqb Bool.eqb] in Han.
  destruct (three_agents_return rt self ticket ticket_id _ a _ _
              Hid Ht eq_refl Hr Han) as (Hcalls & log & Hc & Hs & Hd).
  exists log. split; [exact Hc|].
  destruct Hadd as (x & y & z & Hx & Hy & Hz & Hsum).
  cbn [durations duration triage_step routed_step analytics_step] in Hd.
  rewrite Hg in Hd.
  cbn [seconds_of] in Hd. rewrite Hrem in Hd.
  cbn [remove_char Ascii.eqb Bool.eqb] in Hd.
  rewrite Hx, Hy, Hz in Hd. cbn [bind] in Hd.
  destruct Hd as (Hst & Htt).
  split; [exact Hst|]. split; [exact Hcalls|].
  rewrite Htt, Hsum, Htot. reflexivity.
Qed.

Lemma mock_total_by_route_witness :
  prints_mock_totals plain
  /\ exists log,
       coordinate_ticket_processing plain
         (mock_coordinator Samples.py Samples.clock) MoreSamples.billing_ticket
       = Ok log
       /\ status log = "completed"
       /\ agents_called plain (mock_coordinator Samples.py Samples.clock)
                        MoreSamples.billing_ticket
          = ["triage"; route (str_lower plain "Billing"); "analytics"]
       /\ total_time log = VStr (mock_total (route (str_lower plain "Billing"))).
Proof.
  split; [exact plain_prints_mock_totals|].
  exact (mock_total_by_route plain Samples.py Samples.clock
           MoreSamples.billing_ticket (VStr "T-12") "Billing"
           plain_prints_mock_totals eq_refl eq_refl).
Defined.

(** Scenario D with the shipped agents: three calls, three records,
    6.0s. *)
Example deploy_ticket_run :
  run plain (mock_coordinator Samples.py Samples.clock) Samples.deploy_ticket
  = ( [ ("triage", Samples.deploy_ticket);
        ("automation", Samples.deploy_ticket);
        ("analytics",
          analytics_data (mock_coordinator Samples.py Samples.clock)
            Samples.deploy_ticket (VStr "T-4")
            [ ("assigned_agent", VStr "Automation");
              ("confidence", VFloat 0.95);
              ("category", VStr "General");
              ("priority", VStr "Medium");
              ("processing_time", VStr "2.3s") ]
            "automation"
            [ ("automation_triggered", VBool true);
              ("workflow_id", VStr "wf-T-4");
              ("estimated_completion", VStr "45s");
              ("processing_time", VStr "3.2s") ]) ],
      coordinate_ticket_processing plain
        (mock_coordinator Samples.py Samples.clock) Samples.deploy_ticket ).
Proof. vm_compute. reflexivity. Qed.

Lemma durations_plain sts : durations plain sts = Coordinator.durations sts.
Proof.
  induction sts as [|st sts IH]; [reflexivity|].
  cbn [durations Coordinator.durations]. rewrite IH. reflexivity.
Qed.

(** On ASCII text and decimal numerals the coordinator of module
    [Coordinator] returns what this one returns. *)
Lemma coordinate_plain self ticket :
  Coordinator.coordinate_ticket_processing self ticket
  = coordinate_ticket_processing plain self ticket.
Proof.
  unfold coordinate_ticket_processing, Coordinator.coordinate_ticket_processing.
  destruct (getitem ticket "id") as [i|e] eqn:Hid.
  2:{ unfold run. rewrite Hid. reflexivity. }
  rewrite (run_with_id plain _ _ _ Hid). cbn [bind].
  unfold Coordinator.process_steps, Coordinator.and_then, Coordinator.lift,
    Coordinator.append_step, Coordinator.read, Coordinator.complete.
  destruct (process_with_agent self "triage" ticket) as [tr|]; [|reflexivity].
  cbv zeta.
  change (lower_of plain (get tr "assigned_agent" (VStr "escalation")))
    with (Py.lower_of (get tr "assigned_agent" (VStr "escalation"))).
  destruct (Py.lower_of _) as [a|]; [|reflexivity].
  destruct (process_with_agent self (route a) ticket) as [ar|]; [|reflexivity].
  unfold analytics_data, triage_step, routed_step.
  destruct (process_with_agent self "analytics" _) as [an|]; [|reflexivity].
  rewrite durations_plain.
  destruct (Coordinator.durations _) as [seconds|]; reflexivity.
Qed.

End PipelineSpec.

(* ################################################################# *)
(** * The keyword search service on arbitrary queries *)

Module KeywordSearchSpec.
Import Runtime KnowledgeService KeywordSearch PyFacts KnowledgeServiceSpec.





(** The word [error] occurs in two keys; a word found only in a solution
    gives the lower confidence. *)
Example error_query_titles :
  map (lookup "title")
      (matches plain {| query := "Error"; category := "Technical" |})
  = [Some (VStr "Login Error"); Some (VStr "Database Error")].
Proof. reflexivity. Qed.

Example firewall_query_confidence :
  map confidence_of
      (matches plain {| query := "firewall"; category := "Network" |})
  = [Some (VFloat 0.7)].
Proof. reflexivity. Qed.

(** On ASCII queries the search of module [KnowledgeService] is this
    one. *)
Lemma matches_plain request :
  KnowledgeService.matches request = matches plain request.
Proof. reflexivity. Qed.

End KeywordSearchSpec.
